(** * Order / payment / refund workflow of the Spectrax backend

    A shallow embedding of the order controller (createRazorpayOrder aside):
    [verifyRazorpayPayment], [placeOrder], [placeWalletOrder],
    [returnOrderStatusUpdate], [orderStatusUpdate] and [processRefund],
    together with the part of the document store they read and write.
    [orderById] and [refundOrders] are embedded as well; the listings
    [fetchOrders] and [getallorders], which sort and read a user collection,
    are not.

    Modelling conventions.
    - JavaScript numbers that carry money are rationals ([Q]); quantities and
      timestamps are integers ([Z]).  Rounding and NaN are outside the model.
    - Request bodies are typed as the controller destructures them: ids,
      codes and statuses are strings, amounts are numbers, [products] is a
      list of lines each carrying its [variant].  A string field that is
      absent is the empty string: every test the controller makes on such a
      field is a truthiness test or a [===] against a non-empty literal,
      which cannot tell the two apart.  Only [finalAmount] of placeOrder is
      optional as a number, because [finalAmount || ...] reads it.
    - A Mongoose document read from a collection is a value; [save] writes
      it back under its key.
    - [new mongoose.Types.ObjectId()] draws from a counter kept in the store.
    - [new Date()] is the parameter [now] of a handler.
    - Promise.all over per-item updates is run in list order.
    - Storage and gateway failures (the [catch] arms answering 500) are not
      modelled.  This includes the cast failure of a query on an id that is
      not an ObjectId: the model answers such an id as one that is not
      stored, so the statements that classify the answers of the endpoints
      taking an order id are made for a stored order, and the statements on
      the validation of a checkout speak of 400 and 201 only. *)

From Stdlib Require Import QArith Qminmax Lqa ZArith Lia.
From stdpp Require Import gmap strings list fin_maps pretty.

Local Open Scope string_scope.

(** ** JavaScript helpers *)

(** [a === b] on two strings. *)
Definition streq (a b : string) : bool := String.eqb a b.

(** Truthiness of a string: only the empty string is falsy. *)
Definition truthy (a : string) : bool := negb (streq a "").

(** [a < b] and [a == 0] on numbers. *)
Definition Qltb (a b : Q) : bool := negb (Qle_bool b a).
Definition Qis_zero (a : Q) : bool := Qeq_bool a 0.

(** [x || y] where [x] is a possibly absent number: [undefined] and [0] are
    falsy. *)
Definition num_or (x : option Q) (y : Q) : Q :=
  match x with
  | Some v => if Qis_zero v then y else v
  | None => y
  end.

(** [[...].includes(x)] *)
Definition includes (l : list string) (x : string) : bool :=
  existsb (streq x) l.

(** ** Data model *)

(** A product variant: only the stock counter is read by the controller. *)
Record Variant := mkVariant {
  v_id : string;
  availableQuantity : Z
}.

Record Product := mkProduct {
  p_name : string;
  variants : list Variant
}.

(** The variant snapshot a checkout request carries for each line. *)
Record VariantSnap := mkVariantSnap {
  vs_name : string;
  vs_price : Q
}.

(** A line of [req.body.products]; the stored order keeps the same fields,
    with [price] copied from [variant.price]. *)
Record Item := mkItem {
  productId : string;
  variantId : string;
  name : string;
  quantity : Z;
  variant : VariantSnap
}.

Record OrderItem := mkOrderItem {
  oi_productId : string;
  oi_variantId : string;
  oi_name : string;
  oi_quantity : Z;
  oi_price : Q;
  oi_variant : VariantSnap
}.

Record Address := mkAddress {
  address : string;
  city : string;
  state : string;
  country : string;
  pinCode : string
}.

Record Coupon := mkCoupon {
  c_id : string;
  c_name : string;
  CouponType : string;
  offerPrice : Q;
  expireOn : Z;
  isListed : string
}.

Record CouponSnap := mkCouponSnap {
  couponId : string;
  code : string;
  discountType : string;
  cs_discountAmount : Q
}.

Record Razorpay := mkRazorpay {
  rz_orderId : string;
  rz_paymentId : option string;
  rz_signature : option string
}.

Record ReturnDetails := mkReturnDetails {
  reason : string;
  description : string;
  returnDate : Z
}.

Record Order := mkOrder {
  o_id : string;
  o_userId : string;
  o_products : list OrderItem;
  o_shippingAddress : Address;
  paymentMethod : string;
  totalAmount : Q;
  coupon : option CouponSnap;
  discountAmount : Q;
  finalAmount : Q;
  orderDate : Z;
  orderStatus : string;
  paymentStatus : string;
  razorpay : option Razorpay;
  returnDetails : option ReturnDetails
}.

Record Transaction := mkTransaction {
  transaction_id : string;
  t_type : string;
  amount : Q;
  t_description : string;
  t_status : string;
  t_date : option Z
}.

(** A wallet document without its [userId], which is its key in the
    collection. *)
Record Wallet := mkWallet {
  balance : Q;
  transactions : list Transaction
}.

(** The collections.  [Product], [Wallet] and [Cart] are keyed ([_id],
    [userId], [userId]); [Order] and [Coupon] are kept in insertion order
    because [findOne] on a non-key field answers the first match. *)
Record Store := mkStore {
  Products : gmap string Product;
  Wallets : gmap string Wallet;
  Carts : gmap string (list string);
  Coupons : list Coupon;
  Orders : list Order;
  next_oid : nat
}.

(** ** Responses *)

Record WalletInfo := mkWalletInfo {
  currentBalance : Q;
  lastTransaction : option Transaction
}.

Record Response := mkResponse {
  r_status : Z;
  r_message : string;
  r_order : option Order;
  r_wallet : option WalletInfo
}.

Definition json (st : Z) (msg : string) : Response :=
  mkResponse st msg None None.

(** ** The handler monad

    A handler threads the store and may leave early with
    [return res.status(..).json(..)]; what it wrote before leaving stays
    written. *)

Definition Handler (A : Type) : Type := Store -> Store * (Response + A).

Definition ret {A} (a : A) : Handler A := fun s => (s, inr a).

Definition bind {A B} (m : Handler A) (k : A -> Handler B) : Handler B :=
  fun s =>
    match m s with
    | (s', inl r) => (s', inl r)
    | (s', inr a) => k a s'
    end.

Definition reply {A} (r : Response) : Handler A := fun s => (s, inl r).

Definition gets {A} (f : Store -> A) : Handler A := fun s => (s, inr (f s)).

Definition modify (f : Store -> Store) : Handler unit :=
  fun s => (f s, inr tt).

Definition when (b : bool) (m : Handler unit) : Handler unit :=
  if b then m else ret tt.

Declare Scope handler_scope.
Delimit Scope handler_scope with handler.
Notation "'do' x <- m ;; k" := (bind m (fun x => k))
  (at level 10, x name, m at level 99, k at level 200) : handler_scope.
Notation "'exec' m ;; k" := (bind m (fun _ => k))
  (at level 10, m at level 99, k at level 200) : handler_scope.

(** Running a handler: the response sent and the store left behind. *)
Definition run (h : Handler Response) (s : Store) : Store * Response :=
  match h s with
  | (s', inl r) => (s', r)
  | (s', inr r) => (s', r)
  end.

(** [for (const x of l) { body }] *)
Fixpoint forEach {A} (l : list A) (body : A -> Handler unit) : Handler unit :=
  match l with
  | [] => ret tt
  | x :: l' => bind (body x) (fun _ => forEach l' body)
  end.

Local Open Scope handler_scope.

(** ** Store access: the Mongoose calls the controller makes *)

Definition set_Products (f : gmap string Product -> gmap string Product)
    (s : Store) : Store :=
  mkStore (f (Products s)) (Wallets s) (Carts s) (Coupons s) (Orders s)
    (next_oid s).

Definition set_Wallets (f : gmap string Wallet -> gmap string Wallet)
    (s : Store) : Store :=
  mkStore (Products s) (f (Wallets s)) (Carts s) (Coupons s) (Orders s)
    (next_oid s).

Definition set_Carts (f : gmap string (list string) -> gmap string (list string))
    (s : Store) : Store :=
  mkStore (Products s) (Wallets s) (f (Carts s)) (Coupons s) (Orders s)
    (next_oid s).

Definition set_Orders (f : list Order -> list Order) (s : Store) : Store :=
  mkStore (Products s) (Wallets s) (Carts s) (Coupons s) (f (Orders s))
    (next_oid s).

(** The string form of the [n]-th ObjectId drawn. *)
Definition oid_of (n : nat) : string := pretty n.

(** [new mongoose.Types.ObjectId().toString()] *)
Definition freshObjectId : Handler string :=
  fun s =>
    (mkStore (Products s) (Wallets s) (Carts s) (Coupons s) (Orders s)
       (S (next_oid s)),
     inr (oid_of (next_oid s))).

(** [Coupon.findOne({ name: code, isListed: "active",
                      expireOn: { $gt: now } })] *)
Definition eligible (code : string) (now : Z) (c : Coupon) : bool :=
  streq (c_name c) code && streq (isListed c) "active"
  && (now <? expireOn c)%Z.

Definition Coupon_findOne (code : string) (now : Z) : Handler (option Coupon) :=
  gets (fun s => List.find (eligible code now) (Coupons s)).

(** [Product.findOne({ _id: pid, 'variants._id': vid,
                       'variants.availableQuantity': { $gte: q } })].

    The two conditions on the [variants] array are separate dotted-path
    conditions, not one [$elemMatch]: MongoDB matches the document when
    some element has the id and some element, possibly another one, has
    the quantity.  The projection ['variants.$'] only shapes the answer,
    which the caller tests for null. *)
Definition has_variant (vid : string) (p : Product) : bool :=
  existsb (fun v => streq (v_id v) vid) (variants p).

Definition has_quantity (q : Z) (p : Product) : bool :=
  existsb (fun v => (q <=? availableQuantity v)%Z) (variants p).

Definition Product_findStock (pid vid : string) (q : Z)
    : Handler (option Product) :=
  gets (fun s =>
    match Products s !! pid with
    | Some p => if has_variant vid p && has_quantity q p then Some p else None
    | None => None
    end).

(** [$inc: { 'variants.$.availableQuantity': d }]: the positional operator
    is the first element matching ['variants._id': vid]. *)
Fixpoint inc_first (vid : string) (d : Z) (vs : list Variant) : list Variant :=
  match vs with
  | [] => []
  | v :: vs' =>
      if streq (v_id v) vid
      then mkVariant (v_id v) (availableQuantity v + d) :: vs'
      else v :: inc_first vid d vs'
  end.

(** [Product.findOneAndUpdate({ _id: pid, 'variants._id': vid },
                              { $inc: { 'variants.$.availableQuantity': d } })];
    no matching document, no write. *)
Definition incStock (pid vid : string) (d : Z) (ps : gmap string Product)
    : gmap string Product :=
  match ps !! pid with
  | Some p =>
      if has_variant vid p
      then <[pid := mkProduct (p_name p) (inc_first vid d (variants p))]> ps
      else ps
  | None => ps
  end.

Definition Product_incStock (pid vid : string) (d : Z) : Handler unit :=
  modify (set_Products (incStock pid vid d)).

(** [Product.findOne({ _id: pid })] *)
Definition Product_findOne (pid : string) : Handler (option Product) :=
  gets (fun s => Products s !! pid).

(** [product.save()] *)
Definition Product_save (pid : string) (p : Product) : Handler unit :=
  modify (set_Products (fun ps => <[pid := p]> ps)).

(** [product.variants.findIndex(v => v._id.toString() === vid.toString())];
    [None] is the answer -1. *)
Fixpoint findIndex (vid : string) (vs : list Variant) : option nat :=
  match vs with
  | [] => None
  | v :: vs' =>
      if streq (v_id v) vid then Some 0%nat
      else match findIndex vid vs' with
           | Some i => Some (S i)
           | None => None
           end
  end.

(** [Cart.findOneAndUpdate({ userId }, { $set: { items: [] } })] *)
Definition Cart_clear (uid : string) : Handler unit :=
  modify (set_Carts (fun cs => alter (fun _ => []) uid cs)).

(** [Wallet.findOne({ userId })] and [wallet.save()] *)
Definition Wallet_findOne (uid : string) : Handler (option Wallet) :=
  gets (fun s => Wallets s !! uid).

Definition Wallet_save (uid : string) (w : Wallet) : Handler unit :=
  modify (set_Wallets (fun ws => <[uid := w]> ws)).

(** [Order.findById(id)] *)
Definition Order_findById (id : string) : Handler (option Order) :=
  gets (fun s => List.find (fun o => streq (o_id o) id) (Orders s)).

(** [new Order(orderData).save()]: a new document at the end of the
    collection. *)
Definition Order_insert (o : Order) : Handler unit :=
  modify (set_Orders (fun os => (os ++ [o])%list)).

(** Rewrite the first element on which [f] answers. *)
Fixpoint update_first {A} (f : A -> option A) (l : list A) : list A :=
  match l with
  | [] => []
  | x :: l' =>
      match f x with
      | Some y => y :: l'
      | None => x :: update_first f l'
      end
  end.

(** [orderDetails.save()] on a document read with [findById]: the stored
    document with the same [_id] is replaced. *)
Definition saved (o : Order) : Order -> option Order :=
  fun o' => if streq (o_id o') (o_id o) then Some o else None.

Definition Order_save (o : Order) : Handler unit :=
  modify (set_Orders (update_first (saved o))).

(** Field updates on an order document. *)
Definition with_orderStatus (st : string) (o : Order) : Order :=
  mkOrder (o_id o) (o_userId o) (o_products o) (o_shippingAddress o)
    (paymentMethod o) (totalAmount o) (coupon o) (discountAmount o)
    (finalAmount o) (orderDate o) st (paymentStatus o) (razorpay o)
    (returnDetails o).

Definition with_paymentStatus (st : string) (o : Order) : Order :=
  mkOrder (o_id o) (o_userId o) (o_products o) (o_shippingAddress o)
    (paymentMethod o) (totalAmount o) (coupon o) (discountAmount o)
    (finalAmount o) (orderDate o) (orderStatus o) st (razorpay o)
    (returnDetails o).

Definition with_returnDetails (rd : option ReturnDetails) (o : Order) : Order :=
  mkOrder (o_id o) (o_userId o) (o_products o) (o_shippingAddress o)
    (paymentMethod o) (totalAmount o) (coupon o) (discountAmount o)
    (finalAmount o) (orderDate o) (orderStatus o) (paymentStatus o)
    (razorpay o) rd.

Definition with_razorpay (rz : option Razorpay) (o : Order) : Order :=
  mkOrder (o_id o) (o_userId o) (o_products o) (o_shippingAddress o)
    (paymentMethod o) (totalAmount o) (coupon o) (discountAmount o)
    (finalAmount o) (orderDate o) (orderStatus o) (paymentStatus o)
    rz (returnDetails o).

(** ** processRefund *)

Definition refundTransaction (tid : string) (order : Order) (now : Z)
    : Transaction :=
  mkTransaction tid "refund" (finalAmount order)
    ("Refund for order " ++ o_id order) "completed" (Some now).

Definition processRefund (now : Z) (order : Order) : Handler Wallet :=
  let refundAmount := finalAmount order in
  do found <- Wallet_findOne (o_userId order) ;;
  match found with
  | None =>
      do tid <- freshObjectId ;;
      let wallet :=
        mkWallet refundAmount [refundTransaction tid order now] in
      exec Wallet_save (o_userId order) wallet ;;
      ret wallet
  | Some wallet =>
      do tid <- freshObjectId ;;
      let wallet :=
        mkWallet (balance wallet + refundAmount)%Q
          (transactions wallet ++ [refundTransaction tid order now])%list in
      exec Wallet_save (o_userId order) wallet ;;
      ret wallet
  end.

(** ** verifyRazorpayPayment

    [crypto.createHmac("sha256", key).update(msg).digest("hex")] and the
    secret [process.env.RAZORPAY_KEY_SECRET] are parameters. *)

Record VerifyBody := mkVerifyBody {
  razorpay_order_id : string;
  razorpay_payment_id : string;
  razorpay_signature : string
}.

Section Gateway.

Variable hmac_sha256_hex : string -> string -> string.
Variable RAZORPAY_KEY_SECRET : string.

Definition expectedSignature (body : VerifyBody) : string :=
  hmac_sha256_hex RAZORPAY_KEY_SECRET
    (razorpay_order_id body ++ "|" ++ razorpay_payment_id body).

Definition isAuthentic (body : VerifyBody) : bool :=
  streq (expectedSignature body) (razorpay_signature body).

(** [Order.findOneAndUpdate({ "razorpay.orderId": id }, { $set: ... })]
    on one document: the update when the filter matches. *)
Definition confirm_payment (body : VerifyBody) (o : Order) : option Order :=
  match razorpay o with
  | Some rz =>
      if streq (rz_orderId rz) (razorpay_order_id body)
      then Some (with_paymentStatus "Completed"
                   (with_razorpay
                      (Some (mkRazorpay (rz_orderId rz)
                               (Some (razorpay_payment_id body))
                               (Some (razorpay_signature body))))
                      o))
      else None
  | None => None
  end.

Definition verifyRazorpayPayment (body : VerifyBody) : Handler Response :=
  exec when (negb (isAuthentic body))
         (reply (json 400 "Payment verification failed")) ;;
  exec modify (set_Orders (update_first (confirm_payment body))) ;;
  ret (json 200 "Payment verified successfully").

End Gateway.

(** ** placeOrder *)

Record PlaceOrderBody := mkPlaceOrderBody {
  b_userId : string;
  b_products : list Item;
  b_shippingAddress : option Address;
  b_paymentMethod : string;
  b_couponCode : string;
  b_totalAmount : Q;
  b_finalAmount : option Q;
  b_razorpayOrderId : string;
  b_status : string
}.

(** [products.map(item => ({ ..., price: item.variant.price, ... }))] *)
Definition orderItem (item : Item) : OrderItem :=
  mkOrderItem (productId item) (variantId item) (name item) (quantity item)
    (vs_price (variant item)) (variant item).

(** [appliedCoupon ? { couponId, code, discountType, discountAmount } : null] *)
Definition couponSnap (appliedCoupon : option Coupon) (discountAmount : Q)
    : option CouponSnap :=
  match appliedCoupon with
  | Some c => Some (mkCouponSnap (c_id c) (c_name c) (CouponType c) discountAmount)
  | None => None
  end.

(** The coupon block of placeOrder: [appliedCoupon] and [discountAmount]. *)
Definition placeOrder_coupon (now : Z) (couponCode : string) (totalAmount : Q)
    : Handler (option Coupon * Q) :=
  if truthy couponCode then
    do appliedCoupon <- Coupon_findOne couponCode now ;;
    match appliedCoupon with
    | Some c =>
        let discountAmount :=
          if streq (CouponType c) "percentage"
          then ((totalAmount * offerPrice c) / 100)%Q
          else offerPrice c in
        let discountAmount := Qmin discountAmount totalAmount in
        ret (appliedCoupon, discountAmount)
    | None => ret (None, 0%Q)
    end
  else ret (None, 0%Q).

(** The stock check run for every line before anything is written: the
    body of the loop, and the loop. *)
Definition verifyStockItem (item : Item) : Handler unit :=
  do product <- Product_findStock (productId item) (variantId item)
                  (quantity item) ;;
  match product with
  | None => reply (json 400 ("Insufficient stock for product " ++ name item))
  | Some _ => ret tt
  end.

Definition verifyStock (products : list Item) : Handler unit :=
  forEach products verifyStockItem.

(** The decrements awaited together, one [$inc] per line. *)
Definition reserveStock (products : list Item) : Handler unit :=
  forEach products (fun item =>
    Product_incStock (productId item) (variantId item) (- quantity item)).

Definition placeOrder (now : Z) (body : PlaceOrderBody) : Handler Response :=
  let userId := b_userId body in
  let products := b_products body in
  let paymentMethod := b_paymentMethod body in
  let totalAmount := b_totalAmount body in
  let status := b_status body in
  match b_shippingAddress body with
  | None => reply (json 400 "All fields are required.")
  | Some shippingAddress =>
    exec when (negb (truthy userId) || Nat.eqb (length products) 0
               || negb (truthy paymentMethod))
           (reply (json 400 "All fields are required.")) ;;
    do priced <- placeOrder_coupon now (b_couponCode body) totalAmount ;;
    let appliedCoupon := fst priced in
    let discountAmount := snd priced in
    exec verifyStock products ;;
    do newId <- freshObjectId ;;
    let newOrder :=
      mkOrder newId userId (map orderItem products) shippingAddress
        paymentMethod totalAmount (couponSnap appliedCoupon discountAmount)
        discountAmount
        (num_or (b_finalAmount body) (totalAmount - discountAmount)%Q)
        now
        (if streq status "Payment Failed" then "Payment Failed" else "Processing")
        (if streq status "Payment Failed" then "Failed"
         else if streq paymentMethod "RazorpayX" then "Completed" else "Pending")
        (if streq paymentMethod "RazorpayX" && truthy (b_razorpayOrderId body)
         then Some (mkRazorpay (b_razorpayOrderId body) None None) else None)
        None in
    exec Order_insert newOrder ;;
    exec when (negb (streq (orderStatus newOrder) "Payment Failed"))
           (exec reserveStock products ;; Cart_clear userId) ;;
    ret (mkResponse 201
           (if streq status "Payment Failed"
            then "Order created with payment failure"
            else "Order placed successfully.")
           (Some newOrder) None)
  end.

(** ** placeWalletOrder *)

Record WalletOrderBody := mkWalletOrderBody {
  wb_userId : string;
  wb_products : list Item;
  wb_shippingAddress : option Address;
  wb_couponCode : string;
  wb_totalAmount : Q;
  wb_finalAmount : Q
}.

Definition placeWalletOrder_coupon (now : Z) (couponCode : string)
    (totalAmount : Q) : Handler (option Coupon * Q) :=
  if truthy couponCode then
    do appliedCoupon <- Coupon_findOne couponCode now ;;
    match appliedCoupon with
    | Some c =>
        let discountAmount :=
          if streq (CouponType c) "percentage"
          then ((totalAmount * offerPrice c) / 100)%Q
          else offerPrice c in
        ret (appliedCoupon, Qmin discountAmount totalAmount)
    | None => ret (None, 0%Q)
    end
  else ret (None, 0%Q).

Definition walletPayment (tid : string) (finalAmount : Q) : Transaction :=
  mkTransaction tid "wallet" finalAmount "Order payment using wallet"
    "completed" None.

Definition placeWalletOrder (now : Z) (body : WalletOrderBody)
    : Handler Response :=
  let userId := wb_userId body in
  let products := wb_products body in
  let totalAmount := wb_totalAmount body in
  let finalAmount := wb_finalAmount body in
  match wb_shippingAddress body with
  | None => reply (json 400 "All fields are required.")
  | Some shippingAddress =>
    exec when (negb (truthy userId) || Nat.eqb (length products) 0)
           (reply (json 400 "All fields are required.")) ;;
    do found <- Wallet_findOne userId ;;
    match found with
    | None => reply (json 400 "Insufficient wallet balance.")
    | Some userWallet =>
      exec when (Qltb (balance userWallet) finalAmount)
             (reply (json 400 "Insufficient wallet balance.")) ;;
      do priced <- placeWalletOrder_coupon now (wb_couponCode body) totalAmount ;;
      let appliedCoupon := fst priced in
      let discountAmount := snd priced in
      exec verifyStock products ;;
      do tid <- freshObjectId ;;
      let userWallet :=
        mkWallet (balance userWallet - finalAmount)%Q
          (transactions userWallet ++ [walletPayment tid finalAmount])%list in
      exec Wallet_save userId userWallet ;;
      do newId <- freshObjectId ;;
      let newOrder :=
        mkOrder newId userId (map orderItem products) shippingAddress
          "Wallet" totalAmount (couponSnap appliedCoupon discountAmount)
          discountAmount
          (num_or (Some finalAmount) (totalAmount - discountAmount)%Q)
          now "Processing" "Completed" None None in
      exec Order_insert newOrder ;;
      exec reserveStock products ;;
      exec Cart_clear userId ;;
      ret (mkResponse 201 "Order placed successfully using wallet."
             (Some newOrder) None)
    end
  end.

(** ** returnOrderStatusUpdate *)

Record ReturnBody := mkReturnBody {
  rb_status : string;
  returnReason : string;
  returnDescription : string
}.

(** [{ currentBalance: wallet.balance,
       lastTransaction: wallet.transactions[wallet.transactions.length - 1] }] *)
Definition walletInfo (wallet : Wallet) : WalletInfo :=
  mkWalletInfo (balance wallet) (last (transactions wallet)).

Definition returnOrderStatusUpdate (now : Z) (id : string) (body : ReturnBody)
    : Handler Response :=
  let status := rb_status body in
  exec when (negb (truthy status)) (reply (json 400 "Status is required")) ;;
  do found <- Order_findById id ;;
  match found with
  | None => reply (json 404 "Order not found")
  | Some orderDetails =>
    exec when (negb (streq status "Returned"))
           (reply (json 400 "Invalid status for return order")) ;;
    exec when (negb (truthy (returnReason body))
               || negb (truthy (returnDescription body)))
           (reply (json 400 "Return reason and description are required")) ;;
    exec when (negb (streq (orderStatus orderDetails) "Delivered"))
           (reply (json 400 "Only delivered orders can be returned")) ;;
    let orderDetails :=
      with_returnDetails
        (Some (mkReturnDetails (returnReason body) (returnDescription body) now))
        orderDetails in
    if streq (paymentStatus orderDetails) "Completed" then
      do wallet <- processRefund now orderDetails ;;
      let updatedOrder := with_orderStatus status orderDetails in
      exec Order_save updatedOrder ;;
      ret (mkResponse 200 "Return processed successfully"
             (Some updatedOrder) (Some (walletInfo wallet)))
    else
      let updatedOrder := with_orderStatus status orderDetails in
      exec Order_save updatedOrder ;;
      ret (mkResponse 200 "Return processed successfully"
             (Some updatedOrder) None)
  end.

(** ** orderStatusUpdate *)

(** The cancellation restock: one [$inc] per line. *)
Definition restockCancelled (products : list OrderItem) : Handler unit :=
  forEach products (fun item =>
    Product_incStock (oi_productId item) (oi_variantId item) (oi_quantity item)).

(** The return restock of the status endpoint: read the product, locate the
    variant, add the quantity, save; a missing product or variant is logged
    and skipped.  The callbacks run one after the other here; two lines of
    one order racing on the same product between read and save are outside
    the model. *)
Definition restockReturnedItem (item : OrderItem) : Handler unit :=
  do found <- Product_findOne (oi_productId item) ;;
  match found with
  | None => ret tt
  | Some product =>
      match findIndex (oi_variantId item) (variants product) with
      | None => ret tt
      | Some variantIndex =>
          Product_save (oi_productId item)
            (mkProduct (p_name product)
               (alter (fun v => mkVariant (v_id v)
                                  (availableQuantity v + oi_quantity item))
                      variantIndex (variants product)))
      end
  end.

Definition restockReturned (products : list OrderItem) : Handler unit :=
  forEach products restockReturnedItem.

Definition validStatuses : list string :=
  ["Processing"; "Confirmed"; "Shipped"; "Delivered"; "Cancelled"; "Returned"].

(** The block under [// Handle Cancellation]. *)
Definition handleCancellation (now : Z) (orderDetails : Order) : Handler unit :=
  exec when (streq (orderStatus orderDetails) "Shipped"
             || streq (orderStatus orderDetails) "Delivered")
         (reply (json 400
            ("Cannot cancel the order with current status "
             ++ orderStatus orderDetails))) ;;
  exec restockCancelled (o_products orderDetails) ;;
  if streq (paymentMethod orderDetails) "RazorpayX"
     && streq (paymentStatus orderDetails) "Completed"
  then do _w <- processRefund now orderDetails ;; ret tt
  else if streq (paymentMethod orderDetails) "RazorpayX"
          && includes ["Processing"; "Confirmed"] (orderStatus orderDetails)
          && streq (paymentStatus orderDetails) "Completed"
  then do _w <- processRefund now orderDetails ;; ret tt
  else ret tt.

(** The block under [// Handle Returns]. *)
Definition handleReturns (now : Z) (orderDetails : Order) : Handler unit :=
  exec when (negb (streq (orderStatus orderDetails) "Delivered"))
         (reply (json 400 "Only delivered orders can be returned")) ;;
  exec restockReturned (o_products orderDetails) ;;
  if streq (paymentStatus orderDetails) "Completed"
  then do _w <- processRefund now orderDetails ;; ret tt
  else ret tt.

Definition orderStatusUpdate (now : Z) (id : string) (status : string)
    : Handler Response :=
  exec when (negb (truthy status)) (reply (json 400 "Status is required")) ;;
  do found <- Order_findById id ;;
  match found with
  | None => reply (json 404 "Order not found")
  | Some orderDetails =>
    exec when (negb (includes validStatuses status))
           (reply (json 400 "Invalid order status")) ;;
    exec when (streq status "Cancelled") (handleCancellation now orderDetails) ;;
    exec when (streq status "Returned") (handleReturns now orderDetails) ;;
    let orderDetails :=
      if streq status "Processing"
      then with_paymentStatus "Completed" orderDetails else orderDetails in
    let orderDetails := with_orderStatus status orderDetails in
    let orderDetails :=
      if streq (orderStatus orderDetails) "Delivered"
      then with_paymentStatus "Completed" orderDetails else orderDetails in
    exec Order_save orderDetails ;;
    do wallet <-
      (if streq status "Cancelled" || streq status "Returned"
       then do w <- Wallet_findOne (o_userId orderDetails) ;;
            ret (option_map walletInfo w)
       else ret None) ;;
    ret (mkResponse 200 "Order status updated successfully"
           (Some orderDetails) wallet)
  end.

(** ** orderById *)

Definition orderById (id : string) : Handler Response :=
  exec when (negb (truthy id)) (reply (json 400 "Order ID is required.")) ;;
  do orderDetails <- Order_findById id ;;
  match orderDetails with
  | None => reply (json 404 "Order not found.")
  | Some orderDetails =>
      ret (mkResponse 200 "Order details fetched successfully."
             (Some orderDetails) None)
  end.

(** ** refundOrders

    [new Wallet({ userId })] takes its balance from the wallet schema, which
    is a parameter here; its transaction array starts empty, as every
    Mongoose array does. *)

Section Refunds.

Variable Wallet_default_balance : Q.

Definition refundOrders (now : Z) (orderId : string) : Handler Response :=
  do found <- Order_findById orderId ;;
  match found with
  | None => reply (json 404 "Order not found")
  | Some order =>
    exec when (negb (streq (paymentMethod order) "RazorpayX")
               || negb (streq (paymentStatus order) "Completed"))
           (reply (json 400
              "Order is not eligible for refund. Only completed online payments can be refunded.")) ;;
    exec when (negb (streq (orderStatus order) "Cancelled"))
           (reply (json 400 "Only cancelled orders can be refunded")) ;;
    let refundAmount := finalAmount order in
    do found <- Wallet_findOne (o_userId order) ;;
    let wallet :=
      match found with
      | Some wallet => wallet
      | None => mkWallet Wallet_default_balance []
      end in
    do tid <- freshObjectId ;;
    let wallet :=
      mkWallet (balance wallet + refundAmount)%Q
        (transactions wallet
         ++ [mkTransaction tid "refund" refundAmount
               ("Refund for order " ++ orderId) "completed" (Some now)])%list in
    exec Wallet_save (o_userId order) wallet ;;
    ret (mkResponse 200 "Refund processed successfully!" None
           (Some (walletInfo wallet)))
  end.

End Refunds.

(** ** Observations used in the statements *)

(** The stock counter the positional operator addresses: the first variant
    of product [pid] whose id is [vid]. *)
Definition stockOf (s : Store) (pid vid : string) : option Z :=
  match Products s !! pid with
  | Some p =>
      option_map availableQuantity
        (List.find (fun v => streq (v_id v) vid) (variants p))
  | None => None
  end.

(** The quantity an order holds of one variant, over all of its lines. *)
Fixpoint orderedQuantity (pid vid : string) (items : list OrderItem) : Z :=
  match items with
  | [] => 0
  | it :: items' =>
      if streq (oi_productId it) pid && streq (oi_variantId it) vid
      then oi_quantity it + orderedQuantity pid vid items'
      else orderedQuantity pid vid items'
  end.

(** The order a creation request persisted: the document appended to the
    collection by a request answered 201. *)
Definition created (res : Store * Response) : option Order :=
  if (r_status (snd res) =? 201)%Z then last (Orders (fst res)) else None.

(** The wallet of a user after one refund of [order]. *)
Definition refunded (w : option Wallet) (tid : string) (order : Order)
    (now : Z) : Wallet :=
  match w with
  | Some w =>
      mkWallet (balance w + finalAmount order)%Q
        (transactions w ++ [refundTransaction tid order now])%list
  | None => mkWallet (finalAmount order) [refundTransaction tid order now]
  end.

(** Balance and ledger of a user who may have no wallet yet. *)
Definition balanceOf (s : Store) (uid : string) : Q :=
  match Wallets s !! uid with
  | Some w => balance w
  | None => 0
  end.

Definition ledgerOf (s : Store) (uid : string) : list Transaction :=
  match Wallets s !! uid with
  | Some w => transactions w
  | None => []
  end.

(** Stores that differ in the product collection only. *)
Definition same_but_products (s s' : Store) : Prop :=
  Wallets s' = Wallets s /\ Carts s' = Carts s /\ Coupons s' = Coupons s
  /\ Orders s' = Orders s /\ next_oid s' = next_oid s.

(** The guard of the cancellation block and its refund condition. *)
Definition cancellable (o : Order) : bool :=
  negb (streq (orderStatus o) "Shipped" || streq (orderStatus o) "Delivered").

Definition gatewayPaid (o : Order) : bool :=
  streq (paymentMethod o) "RazorpayX" && streq (paymentStatus o) "Completed".

(** The [returnDetails] the return endpoint records. *)
Definition returnRecord (now : Z) (body : ReturnBody) : option ReturnDetails :=
  Some (mkReturnDetails (returnReason body) (returnDescription body) now).

(** The same request without its coupon code. *)
Definition without_coupon (body : PlaceOrderBody) : PlaceOrderBody :=
  mkPlaceOrderBody (b_userId body) (b_products body) (b_shippingAddress body)
    (b_paymentMethod body) "" (b_totalAmount body) (b_finalAmount body)
    (b_razorpayOrderId body) (b_status body).

Definition wallet_without_coupon (body : WalletOrderBody) : WalletOrderBody :=
  mkWalletOrderBody (wb_userId body) (wb_products body)
    (wb_shippingAddress body) "" (wb_totalAmount body) (wb_finalAmount body).

(** The discount a coupon gives on a subtotal, before the clamp. *)
Definition couponValue (c : Coupon) (subtotal : Q) : Q :=
  if streq (CouponType c) "percentage"
  then (subtotal * offerPrice c / 100)%Q
  else offerPrice c.

(** The coupon the checkout applies and the discount it grants. *)
Definition appliedCoupon (s : Store) (now : Z) (code : string) : option Coupon :=
  if truthy code then List.find (eligible code now) (Coupons s) else None.

Definition discountFor (applied : option Coupon) (subtotal : Q) : Q :=
  match applied with
  | Some c => Qmin (couponValue c subtotal) subtotal
  | None => 0
  end.

(** The pricing invariant of the specification. *)
Definition pricing_invariant (o : Order) : Prop :=
  (discountAmount o <= totalAmount o)%Q
  /\ (finalAmount o == Qmax (totalAmount o - discountAmount o) 0)%Q.

(** ** Further observations *)

(** The stock check of a whole request succeeds: every line names a stored
    product that has a variant with the line's id and a variant with at
    least the line's quantity. *)
Definition stockCheckPasses (s : Store) (items : list Item) : Prop :=
  Forall (fun it =>
            exists p, Products s !! productId it = Some p
                      /\ has_variant (variantId it) p = true
                      /\ has_quantity (quantity it) p = true) items.

(** No stored order carries the id the next [new Order] will draw. *)
Definition next_id_unused (s : Store) : Prop :=
  Forall (fun o => o_id o <> oid_of (next_oid s)) (Orders s).

(** What a ledger entry does to the balance: a refund adds its amount, a
    wallet payment takes it. *)
Definition signedAmount (t : Transaction) : Q :=
  if streq (t_type t) "refund" then amount t else (- amount t)%Q.

Fixpoint ledgerTotal (ts : list Transaction) : Q :=
  match ts with
  | [] => 0
  | t :: ts' => (signedAmount t + ledgerTotal ts')%Q
  end.

(** Every wallet's balance is the total of its ledger. *)
Definition ledger_consistent (ws : gmap string Wallet) : Prop :=
  forall uid w, ws !! uid = Some w -> (balance w == ledgerTotal (transactions w))%Q.

(** One entry posted to the wallet of [uid]: the wallet, created if absent,
    gets [t] at the end of its ledger and its balance moves by the signed
    amount of [t]; no other wallet changes. *)
Definition posts (ws ws' : gmap string Wallet) (uid : string) (t : Transaction)
    : Prop :=
  exists w', ws' = <[uid := w']> ws
    /\ transactions w'
       = (match ws !! uid with Some w => transactions w | None => [] end ++ [t])%list
    /\ (balance w'
        == match ws !! uid with Some w => balance w | None => 0 end
           + signedAmount t)%Q.

(** The wallets after a handler: untouched, or exactly one entry posted. *)
Definition at_most_one_posting (ws ws' : gmap string Wallet) : Prop :=
  ws' = ws \/ exists uid t, posts ws ws' uid t.

(** Ledgers only grow: every wallet is still there and its old ledger is a
    prefix of the new one. *)
Definition ledgers_extended (ws ws' : gmap string Wallet) : Prop :=
  forall uid w, ws !! uid = Some w ->
    exists w' more, ws' !! uid = Some w'
                    /\ transactions w' = (transactions w ++ more)%list.

(** The part of an order no handler is meant to rewrite: everything but
    orderStatus, paymentStatus, the gateway reference and returnDetails. *)
Definition frozen (o : Order) : Order :=
  with_orderStatus "" (with_paymentStatus ""
    (with_razorpay None (with_returnDetails None o))).

(** What one request may do to the wallets, the orders and the store.

    Wallets: nothing, one entry posted, or a wallet opened by the refund
    endpoint for a user who had none, starting from the schema default [d].
    Orders: nothing, one order appended, or one order rewritten in the
    fields outside [frozen]. *)
Definition opens_wallet (d : Q) (ws ws' : gmap string Wallet) (uid : string)
    (t : Transaction) : Prop :=
  ws !! uid = None /\ ws' = <[uid := mkWallet (d + signedAmount t)%Q [t]]> ws.

Definition wallet_step (d : Q) (ws ws' : gmap string Wallet) : Prop :=
  ws' = ws
  \/ (exists uid t, posts ws ws' uid t)
  \/ (exists uid t, opens_wallet d ws ws' uid t).

Definition orders_step (l l' : list Order) : Prop :=
  l' = l
  \/ (exists o, l' = (l ++ [o])%list)
  \/ (exists before x y after,
        l = (before ++ x :: after)%list /\ l' = (before ++ y :: after)%list
        /\ frozen y = frozen x).

Definition step (d : Q) (s s' : Store) : Prop :=
  Coupons s' = Coupons s
  /\ (next_oid s <= next_oid s')%nat
  /\ orders_step (Orders s) (Orders s')
  /\ wallet_step d (Wallets s) (Wallets s').

(** Orders are kept: the new collection starts with the old orders, each
    unchanged in its frozen part. *)
Definition orders_kept (l l' : list Order) : Prop :=
  exists more, map frozen l' = (map frozen l ++ more)%list.

(** The catalog without its stock counters: per product, its name and the
    ids of its variants, in order. *)
Definition catalog (s : Store) : gmap string (string * list string) :=
  (fun p => (p_name p, map v_id (variants p))) <$> Products s.

(** A handler that leaves the catalog as it found it, stock aside. *)
Definition keeps_catalog {A} (m : Handler A) : Prop :=
  forall s, catalog (fst (m s)) = catalog s.

(** ** The exported handlers as one interface

    A call names one of the handlers the controller exports, with its
    arguments; a session is a sequence of calls served one after the
    other.  The HMAC, the gateway secret and the default balance of the
    wallet schema are the parameters of the handlers that use them. *)

Inductive Call : Type :=
| CallVerifyRazorpayPayment (body : VerifyBody)
| CallPlaceOrder (now : Z) (body : PlaceOrderBody)
| CallPlaceWalletOrder (now : Z) (body : WalletOrderBody)
| CallOrderById (id : string)
| CallReturnOrderStatusUpdate (now : Z) (id : string) (body : ReturnBody)
| CallOrderStatusUpdate (now : Z) (id : string) (status : string)
| CallRefundOrders (now : Z) (orderId : string).

Section Controller.

Variable hmac_sha256_hex : string -> string -> string.
Variable RAZORPAY_KEY_SECRET : string.
Variable Wallet_default_balance : Q.

Definition serve (c : Call) : Handler Response :=
  match c with
  | CallVerifyRazorpayPayment body =>
      verifyRazorpayPayment hmac_sha256_hex RAZORPAY_KEY_SECRET body
  | CallPlaceOrder now body => placeOrder now body
  | CallPlaceWalletOrder now body => placeWalletOrder now body
  | CallOrderById id => orderById id
  | CallReturnOrderStatusUpdate now id body => returnOrderStatusUpdate now id body
  | CallOrderStatusUpdate now id status => orderStatusUpdate now id status
  | CallRefundOrders now orderId => refundOrders Wallet_default_balance now orderId
  end.

(** The store after a session. *)
Fixpoint serveAll (cs : list Call) (s : Store) : Store :=
  match cs with
  | [] => s
  | c :: cs' => serveAll cs' (fst (run (serve c) s))
  end.

End Controller.

(** ** Sample data

    One product with two variants, one user with a wallet and a cart, one
    coupon; orders are supplied per example. *)

Definition demo_address : Address :=
  mkAddress "12 Beach Road" "Kochi" "Kerala" "India" "682001".

Definition demo_catalog : gmap string Product :=
  {[ "p1" := mkProduct "Shirt" [mkVariant "vA" 5; mkVariant "vB" 10] ]}.

Definition demo_line (q : Z) : Item :=
  mkItem "p1" "vA" "Shirt" q (mkVariantSnap "Shirt A" 100).

Definition demo_order (st pm ps : string) : Order :=
  mkOrder "o1" "u1" [orderItem (demo_line 2)] demo_address pm 200 None 0 200 1
    st ps None None.

Definition demo_store (orders : list Order) : Store :=
  mkStore demo_catalog {[ "u1" := mkWallet 500 [] ]} {[ "u1" := ["p1"] ]}
    [mkCoupon "c1" "SAVE10" "percentage" 10 1000 "active"] orders 7.

Definition refunded_once : Store :=
  set_Wallets (fun _ => {[ "u1" := mkWallet 700
      [refundTransaction "6" (demo_order "Cancelled" "RazorpayX" "Completed") 8] ]})
    (demo_store [demo_order "Cancelled" "RazorpayX" "Completed"]).

Definition demo_return : ReturnBody :=
  mkReturnBody "Returned" "Wrong size" "The shirt is too small".

Definition toy_hmac (key msg : string) : string := key ++ ":" ++ msg.

Definition demo_store_with (coupons : list Coupon) : Store :=
  mkStore demo_catalog {[ "u1" := mkWallet 500 [] ]} {[ "u1" := ["p1"] ]}
    coupons [] 7.

Definition demo_checkout_of (code : string) (total : Q) : PlaceOrderBody :=
  mkPlaceOrderBody "u1" [demo_line 2] (Some demo_address) "Cash on Delivery"
    code total None "" "".

Definition demo_checkout (code : string) (final : option Q) : PlaceOrderBody :=
  mkPlaceOrderBody "u1" [demo_line 2] (Some demo_address) "Cash on Delivery"
    code 200 final "" "".

Definition demo_gateway_order (id st : string) : Order :=
  mkOrder id "u1" [orderItem (demo_line 2)] demo_address "RazorpayX" 200 None 0
    200 1 st "Pending" (Some (mkRazorpay "order_1" None None)) None.

Definition demo_funded : Store :=
  mkStore demo_catalog
    {[ "u1" := mkWallet 500
                 [mkTransaction "3" "refund" 500 "Refund for order o0"
                    "completed" (Some 1%Z)] ]}
    {[ "u1" := ["p1"] ]} [] [] 7.

Definition demo_session : list Call :=
  [CallPlaceWalletOrder 9
     (mkWalletOrderBody "u1" [demo_line 2] (Some demo_address) "" 200 200);
   CallOrderStatusUpdate 10 "8" "Delivered";
   CallReturnOrderStatusUpdate 11 "8" demo_return].

Definition demo_failed_checkout : PlaceOrderBody :=
  mkPlaceOrderBody "u1" [demo_line 2] (Some demo_address) "RazorpayX" "" 200
    None "" "Payment Failed".

Definition demo_wallet_checkout : WalletOrderBody :=
  mkWalletOrderBody "u1" [demo_line 2] (Some demo_address) "" 200 200.

(** * Properties *)

(** ** Strings and the handler monad *)

Lemma streq_true a b : streq a b = true <-> a = b.
Proof. apply String.eqb_eq. Qed.

Lemma streq_false a b : streq a b = false <-> a <> b.
Proof. apply String.eqb_neq. Qed.

Lemma streq_refl a : streq a a = true.
Proof. apply String.eqb_refl. Qed.

Lemma truthy_true a : truthy a = true <-> a <> "".
Proof. unfold truthy. now rewrite negb_true_iff, streq_false. Qed.

Lemma bind_inr {A B} (m : Handler A) (k : A -> Handler B) s s' a :
  m s = (s', inr a) -> bind m k s = k a s'.
Proof. intros H. unfold bind. now rewrite H. Qed.

Lemma bind_inl {A B} (m : Handler A) (k : A -> Handler B) s s' r :
  m s = (s', inl r) -> bind m k s = (s', inl r).
Proof. intros H. unfold bind. now rewrite H. Qed.

(** A guard that lets the handler through, at store [s]. *)
Ltac pass s := rewrite (bind_inr _ _ s s tt) by reflexivity.

(** ** Stock counters *)

Lemma find_inc_first_same vid d vs :
  List.find (fun v => streq (v_id v) vid) (inc_first vid d vs)
  = option_map (fun v => mkVariant (v_id v) (availableQuantity v + d))
      (List.find (fun v => streq (v_id v) vid) vs).
Proof.
  induction vs as [|v vs IH]; simpl; [reflexivity|].
  destruct (streq (v_id v) vid) eqn:E; simpl; rewrite E; auto.
Qed.

Lemma find_inc_first_other vid vid' d vs :
  vid <> vid' ->
  List.find (fun v => streq (v_id v) vid') (inc_first vid d vs)
  = List.find (fun v => streq (v_id v) vid') vs.
Proof.
  intros Hne. induction vs as [|v vs IH]; simpl; [reflexivity|].
  destruct (streq (v_id v) vid) eqn:E; simpl.
  - apply streq_true in E. subst vid.
    destruct (streq (v_id v) vid') eqn:E'; [|reflexivity].
    apply streq_true in E'. contradiction.
  - destruct (streq (v_id v) vid'); auto.
Qed.

Lemma has_variant_false vid p :
  has_variant vid p = false ->
  List.find (fun v => streq (v_id v) vid) (variants p) = None.
Proof.
  unfold has_variant. induction (variants p) as [|v vs IH]; simpl; [reflexivity|].
  destruct (streq (v_id v) vid); simpl; [discriminate | exact IH].
Qed.

Lemma stockOf_incStock pid vid d s pid' vid' :
  stockOf (set_Products (incStock pid vid d) s) pid' vid'
  = if streq pid pid' && streq vid vid'
    then option_map (fun q => (q + d)%Z) (stockOf s pid' vid')
    else stockOf s pid' vid'.
Proof.
  unfold stockOf, incStock. simpl.
  destruct (streq pid pid') eqn:Ep; simpl.
  - apply streq_true in Ep. subst pid'.
    destruct (Products s !! pid) as [p|] eqn:Hp; simpl.
    + destruct (has_variant vid p) eqn:Hv.
      * rewrite lookup_insert_eq. simpl.
        destruct (streq vid vid') eqn:Ev.
        -- apply streq_true in Ev. subst vid'. rewrite find_inc_first_same.
           now destruct (List.find _ (variants p)).
        -- apply streq_false in Ev.
           now rewrite find_inc_first_other.
      * rewrite Hp. destruct (streq vid vid') eqn:Ev; [|reflexivity].
        apply streq_true in Ev. subst vid'.
        now rewrite (has_variant_false _ _ Hv).
    + rewrite Hp. now destruct (streq vid vid').
  - apply streq_false in Ep.
    destruct (Products s !! pid) as [p|] eqn:Hp; [|reflexivity].
    destruct (has_variant vid p); [|reflexivity].
    now rewrite lookup_insert_ne.
Qed.

Lemma same_but_products_refl s : same_but_products s s.
Proof. repeat split. Qed.

Lemma same_but_products_trans s1 s2 s3 :
  same_but_products s1 s2 -> same_but_products s2 s3 -> same_but_products s1 s3.
Proof.
  unfold same_but_products. intros (a & b & c & d & e) (a' & b' & c' & d' & e').
  repeat split; congruence.
Qed.

Lemma set_Products_same f s :
  f (Products s) = Products s -> set_Products f s = s.
Proof. intros H. unfold set_Products. rewrite H. now destruct s. Qed.

Lemma restockCancelled_spec items : forall s,
  exists s', restockCancelled items s = (s', inr tt)
    /\ same_but_products s s'
    /\ forall pid vid,
         stockOf s' pid vid
         = option_map (fun q => (q + orderedQuantity pid vid items)%Z)
             (stockOf s pid vid).
Proof.
  induction items as [|it items IH]; intros s.
  - exists s. split; [reflexivity|]. split; [apply same_but_products_refl|].
    intros pid vid. simpl. destruct (stockOf s pid vid); simpl; [|reflexivity].
    f_equal. lia.
  - destruct (IH (set_Products (incStock (oi_productId it) (oi_variantId it)
                                  (oi_quantity it)) s)) as (s' & Hrun & Hfr & Hst).
    exists s'. split; [exact Hrun|]. split.
    + eapply same_but_products_trans; [|exact Hfr]. repeat split.
    + intros pid vid. rewrite Hst, stockOf_incStock. simpl.
      destruct (streq (oi_productId it) pid && streq (oi_variantId it) vid);
        [|reflexivity].
      destruct (stockOf s pid vid); simpl; [|reflexivity]. f_equal. lia.
Qed.

Lemma findIndex_has_variant vid p :
  findIndex vid (variants p) = None -> has_variant vid p = false.
Proof.
  unfold has_variant. induction (variants p) as [|v vs IH]; simpl; [reflexivity|].
  destruct (streq (v_id v) vid); simpl; [discriminate|].
  destruct (findIndex vid vs); [discriminate | exact IH].
Qed.

Lemma findIndex_inc_first vid d vs i :
  findIndex vid vs = Some i ->
  existsb (fun v => streq (v_id v) vid) vs = true
  /\ alter (fun v => mkVariant (v_id v) (availableQuantity v + d)) i vs
     = inc_first vid d vs.
Proof.
  revert i. induction vs as [|v vs IH]; simpl; intros i H; [discriminate|].
  destruct (streq (v_id v) vid); simpl.
  - injection H as <-. split; reflexivity.
  - destruct (findIndex vid vs) as [j|]; [|discriminate].
    injection H as <-. destruct (IH j eq_refl) as [Hex Hal].
    split; [exact Hex|]. simpl. f_equal. exact Hal.
Qed.

Lemma restockReturnedItem_incStock it s :
  restockReturnedItem it s
  = (set_Products (incStock (oi_productId it) (oi_variantId it) (oi_quantity it)) s,
     inr tt).
Proof.
  unfold restockReturnedItem, bind, Product_findOne, gets.
  destruct (Products s !! oi_productId it) as [p|] eqn:Hp.
  - destruct (findIndex (oi_variantId it) (variants p)) as [i|] eqn:Hi.
    + destruct (findIndex_inc_first _ (oi_quantity it) _ _ Hi) as [Hex Hal].
      unfold Product_save, modify, set_Products, incStock, has_variant.
      now rewrite Hal, Hp, Hex.
    + apply findIndex_has_variant in Hi.
      rewrite set_Products_same; [reflexivity|].
      unfold incStock. now rewrite Hp, Hi.
  - rewrite set_Products_same; [reflexivity|].
    unfold incStock. now rewrite Hp.
Qed.

Lemma restockReturned_restockCancelled items : forall s,
  restockReturned items s = restockCancelled items s.
Proof.
  induction items as [|it items IH]; intros s; [reflexivity|].
  unfold restockReturned, restockCancelled in *. simpl. unfold bind.
  rewrite restockReturnedItem_incStock. apply IH.
Qed.

Lemma reserveStock_spec items : forall s,
  exists s', reserveStock items s = (s', inr tt) /\ same_but_products s s'.
Proof.
  induction items as [|it items IH]; intros s.
  - exists s. split; [reflexivity | apply same_but_products_refl].
  - destruct (IH (set_Products (incStock (productId it) (variantId it)
                                  (- quantity it)) s)) as (s' & Hrun & Hfr).
    exists s'. split; [exact Hrun|].
    eapply same_but_products_trans; [|exact Hfr]. repeat split.
Qed.

Lemma verifyStockItem_spec it s :
  verifyStockItem it s = (s, inr tt)
  \/ exists r, verifyStockItem it s = (s, inl r) /\ r_status r = 400%Z.
Proof.
  unfold verifyStockItem, Product_findStock, gets, bind.
  destruct (Products s !! productId it) as [p|].
  - destruct (has_variant (variantId it) p && has_quantity (quantity it) p).
    + left. reflexivity.
    + right. eexists. split; reflexivity.
  - right. eexists. split; reflexivity.
Qed.

Lemma verifyStock_spec items s :
  verifyStock items s = (s, inr tt)
  \/ exists r, verifyStock items s = (s, inl r) /\ r_status r = 400%Z.
Proof.
  unfold verifyStock.
  induction items as [|it items IH]; [left; reflexivity|].
  cbn [forEach].
  destruct (verifyStockItem_spec it s) as [H | (r & H & Hr)].
  - rewrite (bind_inr _ _ _ _ _ H). exact IH.
  - right. exists r. now rewrite (bind_inl _ _ _ _ _ H).
Qed.

(** The stock check of one line, on a product whose only variant is the
    one ordered, is the comparison with that variant's counter. *)
Lemma verifyStockItem_single_variant it s pname v :
  Products s !! productId it = Some (mkProduct pname [v]) ->
  v_id v = variantId it ->
  (availableQuantity v < quantity it)%Z ->
  verifyStockItem it s
  = (s, inl (json 400 ("Insufficient stock for product " ++ name it))).
Proof.
  intros Hp Hv Hlt. unfold verifyStockItem, Product_findStock, gets, bind.
  rewrite Hp. unfold has_variant, has_quantity. cbn.
  rewrite Hv, streq_refl. cbn.
  assert (E : (quantity it <=? availableQuantity v)%Z = false)
    by (apply Z.leb_gt; exact Hlt).
  now rewrite E.
Qed.

(** ** The order collection *)

Lemma find_saved id o o2 l :
  List.find (fun o' => streq (o_id o') id) l = Some o ->
  o_id o2 = o_id o ->
  List.find (fun o' => streq (o_id o') id) (update_first (saved o2) l) = Some o2.
Proof.
  intros Hf Hid. induction l as [|x l IH]; simpl in *; [discriminate|].
  unfold saved at 1. rewrite Hid.
  destruct (streq (o_id x) id) eqn:Ex.
  - injection Hf as ->. rewrite streq_refl. simpl. now rewrite Hid, Ex.
  - destruct (streq (o_id x) (o_id o)) eqn:Exo.
    + apply streq_true in Exo. apply List.find_some in Hf as [_ Ho].
      apply streq_true in Ho. rewrite Exo, Ho, streq_refl in Ex. discriminate.
    + simpl. rewrite Ex. now apply IH.
Qed.

Lemma map_update_first_saved (f : Order -> Order) o1 o2 l :
  o_id o1 = o_id o2 -> f o1 = f o2 ->
  map f (update_first (saved o1) l) = map f (update_first (saved o2) l).
Proof.
  intros Hid Hf. induction l as [|x l IH]; simpl; [reflexivity|].
  unfold saved at 1 3. rewrite Hid.
  destruct (streq (o_id x) (o_id o2)); simpl; congruence.
Qed.

(** ** Wallet ledger and refunds *)

Lemma oid_of_inj n m : oid_of n = oid_of m -> n = m.
Proof. unfold oid_of. apply pretty_nat_inj. Qed.

Lemma processRefund_spec now o s :
  processRefund now o s
  = (mkStore (Products s)
       (<[o_userId o := refunded (Wallets s !! o_userId o)
                          (oid_of (next_oid s)) o now]> (Wallets s))
       (Carts s) (Coupons s) (Orders s) (S (next_oid s)),
     inr (refunded (Wallets s !! o_userId o) (oid_of (next_oid s)) o now)).
Proof.
  unfold processRefund, bind, Wallet_findOne, gets.
  destruct (Wallets s !! o_userId o) as [w|]; reflexivity.
Qed.

Lemma wallet_after_refund s s' uid tid o now :
  Wallets s' = <[uid := refunded (Wallets s !! uid) tid o now]> (Wallets s) ->
  ledgerOf s' uid = (ledgerOf s uid ++ [refundTransaction tid o now])%list
  /\ (balanceOf s' uid == balanceOf s uid + finalAmount o)%Q.
Proof.
  intros H. unfold ledgerOf, balanceOf. rewrite H, lookup_insert_eq.
  destruct (Wallets s !! uid) as [w|]; simpl; split;
    try reflexivity. ring.
Qed.

Lemma refunded_returnDetails w tid rd o now :
  refunded w tid (with_returnDetails rd o) now = refunded w tid o now.
Proof. now destruct w. Qed.

(** C9: two refunds of the same order in sequence both succeed; each appends
    its own refund transaction of amount finalAmount, the two transaction
    ids differ, and each raises the owner's balance by finalAmount. *)
Theorem processRefund_twice now1 now2 o s :
  exists s1 w1 s2 w2,
    processRefund now1 o s = (s1, inr w1)
    /\ processRefund now2 o s1 = (s2, inr w2)
    /\ let uid := o_userId o in
       let t1 := refundTransaction (oid_of (next_oid s)) o now1 in
       let t2 := refundTransaction (oid_of (next_oid s1)) o now2 in
       ledgerOf s1 uid = (ledgerOf s uid ++ [t1])%list
       /\ ledgerOf s2 uid = (ledgerOf s uid ++ [t1; t2])%list
       /\ transaction_id t1 <> transaction_id t2
       /\ amount t1 = finalAmount o /\ amount t2 = finalAmount o
       /\ (balanceOf s1 uid == balanceOf s uid + finalAmount o)%Q
       /\ (balanceOf s2 uid == balanceOf s1 uid + finalAmount o)%Q.
Proof.
  do 4 eexists. split; [apply processRefund_spec|].
  split; [apply processRefund_spec|].
  cbn zeta.
  match goal with
  | |- ledgerOf ?a _ = _ /\ ledgerOf ?b _ = _ /\ _ =>
      destruct (wallet_after_refund s a (o_userId o) (oid_of (next_oid s)) o now1
                  eq_refl) as [Hl1 Hb1];
      destruct (wallet_after_refund a b (o_userId o) (oid_of (next_oid a)) o now2
                  eq_refl) as [Hl2 Hb2]
  end.
  split; [exact Hl1|]. split.
  - rewrite Hl2, Hl1, <- app_assoc. reflexivity.
  - split.
    + cbn. intros H. apply oid_of_inj in H. lia.
    + auto.
Qed.

Lemma Qltb_lt a b : (a < b)%Q -> Qltb a b = true.
Proof.
  intros H. unfold Qltb. apply negb_true_iff.
  destruct (Qle_bool b a) eqn:E; [|reflexivity].
  apply Qle_bool_iff in E. exfalso. exact (Qlt_not_le _ _ H E).
Qed.

(** C7: a wallet checkout by a user who has no wallet, or whose balance is
    below the amount to debit, answers 400 and leaves the whole store as it
    was: no transaction, no balance change, no order. *)
Theorem wallet_debit_rejected now body s :
  Wallets s !! wb_userId body = None
  \/ (exists w, Wallets s !! wb_userId body = Some w
                /\ (balance w < wb_finalAmount body)%Q) ->
  let res := run (placeWalletOrder now body) s in
  r_status (snd res) = 400%Z /\ fst res = s.
Proof.
  intros H. unfold placeWalletOrder, run.
  destruct (wb_shippingAddress body) as [addr|]; [|split; reflexivity].
  destruct (negb (truthy (wb_userId body))
            || Nat.eqb (length (wb_products body)) 0) eqn:Hreq.
  - split; reflexivity.
  - pass s.
    rewrite (bind_inr _ _ s s (Wallets s !! wb_userId body)) by reflexivity.
    destruct H as [-> | (w & -> & Hlt)]; [split; reflexivity|].
    rewrite (Qltb_lt _ _ Hlt). split; reflexivity.
Qed.

Lemma wallet_debit_rejected_witness :
  let body := mkWalletOrderBody "u1" [demo_line 1] (Some demo_address) "" 600 600 in
  fst (run (placeWalletOrder 9 body) (demo_store [])) = demo_store [].
Proof.
  intros body. apply (wallet_debit_rejected 9 body (demo_store [])).
  right. exists (mkWallet 500 []). split; reflexivity.
Defined.

(** ** Gateway verification *)

(** C8: the signature expected is the HMAC, under the server secret, of
    order id, a bar and payment id; a request whose signature is not exactly
    that string answers 400 and leaves every order as it was, and only a
    request whose signature is that string is confirmed. *)
Theorem forged_signature_rejected
    (hmac : string -> string -> string) (secret : string) body s :
  let res := run (verifyRazorpayPayment hmac secret body) s in
  (razorpay_signature body
   <> hmac secret (razorpay_order_id body ++ "|" ++ razorpay_payment_id body) ->
   r_status (snd res) = 400%Z /\ fst res = s)
  /\ (razorpay_signature body
      = hmac secret (razorpay_order_id body ++ "|" ++ razorpay_payment_id body) ->
      r_status (snd res) = 200%Z
      /\ Orders (fst res) = update_first (confirm_payment body) (Orders s)).
Proof.
  unfold verifyRazorpayPayment, run, isAuthentic, expectedSignature.
  split; intros H.
  - assert (E : streq (hmac secret
                   (razorpay_order_id body ++ "|" ++ razorpay_payment_id body))
                  (razorpay_signature body) = false)
      by (apply streq_false; congruence).
    rewrite E. split; reflexivity.
  - rewrite <- H, streq_refl. split; reflexivity.
Qed.

Lemma forged_signature_rejected_witness :
  let body := mkVerifyBody "order_1" "pay_1" "forged" in
  let s := demo_store [demo_order "Processing" "RazorpayX" "Pending"] in
  fst (run (verifyRazorpayPayment toy_hmac "secret" body) s) = s.
Proof.
  intros body s.
  apply (proj1 (forged_signature_rejected toy_hmac "secret" body s)).
  discriminate.
Defined.

(** ** Coupon lookup *)

Lemma placeOrder_coupon_spec now code total s :
  placeOrder_coupon now code total s
  = (s, inr (appliedCoupon s now code,
             discountFor (appliedCoupon s now code) total)).
Proof.
  unfold placeOrder_coupon, appliedCoupon, Coupon_findOne, bind, gets, ret.
  destruct (truthy code); [|reflexivity].
  destruct (List.find _ (Coupons s)); reflexivity.
Qed.

Lemma placeWalletOrder_coupon_spec now code total s :
  placeWalletOrder_coupon now code total s
  = (s, inr (appliedCoupon s now code,
             discountFor (appliedCoupon s now code) total)).
Proof.
  unfold placeWalletOrder_coupon, appliedCoupon, Coupon_findOne, bind, gets, ret.
  destruct (truthy code); [|reflexivity].
  destruct (List.find _ (Coupons s)); reflexivity.
Qed.

Lemma eligible_true code now c :
  eligible code now c = true
  <-> c_name c = code /\ isListed c = "active" /\ (now < expireOn c)%Z.
Proof.
  unfold eligible. rewrite !andb_true_iff, !streq_true, Z.ltb_lt. tauto.
Qed.

Lemma appliedCoupon_Some s now code c :
  appliedCoupon s now code = Some c ->
  In c (Coupons s) /\ c_name c = code /\ isListed c = "active"
  /\ (now < expireOn c)%Z.
Proof.
  unfold appliedCoupon. destruct (truthy code); [|discriminate].
  intros H. apply List.find_some in H as [Hin He].
  split; [exact Hin|]. now apply eligible_true.
Qed.

Lemma appliedCoupon_None s now code :
  (forall c, In c (Coupons s) -> c_name c = code -> isListed c = "active" ->
             ~ (now < expireOn c)%Z) ->
  appliedCoupon s now code = None.
Proof.
  intros H. destruct (appliedCoupon s now code) as [c|] eqn:E; [|reflexivity].
  apply appliedCoupon_Some in E as (Hin & Hn & Ha & Hlt).
  exfalso. exact (H c Hin Hn Ha Hlt).
Qed.

(** findOne answers the first stored coupon that meets the three conditions
    of the query; the lookup is made whenever a code is sent. *)
Lemma appliedCoupon_first s now code before c after :
  code <> "" ->
  Coupons s = (before ++ c :: after)%list ->
  (forall c', In c' before ->
     ~ (c_name c' = code /\ isListed c' = "active" /\ (now < expireOn c')%Z)) ->
  c_name c = code -> isListed c = "active" -> (now < expireOn c)%Z ->
  appliedCoupon s now code = Some c.
Proof.
  intros Hcode Hl Hbefore Hn Ha Hlt. unfold appliedCoupon.
  apply truthy_true in Hcode. rewrite Hcode, Hl. clear Hl Hcode.
  induction before as [|c' before IH]; cbn.
  - now rewrite (proj2 (eligible_true code now c) (conj Hn (conj Ha Hlt))).
  - destruct (eligible code now c') eqn:E.
    + apply eligible_true in E. exfalso. apply (Hbefore c'); [now left | exact E].
    + apply IH. intros c'' Hin. apply Hbefore. now right.
Qed.

Lemma placeOrder_without_coupon now body s :
  appliedCoupon s now (b_couponCode body) = None ->
  run (placeOrder now body) s = run (placeOrder now (without_coupon body)) s.
Proof.
  intros H. unfold placeOrder, run. cbn [without_coupon b_shippingAddress
    b_userId b_products b_paymentMethod b_couponCode b_totalAmount
    b_finalAmount b_razorpayOrderId b_status].
  destruct (b_shippingAddress body) as [addr|]; [|reflexivity].
  destruct (negb (truthy (b_userId body))
            || Nat.eqb (length (b_products body)) 0
            || negb (truthy (b_paymentMethod body))); [reflexivity|].
  rewrite !(bind_inr _ _ s s tt) by reflexivity.
  rewrite !(bind_inr _ _ _ _ _ (placeOrder_coupon_spec _ _ _ _)).
  rewrite H. reflexivity.
Qed.

Lemma placeWalletOrder_without_coupon now body s :
  appliedCoupon s now (wb_couponCode body) = None ->
  run (placeWalletOrder now body) s
  = run (placeWalletOrder now (wallet_without_coupon body)) s.
Proof.
  intros H. unfold placeWalletOrder, run. cbn [wallet_without_coupon
    wb_shippingAddress wb_userId wb_products wb_couponCode wb_totalAmount
    wb_finalAmount].
  destruct (wb_shippingAddress body) as [addr|]; [|reflexivity].
  destruct (negb (truthy (wb_userId body))
            || Nat.eqb (length (wb_products body)) 0); [reflexivity|].
  rewrite !(bind_inr _ _ s s tt) by reflexivity.
  rewrite !(bind_inr _ _ s s (Wallets s !! wb_userId body)) by reflexivity.
  destruct (Wallets s !! wb_userId body) as [w|]; [|reflexivity].
  destruct (Qltb (balance w) (wb_finalAmount body)); [reflexivity|].
  rewrite !(bind_inr _ _ s s tt) by reflexivity.
  rewrite !(bind_inr _ _ _ _ _ (placeWalletOrder_coupon_spec _ _ _ _)).
  rewrite H. reflexivity.
Qed.

(** ** Order creation *)

(** What a creation request answered 201 has stored. *)
Lemma placeOrder_created now body s o :
  created (run (placeOrder now body) s) = Some o ->
  let applied := appliedCoupon s now (b_couponCode body) in
  totalAmount o = b_totalAmount body
  /\ discountAmount o = discountFor applied (b_totalAmount body)
  /\ finalAmount o
     = num_or (b_finalAmount body)
         (b_totalAmount body - discountFor applied (b_totalAmount body))%Q.
Proof.
  unfold placeOrder, run, created.
  destruct (b_shippingAddress body) as [addr|]; [|discriminate].
  destruct (negb (truthy (b_userId body))
            || Nat.eqb (length (b_products body)) 0
            || negb (truthy (b_paymentMethod body))); [discriminate|].
  pass s.
  rewrite (bind_inr _ _ _ _ _ (placeOrder_coupon_spec _ _ _ _)).
  destruct (verifyStock_spec (b_products body) s) as [Hv | (r & Hv & Hr)].
  - rewrite (bind_inr _ _ _ _ _ Hv).
    rewrite (bind_inr _ _ _ _ (oid_of (next_oid s)) eq_refl).
    match goal with
    | |- context [Order_insert ?o'] => set (newOrder := o')
    end.
    rewrite (bind_inr _ _ _ _ tt eq_refl).
    destruct (streq (b_status body) "Payment Failed") eqn:Hpf.
    + cbn. rewrite last_snoc. intros [= <-]. cbn. auto.
    + cbn [orderStatus newOrder negb streq String.eqb Ascii.eqb Bool.eqb when].
      match goal with
      | |- context [bind _ _ ?s1] => set (s0 := s1)
      end.
      destruct (reserveStock_spec (b_products body) s0)
        as (s' & Hres & (_ & _ & _ & Ho & _)).
      rewrite (bind_inr _ _ s0 (set_Carts (alter (fun _ => []) (b_userId body)) s') tt)
        by (now rewrite (bind_inr _ _ _ _ _ Hres)).
      cbn. rewrite Ho. cbn. rewrite last_snoc. intros [= <-]. cbn. auto.
  - rewrite (bind_inl _ _ _ _ _ Hv). cbn. rewrite Hr. discriminate.
Qed.

Lemma placeWalletOrder_created now body s o :
  created (run (placeWalletOrder now body) s) = Some o ->
  let applied := appliedCoupon s now (wb_couponCode body) in
  totalAmount o = wb_totalAmount body
  /\ discountAmount o = discountFor applied (wb_totalAmount body)
  /\ finalAmount o
     = num_or (Some (wb_finalAmount body))
         (wb_totalAmount body - discountFor applied (wb_totalAmount body))%Q.
Proof.
  unfold placeWalletOrder, run, created.
  destruct (wb_shippingAddress body) as [addr|]; [|discriminate].
  destruct (negb (truthy (wb_userId body))
            || Nat.eqb (length (wb_products body)) 0); [discriminate|].
  pass s.
  rewrite (bind_inr _ _ s s (Wallets s !! wb_userId body)) by reflexivity.
  destruct (Wallets s !! wb_userId body) as [w|]; [|discriminate].
  destruct (Qltb (balance w) (wb_finalAmount body)); [discriminate|].
  pass s.
  rewrite (bind_inr _ _ _ _ _ (placeWalletOrder_coupon_spec _ _ _ _)).
  destruct (verifyStock_spec (wb_products body) s) as [Hv | (r & Hv & Hr)].
  - rewrite (bind_inr _ _ _ _ _ Hv).
    rewrite (bind_inr _ _ _ _ (oid_of (next_oid s)) eq_refl).
    rewrite (bind_inr _ _ _ _ tt eq_refl).
    match goal with
    | |- context [bind freshObjectId _ ?s1] => set (s0 := s1)
    end.
    rewrite (bind_inr _ _ s0 _ (oid_of (next_oid s0)) eq_refl).
    rewrite (bind_inr _ _ _ _ tt eq_refl).
    match goal with
    | |- context [bind (reserveStock _) _ ?s2] =>
        destruct (reserveStock_spec (wb_products body) s2)
          as (s' & Hres & (_ & _ & _ & Ho & _))
    end.
    rewrite (bind_inr _ _ _ _ _ Hres).
    rewrite (bind_inr _ _ _ _ tt eq_refl).
    cbn. rewrite Ho. cbn. rewrite last_snoc. intros [= <-]. cbn. auto.
  - rewrite (bind_inl _ _ _ _ _ Hv). cbn. rewrite Hr. discriminate.
Qed.

(** C6: both checkout entry points evaluate a coupon code the same way,
    without failing and without writing, and store the result as the
    discountAmount of the order they create.  A coupon is applied only if it
    is stored under that code, listed active, and expires strictly after
    now; the discount is then min(value, subtotal), the value being
    subtotal * offerPrice / 100 for a percentage coupon and offerPrice
    otherwise.  Conversely, when a code is sent, the first stored coupon
    under that code that is listed active and expires strictly after now is
    the one applied, with that discount.  When no stored coupon qualifies,
    or no code is sent, the discount is 0, and a request whose code
    qualifies no coupon behaves exactly as the same request without a coupon
    code. *)
Theorem coupon_evaluation now code subtotal s :
  exists applied discount,
    placeOrder_coupon now code subtotal s = (s, inr (applied, discount))
    /\ placeWalletOrder_coupon now code subtotal s = (s, inr (applied, discount))
    /\ (forall body o,
          b_couponCode body = code -> b_totalAmount body = subtotal ->
          created (run (placeOrder now body) s) = Some o ->
          discountAmount o = discount)
    /\ (forall body o,
          wb_couponCode body = code -> wb_totalAmount body = subtotal ->
          created (run (placeWalletOrder now body) s) = Some o ->
          discountAmount o = discount)
    /\ (forall c, applied = Some c ->
          In c (Coupons s) /\ c_name c = code /\ isListed c = "active"
          /\ (now < expireOn c)%Z
          /\ (CouponType c = "percentage" ->
              discount = Qmin (subtotal * offerPrice c / 100)%Q subtotal)
          /\ (CouponType c <> "percentage" ->
              discount = Qmin (offerPrice c) subtotal)
          /\ (discount <= subtotal)%Q)
    /\ (code <> "" ->
        forall before c after,
          Coupons s = (before ++ c :: after)%list ->
          (forall c', In c' before ->
             ~ (c_name c' = code /\ isListed c' = "active"
                /\ (now < expireOn c')%Z)) ->
          c_name c = code -> isListed c = "active" -> (now < expireOn c)%Z ->
          applied = Some c
          /\ (CouponType c = "percentage" ->
              discount = Qmin (subtotal * offerPrice c / 100)%Q subtotal)
          /\ (CouponType c <> "percentage" ->
              discount = Qmin (offerPrice c) subtotal))
    /\ (code = "" -> applied = None)
    /\ (applied = None -> discount = 0%Q)
    /\ ((forall c, In c (Coupons s) -> c_name c = code ->
                   isListed c = "active" -> ~ (now < expireOn c)%Z) ->
        applied = None
        /\ (forall body, b_couponCode body = code ->
              run (placeOrder now body) s
              = run (placeOrder now (without_coupon body)) s)
        /\ (forall body, wb_couponCode body = code ->
              run (placeWalletOrder now body) s
              = run (placeWalletOrder now (wallet_without_coupon body)) s)).
Proof.
  exists (appliedCoupon s now code), (discountFor (appliedCoupon s now code) subtotal).
  split; [apply placeOrder_coupon_spec|].
  split; [apply placeWalletOrder_coupon_spec|].
  split; [|split; [|split; [|split; [|split; [|split]]]]].
  - intros body o <- <- Hc. now apply placeOrder_created in Hc.
  - intros body o <- <- Hc. now apply placeWalletOrder_created in Hc.
  - intros c Hc. rewrite Hc.
    apply appliedCoupon_Some in Hc as (Hin & Hn & Ha & Hlt).
    do 4 (split; [assumption|]). unfold discountFor, couponValue.
    split; [|split].
    + intros Hp. apply streq_true in Hp. now rewrite Hp.
    + intros Hp. apply streq_false in Hp. now rewrite Hp.
    + apply Q.le_min_r.
  - intros Hcode before c after Hl Hbefore Hn Ha Hlt.
    rewrite (appliedCoupon_first s now code before c after
               Hcode Hl Hbefore Hn Ha Hlt).
    split; [reflexivity|]. unfold discountFor, couponValue. split.
    + intros Hp. apply streq_true in Hp. now rewrite Hp.
    + intros Hp. apply streq_false in Hp. now rewrite Hp.
  - intros ->. reflexivity.
  - now intros ->.
  - intros Hnone. pose proof (appliedCoupon_None s now code Hnone) as E.
    split; [exact E|]. split.
    + intros body <-. now apply placeOrder_without_coupon.
    + intros body <-. now apply placeWalletOrder_without_coupon.
Qed.

Lemma coupon_evaluation_witness :
  exists discount,
    placeOrder_coupon 5 "SAVE10" 200 (demo_store [])
    = (demo_store [],
       inr (Some (mkCoupon "c1" "SAVE10" "percentage" 10 1000 "active"), discount))
    /\ discount = Qmin (200 * 10 / 100)%Q 200.
Proof.
  destruct (coupon_evaluation 5 "SAVE10" 200 (demo_store []))
    as (applied & discount & Hrun & _ & _ & _ & _ & Hfirst & _).
  exists discount.
  destruct (Hfirst ltac:(discriminate) []
              (mkCoupon "c1" "SAVE10" "percentage" 10 1000 "active") []
              eq_refl ltac:(intros c' []) eq_refl eq_refl eq_refl)
    as (Ha & Hpct & _).
  split; [now rewrite Hrun, Ha|].
  exact (Hpct eq_refl).
Defined.

Lemma discountFor_bounds applied s now code subtotal :
  (forall c, In c (Coupons s) -> (0 <= offerPrice c)%Q) ->
  (0 <= subtotal)%Q ->
  applied = appliedCoupon s now code ->
  (0 <= discountFor applied subtotal)%Q
  /\ (discountFor applied subtotal <= subtotal)%Q.
Proof.
  intros Hoff Hsub ->. unfold discountFor.
  destruct (appliedCoupon s now code) as [c|] eqn:E; [|split; [apply Qle_refl | exact Hsub]].
  apply appliedCoupon_Some in E as (Hin & _). specialize (Hoff c Hin).
  split; [|apply Q.le_min_r].
  apply Q.min_glb; [|exact Hsub]. unfold couponValue.
  destruct (streq (CouponType c) "percentage"); [|exact Hoff].
  unfold Qdiv. apply Qmult_le_0_compat; [|discriminate].
  now apply Qmult_le_0_compat.
Qed.

Lemma num_or_zero v y : (v == 0)%Q -> num_or (Some v) y = y.
Proof.
  intros H. unfold num_or, Qis_zero.
  apply Qeq_bool_iff in H. now rewrite H.
Qed.

Lemma num_or_nonzero v y : ~ (v == 0)%Q -> num_or (Some v) y = v.
Proof.
  intros H. unfold num_or, Qis_zero.
  destruct (Qeq_bool v 0) eqn:E; [|reflexivity].
  apply Qeq_bool_iff in E. contradiction.
Qed.

Lemma derived_amount (t d f : Q) :
  (0 <= d)%Q -> (d <= t)%Q -> f = (t - d)%Q ->
  (f == Qmax (t - d) 0)%Q /\ (0 <= f)%Q /\ (f <= t)%Q.
Proof.
  intros H0 Hd ->. split; [|split; lra].
  symmetry. apply Q.max_l. lra.
Qed.

(** C1, as amended: for a request with a non-negative totalAmount, over
    coupons with non-negative offer values, the order persisted by either
    creation entry point has 0 <= discountAmount <= totalAmount; its
    finalAmount is the finalAmount of the request when that is present and
    not zero, and otherwise it is max(totalAmount - discountAmount, 0),
    between 0 and totalAmount. *)
Theorem order_amounts now s :
  (forall c, In c (Coupons s) -> (0 <= offerPrice c)%Q) ->
  (forall body o,
     (0 <= b_totalAmount body)%Q ->
     created (run (placeOrder now body) s) = Some o ->
     (0 <= discountAmount o)%Q /\ (discountAmount o <= totalAmount o)%Q
     /\ (forall v, b_finalAmount body = Some v -> ~ (v == 0)%Q ->
           finalAmount o = v)
     /\ ((forall v, b_finalAmount body = Some v -> (v == 0)%Q) ->
         pricing_invariant o
         /\ (0 <= finalAmount o)%Q /\ (finalAmount o <= totalAmount o)%Q))
  /\ (forall body o,
        (0 <= wb_totalAmount body)%Q ->
        created (run (placeWalletOrder now body) s) = Some o ->
        (0 <= discountAmount o)%Q /\ (discountAmount o <= totalAmount o)%Q
        /\ (~ (wb_finalAmount body == 0)%Q -> finalAmount o = wb_finalAmount body)
        /\ ((wb_finalAmount body == 0)%Q ->
            pricing_invariant o
            /\ (0 <= finalAmount o)%Q /\ (finalAmount o <= totalAmount o)%Q)).
Proof.
  intros Hoff. split; intros body o Htot Hc.
  - destruct (placeOrder_created now body s o Hc) as (Ht & Hd & Hf).
    destruct (discountFor_bounds _ s now (b_couponCode body) _ Hoff Htot eq_refl)
      as [Hd0 Hd1].
    rewrite Ht, Hd. split; [exact Hd0|]. split; [exact Hd1|]. split.
    + intros v Hv Hnz. rewrite Hf, Hv. now apply num_or_nonzero.
    + intros Hz. unfold pricing_invariant. rewrite Ht, Hd.
      assert (Hfin : finalAmount o
                     = (b_totalAmount body
                        - discountFor (appliedCoupon s now (b_couponCode body))
                            (b_totalAmount body))%Q).
      { rewrite Hf. destruct (b_finalAmount body) as [v|]; [|reflexivity].
        apply num_or_zero. now apply Hz. }
      destruct (derived_amount _ _ _ Hd0 Hd1 Hfin) as (H1 & H2 & H3). auto.
  - destruct (placeWalletOrder_created now body s o Hc) as (Ht & Hd & Hf).
    destruct (discountFor_bounds _ s now (wb_couponCode body) _ Hoff Htot eq_refl)
      as [Hd0 Hd1].
    rewrite Ht, Hd. split; [exact Hd0|]. split; [exact Hd1|]. split.
    + intros Hnz. rewrite Hf. now apply num_or_nonzero.
    + intros Hz. unfold pricing_invariant. rewrite Ht, Hd.
      assert (Hfin : finalAmount o
                     = (wb_totalAmount body
                        - discountFor (appliedCoupon s now (wb_couponCode body))
                            (wb_totalAmount body))%Q)
        by (rewrite Hf; now apply num_or_zero).
      destruct (derived_amount _ _ _ Hd0 Hd1 Hfin) as (H1 & H2 & H3). auto.
Qed.

Lemma demo_offers_nonnegative c :
  In c (Coupons (demo_store [])) -> (0 <= offerPrice c)%Q.
Proof. intros [<- | []]. discriminate. Defined.

Lemma order_amounts_witness :
  exists o,
    created (run (placeOrder 5 (demo_checkout "SAVE10" None)) (demo_store []))
    = Some o
    /\ pricing_invariant o.
Proof.
  destruct (created (run (placeOrder 5 (demo_checkout "SAVE10" None))
                       (demo_store []))) as [o|] eqn:E;
    [|vm_compute in E; discriminate].
  exists o. split; [reflexivity|].
  destruct (order_amounts 5 (demo_store []) demo_offers_nonnegative) as [H _].
  destruct (H (demo_checkout "SAVE10" None) o) as (_ & _ & _ & Hinv).
  - discriminate.
  - exact E.
  - apply Hinv. discriminate.
Defined.

(** C1, as stated, fails: a request that carries finalAmount 1 for a
    subtotal of 200 is stored with finalAmount 1. *)
Lemma client_finalAmount_stored :
  ~ (forall now body s o,
       created (run (placeOrder now body) s) = Some o -> pricing_invariant o).
Proof.
  intros H.
  destruct (created (run (placeOrder 5 (demo_checkout "" (Some 1%Q)))
                       (demo_store []))) as [o|] eqn:E;
    [|vm_compute in E; discriminate].
  destruct (H _ _ _ _ E) as [_ Hfin].
  vm_compute in E. injection E as <-.
  vm_compute in Hfin. discriminate.
Qed.

(** Why the amended C1 asks for non-negative amounts: nothing validates
    them.  A negative subtotal without coupon is below its discount of 0,
    and a coupon with a negative offer value raises the amount due above
    the subtotal. *)
Example negative_total_below_discount :
  exists o,
    created (run (placeOrder 5 (demo_checkout_of "" (-5))) (demo_store []))
    = Some o
    /\ ~ (discountAmount o <= totalAmount o)%Q.
Proof. eexists. split; [vm_compute; reflexivity|]. vm_compute. auto. Qed.

Example negative_offer_raises_amount :
  exists o,
    created (run (placeOrder 5 (demo_checkout_of "MINUS10" 200))
               (demo_store_with [mkCoupon "c2" "MINUS10" "flat" (-10) 1000 "active"]))
    = Some o
    /\ finalAmount o = 210%Q
    /\ ~ (finalAmount o <= totalAmount o)%Q.
Proof.
  eexists. split; [vm_compute; reflexivity|]. split; [reflexivity|].
  vm_compute. auto.
Qed.

(** A failed stock check ends either creation request with 400 before
    anything is written. *)
Lemma stock_failure_writes_nothing now s r :
  (forall body,
     verifyStock (b_products body) s = (s, inl r) ->
     fst (run (placeOrder now body) s) = s
     /\ r_status (snd (run (placeOrder now body) s)) = 400%Z)
  /\ (forall body,
        verifyStock (wb_products body) s = (s, inl r) ->
        fst (run (placeWalletOrder now body) s) = s
        /\ r_status (snd (run (placeWalletOrder now body) s)) = 400%Z).
Proof.
  split; intros body Hv.
  - assert (Hr : r_status r = 400%Z).
    { destruct (verifyStock_spec (b_products body) s) as [H | (r' & H & Hr')];
        rewrite Hv in H; congruence. }
    unfold placeOrder, run.
    destruct (b_shippingAddress body) as [addr|]; [|split; reflexivity].
    destruct (negb (truthy (b_userId body))
              || Nat.eqb (length (b_products body)) 0
              || negb (truthy (b_paymentMethod body))); [split; reflexivity|].
    pass s.
    rewrite (bind_inr _ _ _ _ _ (placeOrder_coupon_spec _ _ _ _)).
    rewrite (bind_inl _ _ _ _ _ Hv). split; [reflexivity | exact Hr].
  - assert (Hr : r_status r = 400%Z).
    { destruct (verifyStock_spec (wb_products body) s) as [H | (r' & H & Hr')];
        rewrite Hv in H; congruence. }
    unfold placeWalletOrder, run.
    destruct (wb_shippingAddress body) as [addr|]; [|split; reflexivity].
    destruct (negb (truthy (wb_userId body))
              || Nat.eqb (length (wb_products body)) 0); [split; reflexivity|].
    pass s.
    rewrite (bind_inr _ _ s s (Wallets s !! wb_userId body)) by reflexivity.
    destruct (Wallets s !! wb_userId body) as [w|]; [|split; reflexivity].
    destruct (Qltb (balance w) (wb_finalAmount body)); [split; reflexivity|].
    pass s.
    rewrite (bind_inr _ _ _ _ _ (placeWalletOrder_coupon_spec _ _ _ _)).
    rewrite (bind_inl _ _ _ _ _ Hv). split; [reflexivity | exact Hr].
Qed.

(** C4: the catalog holds variant vA with 5 in stock and variant vB with 10.
    A line asking for 8 of vA passes the stock check of both creation entry
    points, because vB satisfies the quantity condition; the order is
    created and vA is decremented to -3. *)
Theorem stock_check_matches_other_variant :
  let s := demo_store [] in
  let res :=
    run (placeOrder 9
           (mkPlaceOrderBody "u1" [demo_line 8] (Some demo_address)
              "Cash on Delivery" "" 800 None "" "")) s in
  let wres :=
    run (placeWalletOrder 9
           (mkWalletOrderBody "u1" [demo_line 8] (Some demo_address) "" 800 400))
        s in
  stockOf s "p1" "vA" = Some 5%Z
  /\ quantity (demo_line 8) = 8%Z
  /\ r_status (snd res) = 201%Z
  /\ stockOf (fst res) "p1" "vA" = Some (-3)%Z
  /\ r_status (snd wres) = 201%Z
  /\ stockOf (fst wres) "p1" "vA" = Some (-3)%Z.
Proof. vm_compute. repeat split; reflexivity. Qed.

(** ** Cancellation through the status endpoint *)

Lemma cancellable_true o :
  cancellable o = true <-> orderStatus o <> "Shipped" /\ orderStatus o <> "Delivered".
Proof.
  unfold cancellable. rewrite negb_true_iff, orb_false_iff.
  now rewrite !streq_false.
Qed.

Lemma cancellable_false o :
  cancellable o = false <-> orderStatus o = "Shipped" \/ orderStatus o = "Delivered".
Proof.
  unfold cancellable. rewrite negb_false_iff, orb_true_iff.
  now rewrite !streq_true.
Qed.

Lemma gatewayPaid_true o :
  gatewayPaid o = true
  <-> paymentMethod o = "RazorpayX" /\ paymentStatus o = "Completed".
Proof. unfold gatewayPaid. now rewrite andb_true_iff, !streq_true. Qed.

Lemma handleCancellation_rejected now o s :
  cancellable o = false ->
  handleCancellation now o s
  = (s, inl (json 400 ("Cannot cancel the order with current status "
                       ++ orderStatus o))).
Proof.
  unfold cancellable, handleCancellation. intros H.
  apply negb_false_iff in H. rewrite H. reflexivity.
Qed.

Lemma handleCancellation_ok now o s :
  cancellable o = true ->
  exists s', handleCancellation now o s = (s', inr tt)
    /\ Carts s' = Carts s /\ Coupons s' = Coupons s /\ Orders s' = Orders s
    /\ (forall pid vid,
          stockOf s' pid vid
          = option_map (fun q => (q + orderedQuantity pid vid (o_products o))%Z)
              (stockOf s pid vid))
    /\ Wallets s'
       = (if gatewayPaid o
          then <[o_userId o := refunded (Wallets s !! o_userId o)
                                 (oid_of (next_oid s)) o now]> (Wallets s)
          else Wallets s)
    /\ next_oid s' = (if gatewayPaid o then S (next_oid s) else next_oid s).
Proof.
  unfold cancellable, handleCancellation, gatewayPaid. intros H.
  apply negb_true_iff in H. rewrite H.
  destruct (restockCancelled_spec (o_products o) s)
    as (s1 & Hrun & (Hw & Hc & Hk & Ho & Hn) & Hst).
  pass s.
  rewrite (bind_inr _ _ _ _ _ Hrun).
  destruct (streq (paymentMethod o) "RazorpayX"
            && streq (paymentStatus o) "Completed") eqn:Hpaid.
  - rewrite (bind_inr _ _ _ _ _ (processRefund_spec now o s1)).
    eexists. split; [reflexivity|]. simpl.
    rewrite Hw, Hn. auto 10.
  - assert (Hsnd : streq (paymentMethod o) "RazorpayX"
                   && includes ["Processing"; "Confirmed"] (orderStatus o)
                   && streq (paymentStatus o) "Completed" = false).
    { destruct (streq (paymentMethod o) "RazorpayX"); [|reflexivity].
      simpl in Hpaid. rewrite Hpaid. apply andb_false_r. }
    rewrite Hsnd. exists s1. auto 10.
Qed.

Lemma orderStatusUpdate_cancel now id s o s' res :
  List.find (fun o' => streq (o_id o') id) (Orders s) = Some o ->
  handleCancellation now o s = (s', res) ->
  run (orderStatusUpdate now id "Cancelled") s
  = match res with
    | inl r => (s', r)
    | inr _ =>
        (set_Orders (update_first (saved (with_orderStatus "Cancelled" o))) s',
         mkResponse 200 "Order status updated successfully"
           (Some (with_orderStatus "Cancelled" o))
           (option_map walletInfo (Wallets s' !! o_userId o)))
    end.
Proof.
  intros Hf Hc. unfold orderStatusUpdate, run.
  pass s.
  rewrite (bind_inr _ _ s s (Some o))
    by (unfold Order_findById, gets; now rewrite Hf).
  pass s.
  destruct res as [r|[]].
  - now rewrite (bind_inl _ _ s s' r) by exact Hc.
  - rewrite (bind_inr _ _ s s' tt) by exact Hc.
    reflexivity.
Qed.

(** The effect of a cancellation request that passes the guard. *)
Lemma cancel_effect now id s o :
  List.find (fun o' => streq (o_id o') id) (Orders s) = Some o ->
  cancellable o = true ->
  let res := run (orderStatusUpdate now id "Cancelled") s in
  r_status (snd res) = 200%Z
  /\ List.find (fun o' => streq (o_id o') id) (Orders (fst res))
     = Some (with_orderStatus "Cancelled" o)
  /\ (forall pid vid,
        stockOf (fst res) pid vid
        = option_map (fun q => (q + orderedQuantity pid vid (o_products o))%Z)
            (stockOf s pid vid))
  /\ Wallets (fst res)
     = (if gatewayPaid o
        then <[o_userId o := refunded (Wallets s !! o_userId o)
                               (oid_of (next_oid s)) o now]> (Wallets s)
        else Wallets s).
Proof.
  intros Hf Hc.
  destruct (handleCancellation_ok now o s Hc)
    as (s' & Hrun & _ & _ & Ho & Hst & Hw & _).
  cbn zeta. rewrite (orderStatusUpdate_cancel now id s o s' _ Hf Hrun).
  cbn [fst snd r_status]. split; [reflexivity|]. split.
  - cbn [Orders set_Orders]. rewrite Ho. now apply (find_saved id o).
  - split; [exact Hst | exact Hw].
Qed.

(** C5: a Cancelled request on a Shipped or Delivered order answers 400 and
    writes nothing; on any other order it answers 200, adds to every
    variant's availableQuantity exactly the quantity the order holds of it,
    and credits the owner's wallet with one refund of finalAmount exactly
    when the order was paid through the gateway (RazorpayX, Completed). *)
Theorem cancel_transition now id s o :
  List.find (fun o' => streq (o_id o') id) (Orders s) = Some o ->
  let res := run (orderStatusUpdate now id "Cancelled") s in
  (orderStatus o = "Shipped" \/ orderStatus o = "Delivered" ->
     r_status (snd res) = 400%Z /\ fst res = s)
  /\ (orderStatus o <> "Shipped" /\ orderStatus o <> "Delivered" ->
      r_status (snd res) = 200%Z
      /\ (forall pid vid,
            stockOf (fst res) pid vid
            = option_map (fun q => (q + orderedQuantity pid vid (o_products o))%Z)
                (stockOf s pid vid))
      /\ (paymentMethod o = "RazorpayX" /\ paymentStatus o = "Completed" ->
          Wallets (fst res)
          = <[o_userId o := refunded (Wallets s !! o_userId o)
                              (oid_of (next_oid s)) o now]> (Wallets s))
      /\ (~ (paymentMethod o = "RazorpayX" /\ paymentStatus o = "Completed") ->
          Wallets (fst res) = Wallets s)).
Proof.
  intros Hf res. split.
  - intros Hsd. apply cancellable_false in Hsd. subst res.
    rewrite (orderStatusUpdate_cancel now id s o s _ Hf
               (handleCancellation_rejected now o s Hsd)).
    split; reflexivity.
  - intros Hok. apply cancellable_true in Hok.
    destruct (cancel_effect now id s o Hf Hok) as (Hst & _ & Hstock & Hw).
    fold res in Hst, Hstock, Hw. split; [exact Hst|]. split; [exact Hstock|].
    split; intros Hp.
    + apply gatewayPaid_true in Hp. now rewrite Hp in Hw.
    + destruct (gatewayPaid o) eqn:Hg; [|exact Hw].
      apply gatewayPaid_true in Hg. contradiction.
Qed.

Lemma cancel_transition_witness :
  let res := run (orderStatusUpdate 9 "o1" "Cancelled")
               (demo_store [demo_order "Confirmed" "RazorpayX" "Completed"]) in
  r_status (snd res) = 200%Z
  /\ stockOf (fst res) "p1" "vA" = Some 7%Z
  /\ ledgerOf (fst res) "u1"
     = [refundTransaction "7" (demo_order "Confirmed" "RazorpayX" "Completed") 9].
Proof.
  pose proof (cancel_transition 9 "o1"
                (demo_store [demo_order "Confirmed" "RazorpayX" "Completed"])
                (demo_order "Confirmed" "RazorpayX" "Completed") eq_refl) as [_ H].
  destruct H as (Hst & Hstock & Hw & _).
  { split; discriminate. }
  split; [exact Hst|]. split.
  - rewrite Hstock. reflexivity.
  - unfold ledgerOf. rewrite (Hw (conj eq_refl eq_refl)). reflexivity.
Defined.

(** C10: the cancellation guard of the status endpoint excludes only Shipped
    and Delivered.  An order that is already Cancelled, Returned or Payment
    Failed is accepted again: the request answers 200, the order is stored
    as Cancelled, every variant regains the quantity the order holds of it,
    and for a completed gateway payment one more refund of finalAmount is
    appended to the owner's wallet. *)
Theorem cancel_not_terminal now id s o :
  List.find (fun o' => streq (o_id o') id) (Orders s) = Some o ->
  orderStatus o = "Cancelled" \/ orderStatus o = "Returned"
  \/ orderStatus o = "Payment Failed" ->
  let res := run (orderStatusUpdate now id "Cancelled") s in
  r_status (snd res) = 200%Z
  /\ List.find (fun o' => streq (o_id o') id) (Orders (fst res))
     = Some (with_orderStatus "Cancelled" o)
  /\ (forall pid vid,
        stockOf (fst res) pid vid
        = option_map (fun q => (q + orderedQuantity pid vid (o_products o))%Z)
            (stockOf s pid vid))
  /\ (paymentMethod o = "RazorpayX" /\ paymentStatus o = "Completed" ->
      ledgerOf (fst res) (o_userId o)
      = (ledgerOf s (o_userId o)
         ++ [refundTransaction (oid_of (next_oid s)) o now])%list
      /\ (balanceOf (fst res) (o_userId o)
          == balanceOf s (o_userId o) + finalAmount o)%Q).
Proof.
  intros Hf Hst res.
  assert (Hc : cancellable o = true).
  { unfold cancellable. destruct Hst as [-> | [-> | ->]]; reflexivity. }
  destruct (cancel_effect now id s o Hf Hc) as (H200 & Hord & Hstock & Hw).
  fold res in H200, Hord, Hstock, Hw.
  repeat split; try assumption;
    apply gatewayPaid_true in H; rewrite H in Hw;
    now apply (wallet_after_refund s (fst res) _ _ _ _ Hw).
Qed.

Lemma cancel_not_terminal_witness :
  let o := demo_order "Cancelled" "RazorpayX" "Completed" in
  let res := run (orderStatusUpdate 9 "o1" "Cancelled") refunded_once in
  r_status (snd res) = 200%Z
  /\ stockOf (fst res) "p1" "vA" = Some 7%Z
  /\ ledgerOf (fst res) "u1" = [refundTransaction "6" o 8; refundTransaction "7" o 9].
Proof.
  intros o res.
  destruct (cancel_not_terminal 9 "o1" refunded_once o eq_refl (or_introl eq_refl))
    as (H200 & _ & Hstock & Hw).
  split; [exact H200|]. split.
  - fold res in Hstock. rewrite Hstock. reflexivity.
  - destruct (Hw (conj eq_refl eq_refl)) as [Hl _]. exact Hl.
Defined.

(** Cancelling twice: the second request is accepted like the first, the
    stock has grown by twice the ordered quantity and the wallet holds two
    refunds of the same order. *)
Example cancel_twice :
  let o := demo_order "Processing" "RazorpayX" "Completed" in
  let s1 := fst (run (orderStatusUpdate 9 "o1" "Cancelled") (demo_store [o])) in
  let res := run (orderStatusUpdate 10 "o1" "Cancelled") s1 in
  r_status (snd res) = 200%Z
  /\ stockOf (demo_store [o]) "p1" "vA" = Some 5%Z
  /\ stockOf (fst res) "p1" "vA" = Some 9%Z
  /\ map amount (ledgerOf (fst res) "u1") = [200%Q; 200%Q]
  /\ balanceOf (fst res) "u1" = 900%Q.
Proof. vm_compute. repeat split; reflexivity. Qed.

(** ** Returns: the status endpoint and the return endpoint *)

Lemma handleReturns_rejected now o s :
  streq (orderStatus o) "Delivered" = false ->
  handleReturns now o s
  = (s, inl (json 400 "Only delivered orders can be returned")).
Proof. unfold handleReturns. intros ->. reflexivity. Qed.

Lemma handleReturns_ok now o s :
  streq (orderStatus o) "Delivered" = true ->
  exists s', handleReturns now o s = (s', inr tt)
    /\ Carts s' = Carts s /\ Coupons s' = Coupons s /\ Orders s' = Orders s
    /\ (forall pid vid,
          stockOf s' pid vid
          = option_map (fun q => (q + orderedQuantity pid vid (o_products o))%Z)
              (stockOf s pid vid))
    /\ Wallets s'
       = (if streq (paymentStatus o) "Completed"
          then <[o_userId o := refunded (Wallets s !! o_userId o)
                                 (oid_of (next_oid s)) o now]> (Wallets s)
          else Wallets s)
    /\ next_oid s'
       = (if streq (paymentStatus o) "Completed"
          then S (next_oid s) else next_oid s).
Proof.
  unfold handleReturns. intros ->.
  destruct (restockCancelled_spec (o_products o) s)
    as (s1 & Hrun & (Hw & Hc & Hk & Ho & Hn) & Hst).
  rewrite <- restockReturned_restockCancelled in Hrun.
  pass s.
  rewrite (bind_inr _ _ _ _ _ Hrun).
  destruct (streq (paymentStatus o) "Completed").
  - rewrite (bind_inr _ _ _ _ _ (processRefund_spec now o s1)).
    eexists. split; [reflexivity|]. simpl. rewrite Hw, Hn. auto 10.
  - exists s1. auto 10.
Qed.

Lemma orderStatusUpdate_return now id s o s' res :
  List.find (fun o' => streq (o_id o') id) (Orders s) = Some o ->
  handleReturns now o s = (s', res) ->
  run (orderStatusUpdate now id "Returned") s
  = match res with
    | inl r => (s', r)
    | inr _ =>
        (set_Orders (update_first (saved (with_orderStatus "Returned" o))) s',
         mkResponse 200 "Order status updated successfully"
           (Some (with_orderStatus "Returned" o))
           (option_map walletInfo (Wallets s' !! o_userId o)))
    end.
Proof.
  intros Hf Hc. unfold orderStatusUpdate, run.
  pass s.
  rewrite (bind_inr _ _ s s (Some o))
    by (unfold Order_findById, gets; now rewrite Hf).
  pass s.
  pass s.
  destruct res as [r|[]].
  - now rewrite (bind_inl _ _ s s' r) by exact Hc.
  - rewrite (bind_inr _ _ s s' tt) by exact Hc.
    reflexivity.
Qed.

Lemma orderStatusUpdate_not_found now id status s :
  List.find (fun o' => streq (o_id o') id) (Orders s) = None ->
  truthy status = true ->
  run (orderStatusUpdate now id status) s = (s, json 404 "Order not found").
Proof.
  intros Hf Ht. unfold orderStatusUpdate, run.
  rewrite Ht. pass s.
  rewrite (bind_inr _ _ s s None)
    by (unfold Order_findById, gets; now rewrite Hf).
  reflexivity.
Qed.

Lemma returnOrderStatusUpdate_spec now id body s :
  rb_status body = "Returned" ->
  truthy (returnReason body) = true ->
  truthy (returnDescription body) = true ->
  run (returnOrderStatusUpdate now id body) s
  = match List.find (fun o' => streq (o_id o') id) (Orders s) with
    | None => (s, json 404 "Order not found")
    | Some o =>
        if streq (orderStatus o) "Delivered" then
          let o' := with_orderStatus "Returned"
                      (with_returnDetails (returnRecord now body) o) in
          if streq (paymentStatus o) "Completed" then
            let w := refunded (Wallets s !! o_userId o)
                       (oid_of (next_oid s)) o now in
            (mkStore (Products s) (<[o_userId o := w]> (Wallets s)) (Carts s)
               (Coupons s) (update_first (saved o') (Orders s))
               (S (next_oid s)),
             mkResponse 200 "Return processed successfully" (Some o')
               (Some (walletInfo w)))
          else
            (set_Orders (update_first (saved o')) s,
             mkResponse 200 "Return processed successfully" (Some o') None)
        else (s, json 400 "Only delivered orders can be returned")
    end.
Proof.
  intros Hs Hr Hd. unfold returnOrderStatusUpdate, run.
  rewrite Hs, Hr, Hd.
  pass s.
  unfold Order_findById, gets. unfold bind at 1.
  destruct (List.find _ (Orders s)) as [o|]; [|reflexivity].
  pass s.
  pass s.
  destruct (streq (orderStatus o) "Delivered") eqn:Hdel; [|reflexivity].
  pass s.
  cbn [paymentStatus with_returnDetails].
  destruct (streq (paymentStatus o) "Completed").
  - rewrite (bind_inr _ _ _ _ _ (processRefund_spec now _ s)).
    cbn [o_userId with_returnDetails].
    rewrite refunded_returnDetails. reflexivity.
  - reflexivity.
Qed.

(** The return endpoint never writes the product collection. *)
Lemma returnOrderStatusUpdate_keeps_stock now id body s :
  Products (fst (run (returnOrderStatusUpdate now id body) s)) = Products s.
Proof.
  unfold returnOrderStatusUpdate, Order_findById, Order_save, run, bind, when,
    reply, ret, gets, modify.
  destruct (negb (truthy (rb_status body))); [reflexivity|].
  destruct (List.find (fun o' => streq (o_id o') id) (Orders s)) as [o|];
    [|reflexivity].
  destruct (negb (streq (rb_status body) "Returned")); [reflexivity|].
  destruct (negb (truthy (returnReason body)) || negb (truthy (returnDescription body)));
    [reflexivity|].
  destruct (negb (streq (orderStatus o) "Delivered")); [reflexivity|].
  cbn [paymentStatus with_returnDetails].
  destruct (streq (paymentStatus o) "Completed"); [|reflexivity].
  rewrite processRefund_spec. reflexivity.
Qed.

(** C2: at a Delivered, paid order of two shirts (stock 5) the return
    endpoint answers 200, records returnDetails and appends one refund of
    finalAmount, but leaves the stock at 5; the status endpoint, given the
    same order, brings it to 7. *)
Theorem return_endpoint_skips_restock :
  let o := demo_order "Delivered" "Cash on Delivery" "Completed" in
  let s := demo_store [o] in
  let res := run (returnOrderStatusUpdate 9 "o1" demo_return) s in
  r_status (snd res) = 200%Z
  /\ Orders (fst res)
     = [with_orderStatus "Returned"
          (with_returnDetails (returnRecord 9 demo_return) o)]
  /\ ledgerOf (fst res) "u1" = [refundTransaction "7" o 9]
  /\ orderedQuantity "p1" "vA" (o_products o) = 2%Z
  /\ stockOf s "p1" "vA" = Some 5%Z
  /\ stockOf (fst res) "p1" "vA" = Some 5%Z
  /\ stockOf (fst (run (orderStatusUpdate 9 "o1" "Returned") s)) "p1" "vA"
     = Some 7%Z.
Proof. vm_compute. repeat split; reflexivity. Qed.

(** C3, as amended: called on the same store, the status endpoint with
    status Returned and the return endpoint with a reason and a description
    answer with the same status code and leave the same wallets (the same
    refund), the same carts, coupons and id counter, and the same orders up
    to returnDetails, which only the return endpoint records.  Stock is not
    compared. *)
Theorem return_paths_agree now id body s :
  rb_status body = "Returned" ->
  returnReason body <> "" ->
  returnDescription body <> "" ->
  let g := run (orderStatusUpdate now id "Returned") s in
  let d := run (returnOrderStatusUpdate now id body) s in
  r_status (snd g) = r_status (snd d)
  /\ Wallets (fst g) = Wallets (fst d)
  /\ next_oid (fst g) = next_oid (fst d)
  /\ Carts (fst g) = Carts (fst d)
  /\ Coupons (fst g) = Coupons (fst d)
  /\ map (with_returnDetails None) (Orders (fst g))
     = map (with_returnDetails None) (Orders (fst d))
  /\ forall o,
       List.find (fun o' => streq (o_id o') id) (Orders s) = Some o ->
       orderStatus o = "Delivered" ->
       List.find (fun o' => streq (o_id o') id) (Orders (fst g))
       = Some (with_orderStatus "Returned" o)
       /\ List.find (fun o' => streq (o_id o') id) (Orders (fst d))
          = Some (with_returnDetails (returnRecord now body)
                    (with_orderStatus "Returned" o)).
Proof.
  intros Hs Hr Hd g d. apply truthy_true in Hr, Hd.
  subst g d. rewrite (returnOrderStatusUpdate_spec now id body s Hs Hr Hd).
  destruct (List.find _ (Orders s)) as [o|] eqn:Hf.
  - destruct (streq (orderStatus o) "Delivered") eqn:Hdel.
    + destruct (handleReturns_ok now o s Hdel)
        as (s' & Hrun & Hc & Hk & Ho & _ & Hw & Hn).
      rewrite (orderStatusUpdate_return now id s o s' _ Hf Hrun).
      cbn [fst snd r_status Orders Wallets Carts Coupons next_oid set_Orders].
      rewrite Ho, Hw, Hn, Hc, Hk.
      assert (Hmap : map (with_returnDetails None)
                       (update_first (saved (with_orderStatus "Returned" o)) (Orders s))
                     = map (with_returnDetails None)
                         (update_first
                            (saved (with_orderStatus "Returned"
                                      (with_returnDetails (returnRecord now body) o)))
                            (Orders s)))
        by (now apply map_update_first_saved).
      assert (Hfind : forall o0, Some o = Some o0 -> orderStatus o0 = "Delivered" ->
                List.find (fun o' => streq (o_id o') id)
                  (update_first (saved (with_orderStatus "Returned" o)) (Orders s))
                = Some (with_orderStatus "Returned" o0)
                /\ List.find (fun o' => streq (o_id o') id)
                     (update_first
                        (saved (with_orderStatus "Returned"
                                  (with_returnDetails (returnRecord now body) o)))
                        (Orders s))
                   = Some (with_returnDetails (returnRecord now body)
                             (with_orderStatus "Returned" o0))).
      { intros o0 [= <-] _. split; now apply (find_saved id o). }
      destruct (streq (paymentStatus o) "Completed"); cbn; auto 10.
    + rewrite (orderStatusUpdate_return now id s o s _ Hf
                 (handleReturns_rejected now o s Hdel)).
      do 6 (split; [reflexivity|]).
      intros o0 [= <-] Hst. apply streq_true in Hst. congruence.
  - rewrite (orderStatusUpdate_not_found now id "Returned" s Hf eq_refl).
    do 6 (split; [reflexivity|]). discriminate.
Qed.

Lemma return_paths_agree_witness :
  let s := demo_store [demo_order "Delivered" "Cash on Delivery" "Completed"] in
  Wallets (fst (run (orderStatusUpdate 9 "o1" "Returned") s))
  = Wallets (fst (run (returnOrderStatusUpdate 9 "o1" demo_return) s)).
Proof.
  intros s.
  apply (return_paths_agree 9 "o1" demo_return s eq_refl); discriminate.
Defined.

(** C3, as stated, fails: on a Delivered order of two shirts the status
    endpoint restocks and records no returnDetails, the return endpoint
    records returnDetails and restocks nothing. *)
Lemma return_paths_differ :
  ~ (forall now id body s,
       rb_status body = "Returned" ->
       returnReason body <> "" -> returnDescription body <> "" ->
       fst (run (orderStatusUpdate now id "Returned") s)
       = fst (run (returnOrderStatusUpdate now id body) s)).
Proof.
  intros H.
  specialize (H 9%Z "o1" demo_return
                (demo_store [demo_order "Delivered" "Cash on Delivery" "Completed"])
                eq_refl).
  apply (f_equal (fun s => stockOf s "p1" "vA")) in H; [|discriminate..].
  vm_compute in H. discriminate.
Qed.

(** ** Order creation: what an accepted request writes *)

Lemma verifyStockItem_passes it s :
  (exists p, Products s !! productId it = Some p
             /\ has_variant (variantId it) p = true
             /\ has_quantity (quantity it) p = true)
  <-> verifyStockItem it s = (s, inr tt).
Proof.
  unfold verifyStockItem, Product_findStock, gets, bind. split.
  - intros (p & -> & -> & ->). reflexivity.
  - destruct (Products s !! productId it) as [p|]; [|discriminate].
    destruct (has_variant (variantId it) p) eqn:Hv; [|discriminate].
    destruct (has_quantity (quantity it) p) eqn:Hq; [|discriminate].
    intros _. now exists p.
Qed.

Lemma verifyStock_passes items s :
  stockCheckPasses s items <-> verifyStock items s = (s, inr tt).
Proof.
  unfold stockCheckPasses, verifyStock.
  induction items as [|it items IH]; cbn [forEach].
  - split; [reflexivity | constructor].
  - split.
    + intros H. inversion H as [|? ? Hit Hrest]; subst.
      apply verifyStockItem_passes in Hit.
      rewrite (bind_inr _ _ _ _ _ Hit). now apply IH.
    + intros H.
      destruct (verifyStockItem_spec it s) as [Hit | (r & Hit & _)].
      * rewrite (bind_inr _ _ _ _ _ Hit) in H.
        constructor; [now apply verifyStockItem_passes | now apply IH].
      * rewrite (bind_inl _ _ _ _ _ Hit) in H. discriminate.
Qed.

Lemma reserveStock_stock items : forall s,
  exists s', reserveStock items s = (s', inr tt)
    /\ same_but_products s s'
    /\ forall pid vid,
         stockOf s' pid vid
         = option_map
             (fun q => (q - orderedQuantity pid vid (map orderItem items))%Z)
             (stockOf s pid vid).
Proof.
  induction items as [|it items IH]; intros s.
  - exists s. split; [reflexivity|]. split; [apply same_but_products_refl|].
    intros pid vid. cbn. destruct (stockOf s pid vid); cbn; [|reflexivity].
    f_equal. lia.
  - destruct (IH (set_Products (incStock (productId it) (variantId it)
                                  (- quantity it)) s)) as (s' & Hrun & Hfr & Hst).
    exists s'. split; [exact Hrun|]. split.
    + eapply same_but_products_trans; [|exact Hfr]. repeat split.
    + intros pid vid. rewrite Hst, stockOf_incStock.
      cbn [map orderedQuantity orderItem oi_productId oi_variantId oi_quantity].
      destruct (streq (productId it) pid && streq (variantId it) vid);
        destruct (stockOf s pid vid); cbn [option_map]; try reflexivity;
        f_equal; lia.
Qed.

Lemma nonempty_length {A} (l : list A) : l <> [] -> Nat.eqb (length l) 0 = false.
Proof. destruct l; [contradiction | reflexivity]. Qed.

Lemma placeOrder_accepted now body s addr :
  b_shippingAddress body = Some addr ->
  b_userId body <> "" -> b_products body <> [] -> b_paymentMethod body <> "" ->
  stockCheckPasses s (b_products body) ->
  b_status body <> "Payment Failed" ->
  let res := run (placeOrder now body) s in
  exists o,
    r_status (snd res) = 201%Z
    /\ r_order (snd res) = Some o
    /\ Orders (fst res) = (Orders s ++ [o])%list
    /\ o_id o = oid_of (next_oid s)
    /\ o_userId o = b_userId body
    /\ o_products o = map orderItem (b_products body)
    /\ orderStatus o = "Processing"
    /\ paymentStatus o
       = (if streq (b_paymentMethod body) "RazorpayX"
          then "Completed" else "Pending")
    /\ (forall pid vid,
          stockOf (fst res) pid vid
          = option_map (fun q => (q - orderedQuantity pid vid (o_products o))%Z)
              (stockOf s pid vid))
    /\ Carts (fst res) = alter (fun _ => []) (b_userId body) (Carts s)
    /\ Wallets (fst res) = Wallets s
    /\ next_oid (fst res) = S (next_oid s)
    /\ Coupons (fst res) = Coupons s
    /\ paymentMethod o = b_paymentMethod body
    /\ finalAmount o
       = num_or (b_finalAmount body)
           (b_totalAmount body
            - discountFor (appliedCoupon s now (b_couponCode body))
                (b_totalAmount body))%Q.
Proof.
  intros Haddr Hu Hp Hm Hstock Hst res. subst res.
  apply truthy_true in Hu, Hm. apply nonempty_length in Hp.
  apply verifyStock_passes in Hstock. apply streq_false in Hst.
  unfold placeOrder, run. rewrite Haddr, Hu, Hp, Hm. cbn [negb orb].
  pass s.
  rewrite (bind_inr _ _ _ _ _ (placeOrder_coupon_spec _ _ _ _)).
  rewrite (bind_inr _ _ _ _ _ Hstock).
  rewrite (bind_inr _ _ _ _ (oid_of (next_oid s)) eq_refl).
  rewrite Hst.
  match goal with
  | |- context [Order_insert ?o'] => set (newOrder := o')
  end.
  rewrite (bind_inr _ _ _ _ tt eq_refl).
  cbn [orderStatus newOrder negb streq String.eqb Ascii.eqb Bool.eqb when].
  match goal with
  | |- context [bind _ _ ?s1] => set (s0 := s1)
  end.
  destruct (reserveStock_stock (b_products body) s0)
    as (s' & Hres & (Hw & Hc & Hk & Ho & Hn) & Hstk).
  rewrite (bind_inr _ _ s0 (set_Carts (alter (fun _ => []) (b_userId body)) s') tt)
    by (now rewrite (bind_inr _ _ _ _ _ Hres)).
  exists newOrder. cbn. rewrite Ho, Hc, Hw, Hn, Hk. repeat split; try reflexivity.
  intros pid vid. exact (Hstk pid vid).
Qed.

(** X1: a checkout that passes validation and the stock check, and is not
    reported as a failed payment, answers 201 with the order it appended:
    status Processing, paymentStatus Completed for RazorpayX and Pending
    otherwise.  Every variant loses the quantity the order holds of it, the
    user's cart is emptied, and no wallet is touched. *)
Theorem placeOrder_effect now body s addr :
  b_shippingAddress body = Some addr ->
  b_userId body <> "" -> b_products body <> [] -> b_paymentMethod body <> "" ->
  stockCheckPasses s (b_products body) ->
  b_status body <> "Payment Failed" ->
  let res := run (placeOrder now body) s in
  exists o,
    r_status (snd res) = 201%Z
    /\ r_order (snd res) = Some o
    /\ Orders (fst res) = (Orders s ++ [o])%list
    /\ o_id o = oid_of (next_oid s)
    /\ o_userId o = b_userId body
    /\ o_products o = map orderItem (b_products body)
    /\ orderStatus o = "Processing"
    /\ paymentStatus o
       = (if streq (b_paymentMethod body) "RazorpayX"
          then "Completed" else "Pending")
    /\ (forall pid vid,
          stockOf (fst res) pid vid
          = option_map (fun q => (q - orderedQuantity pid vid (o_products o))%Z)
              (stockOf s pid vid))
    /\ Carts (fst res) = alter (fun _ => []) (b_userId body) (Carts s)
    /\ Wallets (fst res) = Wallets s
    /\ next_oid (fst res) = S (next_oid s).
Proof.
  intros Haddr Hu Hp Hm Hstock Hst res.
  destruct (placeOrder_accepted now body s addr Haddr Hu Hp Hm Hstock Hst)
    as (o & H). exists o. fold res in H. tauto.
Qed.

Lemma placeOrder_payment_failed_run now body s addr :
  b_shippingAddress body = Some addr ->
  b_userId body <> "" -> b_products body <> [] -> b_paymentMethod body <> "" ->
  stockCheckPasses s (b_products body) ->
  b_status body = "Payment Failed" ->
  exists o,
    run (placeOrder now body) s
    = (mkStore (Products s) (Wallets s) (Carts s) (Coupons s)
         (Orders s ++ [o])%list (S (next_oid s)),
       mkResponse 201 "Order created with payment failure" (Some o) None)
    /\ o_id o = oid_of (next_oid s)
    /\ orderStatus o = "Payment Failed"
    /\ paymentStatus o = "Failed".
Proof.
  intros Haddr Hu Hp Hm Hstock Hst.
  apply truthy_true in Hu, Hm. apply nonempty_length in Hp.
  apply verifyStock_passes in Hstock.
  unfold placeOrder, run. rewrite Haddr, Hu, Hp, Hm, Hst. cbn [negb orb].
  pass s.
  rewrite (bind_inr _ _ _ _ _ (placeOrder_coupon_spec _ _ _ _)).
  rewrite (bind_inr _ _ _ _ _ Hstock).
  rewrite (bind_inr _ _ _ _ (oid_of (next_oid s)) eq_refl).
  eexists. split; [reflexivity|]. repeat split.
Qed.

(** X2: a checkout reported with status Payment Failed, once past validation
    and the stock check, is stored as Payment Failed / Failed and answered
    201; stock, carts and wallets stay as they were. *)
Theorem placeOrder_payment_failed now body s addr :
  b_shippingAddress body = Some addr ->
  b_userId body <> "" -> b_products body <> [] -> b_paymentMethod body <> "" ->
  stockCheckPasses s (b_products body) ->
  b_status body = "Payment Failed" ->
  exists o,
    run (placeOrder now body) s
    = (mkStore (Products s) (Wallets s) (Carts s) (Coupons s)
         (Orders s ++ [o])%list (S (next_oid s)),
       mkResponse 201 "Order created with payment failure" (Some o) None)
    /\ o_id o = oid_of (next_oid s)
    /\ orderStatus o = "Payment Failed"
    /\ paymentStatus o = "Failed".
Proof.
  intros Haddr Hu Hp Hm Hstock Hst.
  exact (placeOrder_payment_failed_run now body s addr Haddr Hu Hp Hm Hstock Hst).
Qed.

Lemma Qltb_ge a b : (b <= a)%Q -> Qltb a b = false.
Proof.
  intros H. unfold Qltb. apply negb_false_iff. now apply Qle_bool_iff.
Qed.

Lemma placeWalletOrder_accepted now body s addr w :
  wb_shippingAddress body = Some addr ->
  wb_userId body <> "" -> wb_products body <> [] ->
  Wallets s !! wb_userId body = Some w ->
  (wb_finalAmount body <= balance w)%Q ->
  stockCheckPasses s (wb_products body) ->
  let res := run (placeWalletOrder now body) s in
  exists o,
    r_status (snd res) = 201%Z
    /\ r_order (snd res) = Some o
    /\ Orders (fst res) = (Orders s ++ [o])%list
    /\ o_id o = oid_of (S (next_oid s))
    /\ o_products o = map orderItem (wb_products body)
    /\ paymentMethod o = "Wallet"
    /\ orderStatus o = "Processing"
    /\ paymentStatus o = "Completed"
    /\ Wallets (fst res)
       = <[wb_userId body :=
             mkWallet (balance w - wb_finalAmount body)%Q
               (transactions w
                ++ [walletPayment (oid_of (next_oid s)) (wb_finalAmount body)])%list]>
           (Wallets s)
    /\ (0 <= balance w - wb_finalAmount body)%Q
    /\ (forall pid vid,
          stockOf (fst res) pid vid
          = option_map (fun q => (q - orderedQuantity pid vid (o_products o))%Z)
              (stockOf s pid vid))
    /\ Carts (fst res) = alter (fun _ => []) (wb_userId body) (Carts s)
    /\ next_oid (fst res) = S (S (next_oid s))
    /\ Coupons (fst res) = Coupons s
    /\ o_userId o = wb_userId body.
Proof.
  intros Haddr Hu Hp Hw Hbal Hstock res. subst res.
  apply truthy_true in Hu. apply nonempty_length in Hp.
  apply verifyStock_passes in Hstock.
  unfold placeWalletOrder, run. rewrite Haddr, Hu, Hp. cbn [negb orb].
  pass s.
  rewrite (bind_inr _ _ s s (Some w)) by (unfold Wallet_findOne, gets; now rewrite Hw).
  rewrite (Qltb_ge _ _ Hbal).
  pass s.
  rewrite (bind_inr _ _ _ _ _ (placeWalletOrder_coupon_spec _ _ _ _)).
  rewrite (bind_inr _ _ _ _ _ Hstock).
  rewrite (bind_inr _ _ _ _ (oid_of (next_oid s)) eq_refl).
  rewrite (bind_inr _ _ _ _ tt eq_refl).
  match goal with
  | |- context [bind freshObjectId _ ?s1] => set (s0 := s1)
  end.
  rewrite (bind_inr _ _ s0 _ (oid_of (next_oid s0)) eq_refl).
  match goal with
  | |- context [Order_insert ?o'] => set (newOrder := o')
  end.
  rewrite (bind_inr _ _ _ _ tt eq_refl).
  match goal with
  | |- context [bind (reserveStock _) _ ?s2] =>
      destruct (reserveStock_stock (wb_products body) s2)
        as (s' & Hres & (Hws & Hc & Hk & Ho & Hn) & Hstk)
  end.
  rewrite (bind_inr _ _ _ _ _ Hres).
  rewrite (bind_inr _ _ _ _ tt eq_refl).
  exists newOrder. cbn. rewrite Ho, Hc, Hws, Hk, Hn. cbn.
  repeat split; try reflexivity.
  - lra.
  - intros pid vid. exact (Hstk pid vid).
Qed.

(** X3: a wallet checkout that passes validation, the balance check and the
    stock check answers 201 with the order it appended (method Wallet,
    Processing, Completed).  The user's wallet is debited by the finalAmount
    of the request and gets one wallet transaction of that amount; the new
    balance is not negative; every variant loses the quantity the order
    holds of it and the cart is emptied. *)
Theorem placeWalletOrder_effect now body s addr w :
  wb_shippingAddress body = Some addr ->
  wb_userId body <> "" -> wb_products body <> [] ->
  Wallets s !! wb_userId body = Some w ->
  (wb_finalAmount body <= balance w)%Q ->
  stockCheckPasses s (wb_products body) ->
  let res := run (placeWalletOrder now body) s in
  exists o,
    r_status (snd res) = 201%Z
    /\ r_order (snd res) = Some o
    /\ Orders (fst res) = (Orders s ++ [o])%list
    /\ o_id o = oid_of (S (next_oid s))
    /\ o_products o = map orderItem (wb_products body)
    /\ paymentMethod o = "Wallet"
    /\ orderStatus o = "Processing"
    /\ paymentStatus o = "Completed"
    /\ Wallets (fst res)
       = <[wb_userId body :=
             mkWallet (balance w - wb_finalAmount body)%Q
               (transactions w
                ++ [walletPayment (oid_of (next_oid s)) (wb_finalAmount body)])%list]>
           (Wallets s)
    /\ (0 <= balance w - wb_finalAmount body)%Q
    /\ (forall pid vid,
          stockOf (fst res) pid vid
          = option_map (fun q => (q - orderedQuantity pid vid (o_products o))%Z)
              (stockOf s pid vid))
    /\ Carts (fst res) = alter (fun _ => []) (wb_userId body) (Carts s).
Proof.
  intros Haddr Hu Hp Hw Hbal Hstock res.
  destruct (placeWalletOrder_accepted now body s addr w Haddr Hu Hp Hw Hbal Hstock)
    as (o & H). exists o. fold res in H. tauto.
Qed.

(** ** Validation of creation requests *)

Lemma truthy_false a : truthy a = false <-> a = "".
Proof. unfold truthy. now rewrite negb_false_iff, streq_true. Qed.

Lemma length_zero {A} (l : list A) : Nat.eqb (length l) 0 = true <-> l = [].
Proof. destruct l; cbn; split; congruence. Qed.

(** X4: the validation of placeOrder.  A request that lacks userId,
    products, shippingAddress or paymentMethod is answered 400.  A request
    answered 201 carried all four and passed the stock check on every line.
    A request answered 400 wrote nothing, and either lacked one of the four
    fields or failed the stock check. *)
Theorem placeOrder_validation now body s :
  let res := run (placeOrder now body) s in
  (b_shippingAddress body = None \/ b_userId body = ""
   \/ b_products body = [] \/ b_paymentMethod body = "" ->
   r_status (snd res) = 400%Z)
  /\ (r_status (snd res) = 201%Z ->
      b_shippingAddress body <> None /\ b_userId body <> ""
      /\ b_products body <> [] /\ b_paymentMethod body <> ""
      /\ stockCheckPasses s (b_products body))
  /\ (r_status (snd res) = 400%Z ->
      fst res = s
      /\ (b_shippingAddress body = None \/ b_userId body = ""
          \/ b_products body = [] \/ b_paymentMethod body = ""
          \/ ~ stockCheckPasses s (b_products body))).
Proof.
  intros res. subst res. unfold placeOrder, run.
  destruct (b_shippingAddress body) as [addr|];
    [|split; [reflexivity | split; [discriminate | intros _; split; [reflexivity | now left]]]].
  destruct (truthy (b_userId body)) eqn:Hu; cbn [negb orb];
    [|apply truthy_false in Hu;
      split; [reflexivity | split; [discriminate | intros _; split; [reflexivity | tauto]]]].
  destruct (Nat.eqb (length (b_products body)) 0) eqn:Hp; cbn [negb orb];
    [apply length_zero in Hp;
     split; [reflexivity | split; [discriminate | intros _; split; [reflexivity | tauto]]]|].
  destruct (truthy (b_paymentMethod body)) eqn:Hm; cbn [negb orb];
    [|apply truthy_false in Hm;
      split; [reflexivity | split; [discriminate | intros _; split; [reflexivity | tauto]]]].
  apply truthy_true in Hu, Hm.
  assert (Hne : b_products body <> []) by (intros E; rewrite E in Hp; discriminate).
  split; [intros [E | [E | [E | E]]]; [discriminate | contradiction..]|].
  pass s.
  rewrite (bind_inr _ _ _ _ _ (placeOrder_coupon_spec _ _ _ _)).
  destruct (verifyStock_spec (b_products body) s) as [Hv | (r & Hv & Hr)].
  - pose proof (proj2 (verifyStock_passes _ _) Hv) as Hpass.
    split; [intros _; repeat split; try assumption; discriminate|].
    rewrite (bind_inr _ _ _ _ _ Hv).
    rewrite (bind_inr _ _ _ _ (oid_of (next_oid s)) eq_refl).
    rewrite (bind_inr _ _ _ _ tt eq_refl).
    destruct (streq (b_status body) "Payment Failed"); [discriminate|].
    cbn [orderStatus negb streq String.eqb Ascii.eqb Bool.eqb when].
    match goal with
    | |- context [bind _ _ ?s1] => set (s0 := s1)
    end.
    destruct (reserveStock_spec (b_products body) s0) as (s' & Hres & _).
    rewrite (bind_inr _ _ s0 (set_Carts (alter (fun _ => []) (b_userId body)) s') tt)
      by (now rewrite (bind_inr _ _ _ _ _ Hres)).
    discriminate.
  - rewrite (bind_inl _ _ _ _ _ Hv). cbn [fst snd]. rewrite Hr.
    split; [discriminate|]. intros _. split; [reflexivity|].
    do 4 right. intros Hpass.
    apply verifyStock_passes in Hpass. rewrite Hpass in Hv. discriminate.
Qed.

Lemma placeOrder_validation_witness :
  let s := set_Products (fun _ => ∅) (demo_store_with []) in
  fst (run (placeOrder 9 (demo_checkout_of "" 200)) s) = s.
Proof.
  intros s.
  apply (proj2 (proj2 (placeOrder_validation 9 (demo_checkout_of "" 200) s))).
  reflexivity.
Defined.

(** X5: the validation of placeWalletOrder.  A request that lacks userId,
    products or shippingAddress is answered 400.  A request answered 201
    carried all three, met a wallet whose balance was not below the
    finalAmount of the request, and passed the stock check on every line.
    A request answered 400 wrote nothing, and either lacked a field, met no
    wallet or a balance below finalAmount, or failed the stock check. *)
Theorem placeWalletOrder_validation now body s :
  let res := run (placeWalletOrder now body) s in
  (wb_shippingAddress body = None \/ wb_userId body = ""
   \/ wb_products body = [] -> r_status (snd res) = 400%Z)
  /\ (r_status (snd res) = 201%Z ->
      wb_shippingAddress body <> None /\ wb_userId body <> ""
      /\ wb_products body <> []
      /\ (exists w, Wallets s !! wb_userId body = Some w
                    /\ (wb_finalAmount body <= balance w)%Q)
      /\ stockCheckPasses s (wb_products body))
  /\ (r_status (snd res) = 400%Z ->
      fst res = s
      /\ (wb_shippingAddress body = None \/ wb_userId body = ""
          \/ wb_products body = []
          \/ Wallets s !! wb_userId body = None
          \/ (exists w, Wallets s !! wb_userId body = Some w
                        /\ (balance w < wb_finalAmount body)%Q)
          \/ ~ stockCheckPasses s (wb_products body))).
Proof.
  intros res. subst res. unfold placeWalletOrder, run.
  destruct (wb_shippingAddress body) as [addr|];
    [|split; [reflexivity | split; [discriminate | intros _; split; [reflexivity | now left]]]].
  destruct (truthy (wb_userId body)) eqn:Hu; cbn [negb orb];
    [|apply truthy_false in Hu;
      split; [reflexivity | split; [discriminate | intros _; split; [reflexivity | tauto]]]].
  destruct (Nat.eqb (length (wb_products body)) 0) eqn:Hp; cbn [negb orb];
    [apply length_zero in Hp;
     split; [reflexivity | split; [discriminate | intros _; split; [reflexivity | tauto]]]|].
  apply truthy_true in Hu.
  assert (Hne : wb_products body <> []) by (intros E; rewrite E in Hp; discriminate).
  split; [intros [E | [E | E]]; [discriminate | contradiction..]|].
  pass s.
  rewrite (bind_inr _ _ s s (Wallets s !! wb_userId body)) by reflexivity.
  destruct (Wallets s !! wb_userId body) as [w|] eqn:Hw;
    [|split; [discriminate | intros _; split; [reflexivity | tauto]]].
  destruct (Qltb (balance w) (wb_finalAmount body)) eqn:Hlt.
  { split; [discriminate|]. intros _. split; [reflexivity|].
    do 4 right. left. exists w. split; [reflexivity|].
    unfold Qltb in Hlt. apply negb_true_iff in Hlt.
    apply Qnot_le_lt. intros Hle. apply Qle_bool_iff in Hle. congruence. }
  assert (Hle : (wb_finalAmount body <= balance w)%Q).
  { unfold Qltb in Hlt. apply negb_false_iff in Hlt. now apply Qle_bool_iff. }
  pass s.
  rewrite (bind_inr _ _ _ _ _ (placeWalletOrder_coupon_spec _ _ _ _)).
  destruct (verifyStock_spec (wb_products body) s) as [Hv | (r & Hv & Hr)].
  - pose proof (proj2 (verifyStock_passes _ _) Hv) as Hpass.
    split; [intros _; repeat split; try assumption; try discriminate; eauto|].
    rewrite (bind_inr _ _ _ _ _ Hv).
    rewrite (bind_inr _ _ _ _ (oid_of (next_oid s)) eq_refl).
    rewrite (bind_inr _ _ _ _ tt eq_refl).
    match goal with
    | |- context [bind freshObjectId _ ?s1] => set (s0 := s1)
    end.
    rewrite (bind_inr _ _ s0 _ (oid_of (next_oid s0)) eq_refl).
    rewrite (bind_inr _ _ _ _ tt eq_refl).
    match goal with
    | |- context [bind (reserveStock _) _ ?s2] =>
        destruct (reserveStock_spec (wb_products body) s2) as (s' & Hres & _)
    end.
    rewrite (bind_inr _ _ _ _ _ Hres).
    rewrite (bind_inr _ _ _ _ tt eq_refl).
    discriminate.
  - rewrite (bind_inl _ _ _ _ _ Hv). cbn [fst snd]. rewrite Hr.
    split; [discriminate|]. intros _. split; [reflexivity|].
    do 5 right. intros Hpass.
    apply verifyStock_passes in Hpass. rewrite Hpass in Hv. discriminate.
Qed.

Lemma placeWalletOrder_validation_witness :
  let body := mkWalletOrderBody "u1" [demo_line 2] (Some demo_address) "" 200 200 in
  exists w, Wallets (demo_store_with []) !! "u1" = Some w /\ (200 <= balance w)%Q.
Proof.
  intros body.
  apply (proj1 (proj2 (placeWalletOrder_validation 9 body (demo_store_with [])))).
  reflexivity.
Defined.

(** ** The status endpoint on a stored order *)

Lemma includes_validStatuses status :
  includes validStatuses status = true
  <-> status = "Processing" \/ status = "Confirmed" \/ status = "Shipped"
      \/ status = "Delivered" \/ status = "Cancelled" \/ status = "Returned".
Proof.
  unfold includes, validStatuses. cbn [existsb].
  rewrite !orb_true_iff, !streq_true. intuition congruence.
Qed.

Lemma orderStatusUpdate_rejections now id status s :
  (status = "" ->
   run (orderStatusUpdate now id status) s = (s, json 400 "Status is required"))
  /\ (status <> "" ->
      List.find (fun o' => streq (o_id o') id) (Orders s) = None ->
      run (orderStatusUpdate now id status) s = (s, json 404 "Order not found"))
  /\ (status <> "" ->
      List.find (fun o' => streq (o_id o') id) (Orders s) <> None ->
      includes validStatuses status = false ->
      run (orderStatusUpdate now id status) s = (s, json 400 "Invalid order status")).
Proof.
  split; [|split].
  - intros ->. reflexivity.
  - intros Hs Hf. apply truthy_true in Hs.
    now apply orderStatusUpdate_not_found.
  - intros Hs Hf Hinv. apply truthy_true in Hs.
    unfold orderStatusUpdate, run. rewrite Hs. pass s.
    unfold Order_findById, gets. unfold bind at 1.
    destruct (List.find _ (Orders s)) as [o|]; [|contradiction].
    rewrite Hinv. reflexivity.
Qed.

Lemma orderStatusUpdate_plain now id status s o :
  List.find (fun o' => streq (o_id o') id) (Orders s) = Some o ->
  In status ["Processing"; "Confirmed"; "Shipped"; "Delivered"] ->
  let o' :=
    with_orderStatus status
      (if streq status "Processing" || streq status "Delivered"
       then with_paymentStatus "Completed" o else o) in
  run (orderStatusUpdate now id status) s
  = (set_Orders (update_first (saved o')) s,
     mkResponse 200 "Order status updated successfully" (Some o') None).
Proof.
  intros Hf Hin. unfold orderStatusUpdate, run.
  assert (Hfind : Order_findById id s = (s, inr (Some o)))
    by (unfold Order_findById, gets; now rewrite Hf).
  destruct Hin as [<- | [<- | [<- | [<- | []]]]];
    pass s; rewrite (bind_inr _ _ _ _ _ Hfind); reflexivity.
Qed.

Lemma includes_In l x : includes l x = true <-> In x l.
Proof.
  unfold includes. rewrite existsb_exists. split.
  - intros (y & Hy & E). apply streq_true in E. now subst.
  - intros H. exists x. split; [exact H | apply streq_refl].
Qed.

(** X6: the status endpoint on a stored order.  The request is answered
    200 exactly when the status is one of the six the endpoint knows, a
    Cancelled request does not meet a Shipped or Delivered order, and a
    Returned request meets a Delivered one; otherwise it is answered 400 and
    writes nothing. *)
Theorem status_update_decision now id status s o :
  List.find (fun o' => streq (o_id o') id) (Orders s) = Some o ->
  let res := run (orderStatusUpdate now id status) s in
  (r_status (snd res) = 200%Z
   <-> In status validStatuses
       /\ (status = "Cancelled" ->
           orderStatus o <> "Shipped" /\ orderStatus o <> "Delivered")
       /\ (status = "Returned" -> orderStatus o = "Delivered"))
  /\ (r_status (snd res) <> 200%Z ->
      fst res = s /\ r_status (snd res) = 400%Z).
Proof.
  intros Hf res. subst res.
  destruct (orderStatusUpdate_rejections now id status s) as (Hempty & _ & Hinv).
  destruct (String.string_dec status "") as [Hs | Hs].
  { rewrite (Hempty Hs). split; [|intros _; split; reflexivity].
    split; [discriminate|]. intros (Hin & _). subst status.
    apply includes_In in Hin. discriminate. }
  destruct (includes validStatuses status) eqn:Hval.
  2:{ rewrite (Hinv Hs ltac:(now rewrite Hf) eq_refl).
      split; [|intros _; split; reflexivity].
      split; [discriminate|]. intros (Hin & _).
      apply includes_In in Hin. congruence. }
  pose proof (proj1 (includes_In _ _) Hval) as Hin.
  apply includes_validStatuses in Hval.
  destruct Hval as [E | [E | [E | [E | [E | E]]]]].
  1-4: rewrite (orderStatusUpdate_plain now id status s o Hf)
         by (subst status; cbn; tauto);
       split; [|intros H; now contradiction H];
       split; [|reflexivity]; intros _;
       split; [exact Hin|];
       split; intros E'; subst status; discriminate.
  - subst status. destruct (cancellable o) eqn:Hc.
    + destruct (handleCancellation_ok now o s Hc) as (s' & Hrun & _).
      rewrite (orderStatusUpdate_cancel now id s o s' _ Hf Hrun).
      split; [|intros H; now contradiction H].
      split; [|reflexivity]. intros _.
      split; [exact Hin|].
      split; [intros _; now apply cancellable_true | discriminate].
    + rewrite (orderStatusUpdate_cancel now id s o s _ Hf
                 (handleCancellation_rejected now o s Hc)).
      split; [|intros _; split; reflexivity].
      split; [discriminate|]. intros (_ & Hc' & _).
      specialize (Hc' eq_refl). apply cancellable_true in Hc'. congruence.
  - subst status. destruct (streq (orderStatus o) "Delivered") eqn:Hd.
    + destruct (handleReturns_ok now o s Hd) as (s' & Hrun & _).
      rewrite (orderStatusUpdate_return now id s o s' _ Hf Hrun).
      split; [|intros H; now contradiction H].
      split; [|reflexivity]. intros _.
      split; [exact Hin|].
      split; [discriminate | intros _; now apply streq_true].
    + rewrite (orderStatusUpdate_return now id s o s _ Hf
                 (handleReturns_rejected now o s Hd)).
      split; [|intros _; split; reflexivity].
      split; [discriminate|]. intros (_ & _ & Hd').
      specialize (Hd' eq_refl). apply streq_true in Hd'. congruence.
Qed.

Lemma status_update_decision_witness :
  r_status (snd (run (orderStatusUpdate 9 "o1" "Shipped")
                   (demo_store [demo_order "Confirmed" "Cash on Delivery" "Pending"])))
  = 200%Z.
Proof.
  apply (proj2 (proj1 (status_update_decision 9 "o1" "Shipped"
           (demo_store [demo_order "Confirmed" "Cash on Delivery" "Pending"])
           (demo_order "Confirmed" "Cash on Delivery" "Pending") eq_refl))).
  split; [cbn; tauto|]. split; discriminate.
Defined.

(** X7: a request for Processing, Confirmed, Shipped or Delivered is carried
    out whatever the order's current status: only that order is rewritten,
    with the new status, and with paymentStatus Completed when the new
    status is Processing or Delivered. *)
Theorem status_update_unguarded now id status s o :
  List.find (fun o' => streq (o_id o') id) (Orders s) = Some o ->
  In status ["Processing"; "Confirmed"; "Shipped"; "Delivered"] ->
  let o' :=
    with_orderStatus status
      (if streq status "Processing" || streq status "Delivered"
       then with_paymentStatus "Completed" o else o) in
  run (orderStatusUpdate now id status) s
  = (set_Orders (update_first (saved o')) s,
     mkResponse 200 "Order status updated successfully" (Some o') None)
  /\ List.find (fun o' => streq (o_id o') id)
       (Orders (fst (run (orderStatusUpdate now id status) s)))
     = Some o'.
Proof.
  intros Hf Hin o'.
  rewrite (orderStatusUpdate_plain now id status s o Hf Hin).
  split; [reflexivity|]. cbn [fst Orders set_Orders].
  apply (find_saved id o); [exact Hf|].
  subst o'. now destruct (streq status "Processing" || streq status "Delivered").
Qed.

Lemma status_update_unguarded_witness :
  let o := demo_order "Cancelled" "Cash on Delivery" "Pending" in
  Orders (fst (run (orderStatusUpdate 9 "o1" "Processing") (demo_store [o])))
  = [demo_order "Processing" "Cash on Delivery" "Completed"].
Proof.
  intros o.
  destruct (status_update_unguarded 9 "o1" "Processing" (demo_store [o]) o eq_refl)
    as [Hrun _]; [cbn; tauto|].
  rewrite Hrun. reflexivity.
Defined.


(** ** Returns through the status endpoint *)

Lemma status_return_found now id s o :
  List.find (fun o' => streq (o_id o') id) (Orders s) = Some o ->
  streq (orderStatus o) "Delivered" = true ->
  r_status (snd (run (orderStatusUpdate now id "Returned") s)) = 200%Z
  /\ List.find (fun o' => streq (o_id o') id)
       (Orders (fst (run (orderStatusUpdate now id "Returned") s)))
     = Some (with_orderStatus "Returned" o).
Proof.
  intros Hf Hd.
  destruct (handleReturns_ok now o s Hd) as (s' & Hrun & _ & _ & Ho & _).
  rewrite (orderStatusUpdate_return now id s o s' _ Hf Hrun).
  split; [reflexivity|]. cbn [fst Orders set_Orders].
  rewrite Ho. now apply (find_saved id o).
Qed.

(** X8: a Returned request on a Delivered order, through the status endpoint,
    answers 200, stores the order as Returned, gives every variant back the
    quantity the order holds of it, and refunds finalAmount to the owner's
    wallet whenever paymentStatus is Completed, whatever the payment
    method.  The lines of the order name different variants: two lines on
    one variant would race between their read and their save. *)
Theorem status_return_effect now id s o :
  List.find (fun o' => streq (o_id o') id) (Orders s) = Some o ->
  orderStatus o = "Delivered" ->
  NoDup (map (fun it => (oi_productId it, oi_variantId it)) (o_products o)) ->
  let res := run (orderStatusUpdate now id "Returned") s in
  r_status (snd res) = 200%Z
  /\ List.find (fun o' => streq (o_id o') id) (Orders (fst res))
     = Some (with_orderStatus "Returned" o)
  /\ (forall pid vid,
        stockOf (fst res) pid vid
        = option_map (fun q => (q + orderedQuantity pid vid (o_products o))%Z)
            (stockOf s pid vid))
  /\ (paymentStatus o = "Completed" ->
      Wallets (fst res)
      = <[o_userId o := refunded (Wallets s !! o_userId o)
                          (oid_of (next_oid s)) o now]> (Wallets s))
  /\ (paymentStatus o <> "Completed" -> Wallets (fst res) = Wallets s).
Proof.
  intros Hf Hd _ res. apply streq_true in Hd.
  destruct (handleReturns_ok now o s Hd)
    as (s' & Hrun & _ & _ & Ho & Hst & Hw & _).
  subst res. rewrite (orderStatusUpdate_return now id s o s' _ Hf Hrun).
  cbn [fst snd r_status Orders Wallets set_Orders].
  split; [reflexivity|]. split.
  { rewrite Ho. now apply (find_saved id o). }
  split; [exact Hst|]. split; intros Hp.
  - apply streq_true in Hp. now rewrite Hp in Hw.
  - apply streq_false in Hp. now rewrite Hp in Hw.
Qed.

Lemma status_return_effect_witness :
  let o := demo_order "Delivered" "Cash on Delivery" "Completed" in
  let res := run (orderStatusUpdate 9 "o1" "Returned") (demo_store [o]) in
  stockOf (fst res) "p1" "vA" = Some 7%Z
  /\ ledgerOf (fst res) "u1" = [refundTransaction "7" o 9].
Proof.
  intros o res.
  destruct (status_return_effect 9 "o1" (demo_store [o]) o eq_refl eq_refl)
    as (_ & _ & Hst & Hw & _); [apply NoDup_singleton|].
  fold res in Hst, Hw. split.
  - rewrite Hst. reflexivity.
  - unfold ledgerOf. rewrite (Hw eq_refl). reflexivity.
Defined.

(** ** The return endpoint: acceptance, and the guard on repeats *)

Lemma returnOrderStatusUpdate_rejections now id body s :
  (rb_status body = "" ->
   run (returnOrderStatusUpdate now id body) s = (s, json 400 "Status is required"))
  /\ (rb_status body <> "" ->
      List.find (fun o' => streq (o_id o') id) (Orders s) = None ->
      run (returnOrderStatusUpdate now id body) s = (s, json 404 "Order not found"))
  /\ (forall o,
        rb_status body <> "" ->
        List.find (fun o' => streq (o_id o') id) (Orders s) = Some o ->
        rb_status body <> "Returned" \/ returnReason body = ""
        \/ returnDescription body = "" \/ orderStatus o <> "Delivered" ->
        fst (run (returnOrderStatusUpdate now id body) s) = s
        /\ r_status (snd (run (returnOrderStatusUpdate now id body) s)) = 400%Z).
Proof.
  split; [|split].
  - intros E. unfold returnOrderStatusUpdate, run. rewrite E. reflexivity.
  - intros Hs Hf. apply truthy_true in Hs.
    unfold returnOrderStatusUpdate, run. rewrite Hs. pass s.
    rewrite (bind_inr _ _ s s None)
      by (unfold Order_findById, gets; now rewrite Hf).
    reflexivity.
  - intros o Hs Hf Hbad. apply truthy_true in Hs.
    unfold returnOrderStatusUpdate, run. rewrite Hs. pass s.
    rewrite (bind_inr _ _ s s (Some o))
      by (unfold Order_findById, gets; now rewrite Hf).
    destruct (streq (rb_status body) "Returned") eqn:E1; [|split; reflexivity].
    pass s.
    destruct (truthy (returnReason body)) eqn:E2; [|split; reflexivity].
    destruct (truthy (returnDescription body)) eqn:E3; [|split; reflexivity].
    pass s.
    destruct (streq (orderStatus o) "Delivered") eqn:E4; [|split; reflexivity].
    apply streq_true in E1, E4. apply truthy_true in E2, E3.
    exfalso. tauto.
Qed.

(** X9: the return endpoint on a stored order.  The request is answered
    200 exactly when the status sent is Returned, reason and description are
    both present, and the order is Delivered; otherwise it is answered 400
    and writes nothing. *)
Theorem return_request_decision now id body s o :
  List.find (fun o' => streq (o_id o') id) (Orders s) = Some o ->
  let res := run (returnOrderStatusUpdate now id body) s in
  (r_status (snd res) = 200%Z
   <-> rb_status body = "Returned" /\ returnReason body <> ""
       /\ returnDescription body <> "" /\ orderStatus o = "Delivered")
  /\ (r_status (snd res) <> 200%Z ->
      fst res = s /\ r_status (snd res) = 400%Z).
Proof.
  intros Hf res. subst res.
  destruct (returnOrderStatusUpdate_rejections now id body s)
    as (Hempty & _ & Hbad).
  destruct (String.string_dec (rb_status body) "") as [Hs | Hs].
  { rewrite (Hempty Hs). split; [|intros _; split; reflexivity].
    split; [discriminate|]. intros (E & _). rewrite E in Hs. discriminate. }
  destruct (String.string_dec (rb_status body) "Returned") as [E1 | E1].
  2:{ destruct (Hbad o Hs Hf (or_introl E1)) as [Hst H400].
      rewrite Hst, H400. split; [|intros _; split; reflexivity].
      split; [discriminate | tauto]. }
  destruct (String.string_dec (returnReason body) "") as [E2 | E2].
  { destruct (Hbad o Hs Hf (or_intror (or_introl E2))) as [Hst H400].
    rewrite Hst, H400. split; [|intros _; split; reflexivity].
    split; [discriminate | tauto]. }
  destruct (String.string_dec (returnDescription body) "") as [E3 | E3].
  { destruct (Hbad o Hs Hf (or_intror (or_intror (or_introl E3))))
      as [Hst H400].
    rewrite Hst, H400. split; [|intros _; split; reflexivity].
    split; [discriminate | tauto]. }
  destruct (String.string_dec (orderStatus o) "Delivered") as [E4 | E4].
  2:{ destruct (Hbad o Hs Hf (or_intror (or_intror (or_intror E4))))
        as [Hst H400].
      rewrite Hst, H400. split; [|intros _; split; reflexivity].
      split; [discriminate | tauto]. }
  pose proof E2 as T2. pose proof E3 as T3. apply truthy_true in T2, T3.
  rewrite (returnOrderStatusUpdate_spec now id body s E1 T2 T3), Hf.
  rewrite (proj2 (streq_true _ _) E4). cbn zeta.
  destruct (streq (paymentStatus o) "Completed");
    (split; [|intros H; now contradiction H]);
    (split; [|reflexivity]); intros _; repeat split; assumption.
Qed.

Lemma return_request_decision_witness :
  r_status (snd (run (returnOrderStatusUpdate 9 "o1" demo_return)
                   (demo_store [demo_order "Delivered" "Wallet" "Completed"])))
  = 200%Z.
Proof.
  apply (proj2 (proj1 (return_request_decision 9 "o1" demo_return
           (demo_store [demo_order "Delivered" "Wallet" "Completed"])
           (demo_order "Delivered" "Wallet" "Completed") eq_refl))).
  split; [reflexivity|]. split; [discriminate|]. split; [discriminate|].
  reflexivity.
Defined.

(** Whatever the status of a stored order, setting it to Delivered and then
    to Returned through the status endpoint is accepted twice and credits
    the order's finalAmount to its user's wallet. *)
Lemma redelivered_then_returned now2 now3 id s1 o1 :
  List.find (fun o' => streq (o_id o') id) (Orders s1) = Some o1 ->
  let s2 := fst (run (orderStatusUpdate now2 id "Delivered") s1) in
  let res := run (orderStatusUpdate now3 id "Returned") s2 in
  r_status (snd (run (orderStatusUpdate now2 id "Delivered") s1)) = 200%Z
  /\ r_status (snd res) = 200%Z
  /\ ledgerOf (fst res) (o_userId o1)
     = (ledgerOf s1 (o_userId o1)
        ++ [refundTransaction (oid_of (next_oid s1)) o1 now3])%list
  /\ (balanceOf (fst res) (o_userId o1)
      == balanceOf s1 (o_userId o1) + finalAmount o1)%Q.
Proof.
  intros Hf1 s2 res. subst res s2.
  rewrite (orderStatusUpdate_plain now2 id "Delivered" s1 o1 Hf1)
    by (cbn; tauto).
  cbn [fst snd r_status streq String.eqb Ascii.eqb Bool.eqb orb].
  set (o2 := with_orderStatus "Delivered" (with_paymentStatus "Completed" o1)).
  set (s2 := set_Orders (update_first (saved o2)) s1).
  assert (Hf2 : List.find (fun o' => streq (o_id o') id) (Orders s2) = Some o2)
    by (apply (find_saved id o1); [exact Hf1 | reflexivity]).
  destruct (handleReturns_ok now3 o2 s2 eq_refl)
    as (s' & Hrun & _ & _ & _ & _ & Hw & _).
  rewrite (orderStatusUpdate_return now3 id s2 o2 s' _ Hf2 Hrun).
  cbn [fst snd r_status].
  split; [reflexivity|]. split; [reflexivity|].
  change (streq (paymentStatus o2) "Completed") with true in Hw. cbn iota in Hw.
  unfold ledgerOf, balanceOf.
  change (Wallets (set_Orders (update_first (saved (with_orderStatus "Returned" o2))) s'))
    with (Wallets s').
  rewrite Hw. change (o_userId o2) with (o_userId o1).
  rewrite lookup_insert_eq.
  change (Wallets s2) with (Wallets s1). change (next_oid s2) with (next_oid s1).
  destruct (Wallets s1 !! o_userId o1) as [w|]; cbn.
  - split; [reflexivity | apply Qeq_refl].
  - split; [reflexivity | ring].
Qed.

(** X10: the only guard on a return is the order's current status.  Right
    after either endpoint has accepted the return of a Delivered order, a
    return request for it, through either endpoint, is answered 400 and
    writes nothing.  The guard does not last: a status update to Delivered
    is accepted on the returned order, after which a Returned request is
    accepted again and credits the order's finalAmount to the wallet a
    further time. *)
Theorem return_guard_is_current_status now now' id body body' s o :
  List.find (fun o' => streq (o_id o') id) (Orders s) = Some o ->
  orderStatus o = "Delivered" ->
  rb_status body = "Returned" ->
  returnReason body <> "" -> returnDescription body <> "" ->
  forall s1,
    s1 = fst (run (returnOrderStatusUpdate now id body) s)
    \/ s1 = fst (run (orderStatusUpdate now id "Returned") s) ->
    (fst (run (returnOrderStatusUpdate now' id body') s1) = s1
     /\ r_status (snd (run (returnOrderStatusUpdate now' id body') s1)) = 400%Z)
    /\ (fst (run (orderStatusUpdate now' id "Returned") s1) = s1
        /\ r_status (snd (run (orderStatusUpdate now' id "Returned") s1)) = 400%Z)
    /\ (forall now2 now3,
          let s2 := fst (run (orderStatusUpdate now2 id "Delivered") s1) in
          let res := run (orderStatusUpdate now3 id "Returned") s2 in
          r_status (snd (run (orderStatusUpdate now2 id "Delivered") s1)) = 200%Z
          /\ r_status (snd res) = 200%Z
          /\ ledgerOf (fst res) (o_userId o)
             = (ledgerOf s1 (o_userId o)
                ++ [refundTransaction (oid_of (next_oid s1)) o now3])%list
          /\ (balanceOf (fst res) (o_userId o)
              == balanceOf s1 (o_userId o) + finalAmount o)%Q).
Proof.
  intros Hf Hd E1 E2 E3 s1 Hs1.
  apply truthy_true in E2, E3. apply streq_true in Hd.
  assert (Hfound : exists o1,
            List.find (fun o' => streq (o_id o') id) (Orders s1) = Some o1
            /\ orderStatus o1 = "Returned"
            /\ o_userId o1 = o_userId o /\ o_id o1 = o_id o
            /\ finalAmount o1 = finalAmount o).
  { destruct Hs1 as [-> | ->].
    - rewrite (returnOrderStatusUpdate_spec now id body s E1 E2 E3), Hf, Hd.
      cbn zeta. eexists.
      destruct (streq (paymentStatus o) "Completed"); cbn [fst Orders set_Orders];
        (split; [now apply (find_saved id o) | repeat split]).
    - destruct (status_return_found now id s o Hf Hd) as [_ Hfind].
      eexists. split; [exact Hfind | repeat split]. }
  destruct Hfound as (o1 & Hf1 & Hst1 & Hu1 & Hi1 & Ha1). split; [|split].
  - destruct (returnOrderStatusUpdate_rejections now' id body' s1)
      as (Hempty & _ & Hbad).
    destruct (String.string_dec (rb_status body') "") as [Es | Es].
    + rewrite (Hempty Es). split; reflexivity.
    + apply (Hbad o1 Es Hf1). right. right. right. rewrite Hst1. discriminate.
  - assert (Hd1 : streq (orderStatus o1) "Delivered" = false)
      by (rewrite Hst1; reflexivity).
    rewrite (orderStatusUpdate_return now' id s1 o1 s1 _ Hf1
               (handleReturns_rejected now' o1 s1 Hd1)).
    split; reflexivity.
  - intros now2 now3.
    pose proof (redelivered_then_returned now2 now3 id s1 o1 Hf1) as H.
    cbn zeta in H. unfold refundTransaction in *.
    rewrite Hu1, Hi1, Ha1 in H. exact H.
Qed.

Lemma return_guard_is_current_status_witness :
  let s := demo_store [demo_order "Delivered" "Wallet" "Completed"] in
  let s1 := fst (run (returnOrderStatusUpdate 9 "o1" demo_return) s) in
  let s2 := fst (run (orderStatusUpdate 10 "o1" "Delivered") s1) in
  let s3 := fst (run (orderStatusUpdate 11 "o1" "Returned") s2) in
  fst (run (returnOrderStatusUpdate 10 "o1" demo_return) s1) = s1
  /\ map amount (ledgerOf s3 "u1") = [200%Q; 200%Q].
Proof.
  intros s s1 s2 s3.
  destruct (return_guard_is_current_status 9 10 "o1" demo_return demo_return s
              (demo_order "Delivered" "Wallet" "Completed")
              eq_refl eq_refl eq_refl ltac:(discriminate) ltac:(discriminate)
              s1 (or_introl eq_refl))
    as ((Hsame & _) & _ & Hagain).
  split; [exact Hsame|].
  destruct (Hagain 10%Z 11%Z) as (_ & _ & Hl & _).
  change (ledgerOf s3 "u1"
          = (ledgerOf s1 "u1"
             ++ [refundTransaction (oid_of (next_oid s1))
                   (demo_order "Delivered" "Wallet" "Completed") 11])%list) in Hl.
  rewrite Hl. reflexivity.
Defined.

(** ** Creation followed by lookup or cancellation *)

Lemma pretty_N_go_nonempty x s : s <> "" -> pretty_N_go x s <> "".
Proof.
  revert s. induction (N.lt_wf_0 x) as [x _ IH]. intros s Hs.
  assert (x = 0 \/ 0 < x)%N as [-> | Hpos] by lia.
  - now rewrite pretty_N_go_0.
  - rewrite pretty_N_go_step by exact Hpos. apply IH.
    + now apply N.div_lt.
    + discriminate.
Qed.

Lemma oid_of_nonempty n : oid_of n <> "".
Proof.
  unfold oid_of, pretty, pretty_nat, pretty, pretty_N.
  destruct (decide (N.of_nat n = 0%N)) as [_ | Hn]; [discriminate|].
  rewrite pretty_N_go_step by lia. apply pretty_N_go_nonempty. discriminate.
Qed.

Lemma find_new_order id o l :
  Forall (fun o' => o_id o' <> id) l -> o_id o = id ->
  List.find (fun o' => streq (o_id o') id) (l ++ [o]) = Some o.
Proof.
  intros Hl Ho. induction Hl as [|x l Hx _ IH]; cbn.
  - now rewrite Ho, streq_refl.
  - apply streq_false in Hx. now rewrite Hx.
Qed.

Lemma orderById_spec id s :
  run (orderById id) s
  = (s, if truthy id
        then match List.find (fun o' => streq (o_id o') id) (Orders s) with
             | Some o => mkResponse 200 "Order details fetched successfully."
                           (Some o) None
             | None => json 404 "Order not found."
             end
        else json 400 "Order ID is required.").
Proof.
  unfold orderById, run, Order_findById, gets, bind, when, reply, ret.
  destruct (truthy id); cbn; [|reflexivity].
  now destruct (List.find _ (Orders s)).
Qed.

(** X11: an order just created is found by its id.  When no stored order
    already carries the id about to be drawn, the order answered by an
    accepted placeOrder is the one orderById answers, with 200, for that
    id; orderById itself writes nothing. *)
Theorem created_order_is_found now body s addr :
  b_shippingAddress body = Some addr ->
  b_userId body <> "" -> b_products body <> [] -> b_paymentMethod body <> "" ->
  stockCheckPasses s (b_products body) ->
  next_id_unused s ->
  let res := run (placeOrder now body) s in
  exists o,
    r_order (snd res) = Some o
    /\ run (orderById (o_id o)) (fst res)
       = (fst res,
          mkResponse 200 "Order details fetched successfully." (Some o) None).
Proof.
  intros Haddr Hu Hp Hm Hstock Hfresh res.
  assert (Hcreated : exists o,
            r_order (snd res) = Some o
            /\ Orders (fst res) = (Orders s ++ [o])%list
            /\ o_id o = oid_of (next_oid s)).
  { destruct (String.string_dec (b_status body) "Payment Failed") as [Hst | Hst].
    - destruct (placeOrder_payment_failed_run now body s addr
                  Haddr Hu Hp Hm Hstock Hst) as (o & Hrun & Hid & _).
      exists o. subst res. rewrite Hrun. auto.
    - destruct (placeOrder_accepted now body s addr Haddr Hu Hp Hm Hstock Hst)
        as (o & _ & Hord & Hos & Hid & _).
      exists o. auto. }
  destruct Hcreated as (o & Hres & Hord & Hid).
  exists o. split; [exact Hres|].
  rewrite orderById_spec, Hord, Hid.
  rewrite (proj2 (truthy_true _) (oid_of_nonempty _)).
  now rewrite (find_new_order _ o _ Hfresh Hid).
Qed.

Lemma option_map_sub_add (x : option Z) d :
  option_map (fun q => (q + d)%Z) (option_map (fun q => (q - d)%Z) x) = x.
Proof. destruct x; cbn; [f_equal; lia | reflexivity]. Qed.

(** X12: placing an order and then cancelling it through the status endpoint
    brings every stock counter back to its value before the order.  The
    wallets are as before too, unless the order was placed with method
    RazorpayX: such an order is stored as paid, and its cancellation credits
    the owner's wallet with one refund of the stored finalAmount. *)
Theorem place_then_cancel now now' body s addr :
  b_shippingAddress body = Some addr ->
  b_userId body <> "" -> b_products body <> [] -> b_paymentMethod body <> "" ->
  stockCheckPasses s (b_products body) ->
  b_status body <> "Payment Failed" ->
  next_id_unused s ->
  let placed := run (placeOrder now body) s in
  let res := run (orderStatusUpdate now' (oid_of (next_oid s)) "Cancelled")
               (fst placed) in
  exists o,
    r_order (snd placed) = Some o
    /\ r_status (snd res) = 200%Z
    /\ (forall pid vid, stockOf (fst res) pid vid = stockOf s pid vid)
    /\ (b_paymentMethod body <> "RazorpayX" -> Wallets (fst res) = Wallets s)
    /\ (b_paymentMethod body = "RazorpayX" ->
        Wallets (fst res)
        = <[b_userId body :=
              refunded (Wallets s !! b_userId body) (oid_of (S (next_oid s)))
                o now']> (Wallets s)).
Proof.
  intros Haddr Hu Hp Hm Hstock Hst Hfresh placed res.
  destruct (placeOrder_accepted now body s addr Haddr Hu Hp Hm Hstock Hst)
    as (o & _ & Hres & Hord & Hid & Huid & _ & Hos & Hps & Hstk & _ & Hw & Hn
        & _ & Hpm & _).
  fold placed in Hres, Hord, Hstk, Hw, Hn.
  assert (Hf : List.find (fun o' => streq (o_id o') (oid_of (next_oid s)))
                 (Orders (fst placed)) = Some o)
    by (rewrite Hord; now apply find_new_order).
  assert (Hc : cancellable o = true)
    by (unfold cancellable; now rewrite Hos).
  destruct (cancel_effect now' _ _ o Hf Hc) as (H200 & _ & Hstk2 & Hw2).
  fold res in H200, Hstk2, Hw2.
  exists o. split; [exact Hres|]. split; [exact H200|]. split.
  { intros pid vid. rewrite Hstk2, Hstk. apply option_map_sub_add. }
  unfold gatewayPaid in Hw2. rewrite Hpm, Hps, Hw, Hn, Huid in Hw2.
  split; intros Hmeth.
  - apply streq_false in Hmeth. now rewrite Hmeth in Hw2.
  - rewrite Hmeth in Hw2. exact Hw2.
Qed.

(** X13: an order stored as Payment Failed took no stock, yet cancelling it
    through the status endpoint is accepted and adds the quantities it
    holds to the stock: every counter ends above its starting value by the
    ordered quantity. *)
Theorem failed_payment_then_cancel now now' body s addr :
  b_shippingAddress body = Some addr ->
  b_userId body <> "" -> b_products body <> [] -> b_paymentMethod body <> "" ->
  stockCheckPasses s (b_products body) ->
  b_status body = "Payment Failed" ->
  next_id_unused s ->
  let placed := run (placeOrder now body) s in
  let res := run (orderStatusUpdate now' (oid_of (next_oid s)) "Cancelled")
               (fst placed) in
  Products (fst placed) = Products s
  /\ r_status (snd res) = 200%Z
  /\ (forall pid vid,
        stockOf (fst res) pid vid
        = option_map
            (fun q => (q + orderedQuantity pid vid
                             (map orderItem (b_products body)))%Z)
            (stockOf s pid vid))
  /\ Wallets (fst res) = Wallets s.
Proof.
  intros Haddr Hu Hp Hm Hstock Hst Hfresh placed res.
  pose proof Hu as Tu. pose proof Hm as Tm. pose proof Hp as Tp.
  apply truthy_true in Tu, Tm. apply nonempty_length in Tp.
  pose proof (proj1 (verifyStock_passes _ _) Hstock) as Hv.
  assert (Hrun : exists o,
            placed = (mkStore (Products s) (Wallets s) (Carts s) (Coupons s)
                        (Orders s ++ [o])%list (S (next_oid s)),
                      mkResponse 201 "Order created with payment failure"
                        (Some o) None)
            /\ o_id o = oid_of (next_oid s)
            /\ orderStatus o = "Payment Failed"
            /\ paymentStatus o = "Failed"
            /\ o_products o = map orderItem (b_products body)).
  { subst placed. unfold placeOrder, run.
    rewrite Haddr, Tu, Tp, Tm, Hst. cbn [negb orb].
    pass s.
    rewrite (bind_inr _ _ _ _ _ (placeOrder_coupon_spec _ _ _ _)).
    rewrite (bind_inr _ _ _ _ _ Hv).
    rewrite (bind_inr _ _ _ _ (oid_of (next_oid s)) eq_refl).
    eexists. split; [reflexivity|]. repeat split. }
  destruct Hrun as (o & Hplaced & Hid & Hos & Hps & Hprod).
  assert (Hf : List.find (fun o' => streq (o_id o') (oid_of (next_oid s)))
                 (Orders (fst placed)) = Some o)
    by (rewrite Hplaced; cbn [fst Orders]; now apply find_new_order).
  assert (Hc : cancellable o = true)
    by (unfold cancellable; now rewrite Hos).
  destruct (cancel_effect now' _ _ o Hf Hc) as (H200 & _ & Hstk2 & Hw2).
  fold res in H200, Hstk2, Hw2.
  split; [now rewrite Hplaced|]. split; [exact H200|]. split.
  - intros pid vid. rewrite Hstk2, Hprod. now rewrite Hplaced.
  - unfold gatewayPaid in Hw2. rewrite Hps in Hw2.
    rewrite andb_false_r in Hw2. now rewrite Hplaced in Hw2.
Qed.

(** X14: a wallet checkout followed by a cancellation through the status
    endpoint gives the stock back but not the money: the wallets stay as
    the checkout left them, debited. *)
Theorem wallet_order_then_cancel now now' body s addr w :
  wb_shippingAddress body = Some addr ->
  wb_userId body <> "" -> wb_products body <> [] ->
  Wallets s !! wb_userId body = Some w ->
  (wb_finalAmount body <= balance w)%Q ->
  stockCheckPasses s (wb_products body) ->
  Forall (fun o => o_id o <> oid_of (S (next_oid s))) (Orders s) ->
  let placed := run (placeWalletOrder now body) s in
  let res := run (orderStatusUpdate now' (oid_of (S (next_oid s))) "Cancelled")
               (fst placed) in
  r_status (snd res) = 200%Z
  /\ (forall pid vid, stockOf (fst res) pid vid = stockOf s pid vid)
  /\ Wallets (fst res) = Wallets (fst placed)
  /\ Wallets (fst res) !! wb_userId body
     = Some (mkWallet (balance w - wb_finalAmount body)%Q
               (transactions w
                ++ [walletPayment (oid_of (next_oid s)) (wb_finalAmount body)])%list).
Proof.
  intros Haddr Hu Hp Hw Hbal Hstock Hfresh placed res.
  destruct (placeWalletOrder_accepted now body s addr w Haddr Hu Hp Hw Hbal Hstock)
    as (o & _ & _ & Hord & Hid & _ & Hpm & Hos & _ & Hws & _ & Hstk & _).
  fold placed in Hord, Hws, Hstk.
  assert (Hf : List.find (fun o' => streq (o_id o') (oid_of (S (next_oid s))))
                 (Orders (fst placed)) = Some o)
    by (rewrite Hord; now apply find_new_order).
  assert (Hc : cancellable o = true)
    by (unfold cancellable; now rewrite Hos).
  destruct (cancel_effect now' _ _ o Hf Hc) as (H200 & _ & Hstk2 & Hw2).
  fold res in H200, Hstk2, Hw2.
  unfold gatewayPaid in Hw2. rewrite Hpm in Hw2. cbn in Hw2.
  split; [exact H200|]. split.
  - intros pid vid. rewrite Hstk2, Hstk. apply option_map_sub_add.
  - split; [exact Hw2|]. rewrite Hw2, Hws. apply lookup_insert_eq.
Qed.

(** ** Gateway confirmation *)

Lemma confirm_payment_None body o :
  option_map rz_orderId (razorpay o) <> Some (razorpay_order_id body) ->
  confirm_payment body o = None.
Proof.
  unfold confirm_payment. destruct (razorpay o) as [rz|]; [|reflexivity].
  cbn. intros H. destruct (streq (rz_orderId rz) (razorpay_order_id body)) eqn:E;
    [|reflexivity].
  apply streq_true in E. congruence.
Qed.

Lemma update_first_none {A} (f : A -> option A) l :
  Forall (fun x => f x = None) l -> update_first f l = l.
Proof.
  induction 1 as [|x l Hx _ IH]; cbn; [reflexivity|]. now rewrite Hx, IH.
Qed.

Lemma update_first_at {A} (f : A -> option A) l1 x y l2 :
  Forall (fun x => f x = None) l1 -> f x = Some y ->
  update_first f (l1 ++ x :: l2) = (l1 ++ y :: l2)%list.
Proof.
  intros H1 Hx. induction H1 as [|z l Hz _ IH]; cbn.
  - now rewrite Hx.
  - now rewrite Hz, IH.
Qed.

Lemma set_Orders_same f s : f (Orders s) = Orders s -> set_Orders f s = s.
Proof. intros H. unfold set_Orders. rewrite H. now destruct s. Qed.

(** X15: a request with the expected signature is answered 200 and writes
    nothing but one order: the first stored order carrying the gateway order
    id gets the payment id, the signature and paymentStatus Completed,
    whatever its status; later orders with the same gateway id stay as they
    are, and when no order carries the id the store is left unchanged, still
    with 200. *)
Theorem verified_payment_effect
    (hmac : string -> string -> string) (secret : string) body s :
  razorpay_signature body
  = hmac secret (razorpay_order_id body ++ "|" ++ razorpay_payment_id body) ->
  let res := run (verifyRazorpayPayment hmac secret body) s in
  let unrelated o :=
    option_map rz_orderId (razorpay o) <> Some (razorpay_order_id body) in
  res = (set_Orders (update_first (confirm_payment body)) s,
         json 200 "Payment verified successfully")
  /\ (Forall unrelated (Orders s) -> fst res = s)
  /\ (forall before o rz after,
        Orders s = (before ++ o :: after)%list ->
        Forall unrelated before ->
        razorpay o = Some rz -> rz_orderId rz = razorpay_order_id body ->
        Orders (fst res)
        = (before
           ++ with_paymentStatus "Completed"
                (with_razorpay
                   (Some (mkRazorpay (razorpay_order_id body)
                            (Some (razorpay_payment_id body))
                            (Some (razorpay_signature body)))) o)
           :: after)%list).
Proof.
  intros Hsig res unrelated.
  assert (Hrun : res = (set_Orders (update_first (confirm_payment body)) s,
                        json 200 "Payment verified successfully")).
  { subst res. unfold verifyRazorpayPayment, run, isAuthentic, expectedSignature.
    rewrite <- Hsig, streq_refl. reflexivity. }
  split; [exact Hrun|]. rewrite Hrun. cbn [fst]. split.
  - intros Hun. apply set_Orders_same. apply update_first_none.
    eapply Forall_impl; [exact Hun|]. intros o Ho. now apply confirm_payment_None.
  - intros before o rz after Hord Hun Hrz Hid. cbn [Orders set_Orders].
    rewrite Hord. apply update_first_at.
    + eapply Forall_impl; [exact Hun|]. intros o' Ho'. now apply confirm_payment_None.
    + unfold confirm_payment. rewrite Hrz, Hid, streq_refl. reflexivity.
Qed.

Lemma verified_payment_effect_witness :
  let body := mkVerifyBody "order_1" "pay_1" "secret:order_1|pay_1" in
  let s := demo_store [demo_order "Processing" "Cash on Delivery" "Pending";
                       demo_gateway_order "o2" "Payment Failed";
                       demo_gateway_order "o3" "Processing"] in
  map paymentStatus (Orders (fst (run (verifyRazorpayPayment toy_hmac "secret" body) s)))
  = ["Pending"; "Completed"; "Pending"].
Proof.
  intros body s.
  destruct (verified_payment_effect toy_hmac "secret" body s eq_refl)
    as (_ & _ & Hfirst).
  rewrite (Hfirst [demo_order "Processing" "Cash on Delivery" "Pending"]
             (demo_gateway_order "o2" "Payment Failed")
             (mkRazorpay "order_1" None None)
             [demo_gateway_order "o3" "Processing"] eq_refl).
  - reflexivity.
  - constructor; [discriminate | constructor].
  - reflexivity.
  - reflexivity.
Defined.

(** ** The refund endpoint *)

Lemma find_order_id id l o :
  List.find (fun o' => streq (o_id o') id) l = Some o -> o_id o = id.
Proof. intros H. apply List.find_some in H as [_ H]. now apply streq_true. Qed.

(** The wallet the refund endpoint starts from. *)
Lemma refundOrders_spec d now id s :
  run (refundOrders d now id) s
  = match List.find (fun o' => streq (o_id o') id) (Orders s) with
    | None => (s, json 404 "Order not found")
    | Some o =>
        if negb (streq (paymentMethod o) "RazorpayX")
           || negb (streq (paymentStatus o) "Completed")
        then (s, json 400
                   "Order is not eligible for refund. Only completed online payments can be refunded.")
        else if negb (streq (orderStatus o) "Cancelled")
        then (s, json 400 "Only cancelled orders can be refunded")
        else
          let w0 := match Wallets s !! o_userId o with
                    | Some w => w
                    | None => mkWallet d []
                    end in
          let w := mkWallet (balance w0 + finalAmount o)%Q
                     (transactions w0
                      ++ [refundTransaction (oid_of (next_oid s)) o now])%list in
          (mkStore (Products s) (<[o_userId o := w]> (Wallets s)) (Carts s)
             (Coupons s) (Orders s) (S (next_oid s)),
           mkResponse 200 "Refund processed successfully!" None
             (Some (walletInfo w)))
    end.
Proof.
  unfold refundOrders, run, Order_findById, gets. unfold bind at 1.
  destruct (List.find _ (Orders s)) as [o|] eqn:Hf; [|reflexivity].
  apply find_order_id in Hf.
  destruct (negb (streq (paymentMethod o) "RazorpayX")
            || negb (streq (paymentStatus o) "Completed")); [reflexivity|].
  pass s.
  destruct (negb (streq (orderStatus o) "Cancelled")); [reflexivity|].
  pass s.
  rewrite (bind_inr _ _ s s (Wallets s !! o_userId o)) by reflexivity.
  unfold refundTransaction. rewrite Hf. reflexivity.
Qed.

(** X16: the refund endpoint on a stored order.  The request is answered
    200 exactly when the order was paid through the gateway (RazorpayX,
    Completed) and is Cancelled; otherwise it is answered 400 and writes
    nothing. *)
Theorem refund_request_decision d now id s o :
  List.find (fun o' => streq (o_id o') id) (Orders s) = Some o ->
  let res := run (refundOrders d now id) s in
  (r_status (snd res) = 200%Z
   <-> paymentMethod o = "RazorpayX" /\ paymentStatus o = "Completed"
       /\ orderStatus o = "Cancelled")
  /\ (r_status (snd res) <> 200%Z ->
      fst res = s /\ r_status (snd res) = 400%Z).
Proof.
  intros Hf res. subst res. rewrite refundOrders_spec, Hf.
  destruct (streq (paymentMethod o) "RazorpayX") eqn:E1; cbn [negb orb].
  2:{ apply streq_false in E1.
      split; [|intros _; split; reflexivity].
      split; [discriminate|]. intros (H & _). contradiction. }
  destruct (streq (paymentStatus o) "Completed") eqn:E2; cbn [negb orb].
  2:{ apply streq_false in E2.
      split; [|intros _; split; reflexivity].
      split; [discriminate|]. intros (_ & H & _). contradiction. }
  destruct (streq (orderStatus o) "Cancelled") eqn:E3; cbn [negb orb].
  2:{ apply streq_false in E3.
      split; [|intros _; split; reflexivity].
      split; [discriminate|]. intros (_ & _ & H). contradiction. }
  apply streq_true in E1, E2, E3. cbn zeta.
  split; [|intros H; now contradiction H].
  split; [|reflexivity]. intros _. auto.
Qed.

Lemma refund_request_decision_witness :
  r_status (snd (run (refundOrders 0 9 "o1")
                   (demo_store [demo_order "Cancelled" "RazorpayX" "Completed"])))
  = 200%Z.
Proof.
  apply (proj2 (proj1 (refund_request_decision 0 9 "o1"
           (demo_store [demo_order "Cancelled" "RazorpayX" "Completed"])
           (demo_order "Cancelled" "RazorpayX" "Completed") eq_refl))).
  repeat split.
Defined.

Lemma refundOrders_accepted d now id s o :
  List.find (fun o' => streq (o_id o') id) (Orders s) = Some o ->
  paymentMethod o = "RazorpayX" -> paymentStatus o = "Completed" ->
  orderStatus o = "Cancelled" ->
  let w0 := match Wallets s !! o_userId o with
            | Some w => w
            | None => mkWallet d []
            end in
  let w := mkWallet (balance w0 + finalAmount o)%Q
             (transactions w0
              ++ [refundTransaction (oid_of (next_oid s)) o now])%list in
  run (refundOrders d now id) s
  = (mkStore (Products s) (<[o_userId o := w]> (Wallets s)) (Carts s)
       (Coupons s) (Orders s) (S (next_oid s)),
     mkResponse 200 "Refund processed successfully!" None (Some (walletInfo w))).
Proof.
  intros Hf E1 E2 E3. rewrite refundOrders_spec, Hf, E1, E2, E3. reflexivity.
Qed.

(** X17: the refund endpoint leaves the order as it found it, so it can be
    called again: two calls in sequence for an eligible order are both
    answered 200, and the owner's ledger ends with two refunds of
    finalAmount, the balance having grown by twice that amount from the
    balance of the wallet (or from the schema default when there was no
    wallet). *)
Theorem refund_endpoint_repeats d now now' id s o :
  List.find (fun o' => streq (o_id o') id) (Orders s) = Some o ->
  paymentMethod o = "RazorpayX" -> paymentStatus o = "Completed" ->
  orderStatus o = "Cancelled" ->
  let first := run (refundOrders d now id) s in
  let second := run (refundOrders d now' id) (fst first) in
  r_status (snd first) = 200%Z
  /\ Orders (fst first) = Orders s
  /\ r_status (snd second) = 200%Z
  /\ ledgerOf (fst second) (o_userId o)
     = (ledgerOf s (o_userId o)
        ++ [refundTransaction (oid_of (next_oid s)) o now;
            refundTransaction (oid_of (S (next_oid s))) o now'])%list
  /\ (balanceOf (fst second) (o_userId o)
      == match Wallets s !! o_userId o with
         | Some w => balance w
         | None => d
         end + finalAmount o + finalAmount o)%Q.
Proof.
  intros Hf E1 E2 E3 first second.
  subst second first.
  rewrite (refundOrders_accepted d now id s o Hf E1 E2 E3).
  cbn [fst snd r_status Orders].
  split; [reflexivity|]. split; [reflexivity|].
  match goal with
  | |- context [run (refundOrders d now' id) ?s1] =>
      rewrite (refundOrders_accepted d now' id s1 o Hf E1 E2 E3)
  end.
  cbn [fst snd r_status Wallets next_oid].
  split; [reflexivity|].
  unfold ledgerOf, balanceOf. cbn [Wallets].
  rewrite !lookup_insert_eq. cbn [transactions balance].
  destruct (Wallets s !! o_userId o) as [w|]; cbn [transactions balance].
  - split; [now rewrite <- app_assoc | reflexivity].
  - split; reflexivity.
Qed.

Lemma refund_endpoint_repeats_witness :
  let o := demo_order "Cancelled" "RazorpayX" "Completed" in
  let s1 := fst (run (refundOrders 0 9 "o1") (demo_store [o])) in
  map amount (ledgerOf (fst (run (refundOrders 0 10 "o1") s1)) "u1")
  = [200%Q; 200%Q].
Proof.
  intros o s1.
  destruct (refund_endpoint_repeats 0 9 10 "o1" (demo_store [o]) o
              eq_refl eq_refl eq_refl eq_refl) as (_ & _ & _ & Hl & _).
  fold s1 in Hl. unfold o_userId, o, demo_order in Hl. rewrite Hl. reflexivity.
Defined.

(** X18: cancelling a gateway-paid order through the status endpoint refunds
    it and leaves it eligible for the refund endpoint, which refunds it
    again: after the two requests the owner's ledger has grown by two
    refunds of finalAmount. *)
Theorem cancel_then_refund d now now' id s o :
  List.find (fun o' => streq (o_id o') id) (Orders s) = Some o ->
  paymentMethod o = "RazorpayX" -> paymentStatus o = "Completed" ->
  orderStatus o <> "Shipped" -> orderStatus o <> "Delivered" ->
  let cancelled := run (orderStatusUpdate now id "Cancelled") s in
  let res := run (refundOrders d now' id) (fst cancelled) in
  r_status (snd cancelled) = 200%Z
  /\ r_status (snd res) = 200%Z
  /\ ledgerOf (fst res) (o_userId o)
     = (ledgerOf s (o_userId o)
        ++ [refundTransaction (oid_of (next_oid s)) o now;
            refundTransaction (oid_of (S (next_oid s)))
              (with_orderStatus "Cancelled" o) now'])%list
  /\ (balanceOf (fst res) (o_userId o)
      == balanceOf s (o_userId o) + finalAmount o + finalAmount o)%Q.
Proof.
  intros Hf E1 E2 Hs Hd cancelled res.
  assert (Hc : cancellable o = true) by (now apply cancellable_true).
  destruct (handleCancellation_ok now o s Hc)
    as (s' & Hrun & _ & _ & Ho & _ & Hw & Hn).
  assert (Hg : gatewayPaid o = true) by (now apply gatewayPaid_true).
  rewrite Hg in Hw, Hn.
  subst res cancelled.
  rewrite (orderStatusUpdate_cancel now id s o s' _ Hf Hrun).
  cbn [fst snd r_status]. split; [reflexivity|].
  match goal with
  | |- context [run (refundOrders d now' id) ?s1] =>
      rewrite (refundOrders_accepted d now' id s1 (with_orderStatus "Cancelled" o))
  end; try reflexivity; try assumption.
  2:{ cbn [Orders set_Orders]. rewrite Ho. now apply (find_saved id o). }
  cbn [fst snd r_status Wallets set_Orders next_oid o_userId with_orderStatus
       finalAmount].
  split; [reflexivity|].
  unfold ledgerOf, balanceOf. cbn [Wallets].
  rewrite lookup_insert_eq, Hw, Hn, lookup_insert_eq.
  cbn [transactions balance].
  destruct (Wallets s !! o_userId o) as [w|]; cbn [refunded transactions balance].
  - split; [now rewrite <- app_assoc | reflexivity].
  - split; [reflexivity | ring].
Qed.

Lemma cancel_then_refund_witness :
  let o := demo_order "Processing" "RazorpayX" "Completed" in
  let s1 := fst (run (orderStatusUpdate 9 "o1" "Cancelled") (demo_store [o])) in
  map amount (ledgerOf (fst (run (refundOrders 0 10 "o1") s1)) "u1")
  = [200%Q; 200%Q].
Proof.
  intros o s1.
  destruct (cancel_then_refund 0 9 10 "o1" (demo_store [o]) o
              eq_refl eq_refl eq_refl) as (_ & _ & Hl & _); try discriminate.
  fold s1 in Hl. unfold o_userId, o, demo_order in Hl. rewrite Hl. reflexivity.
Defined.

(** ** One request at a time: what any call may write *)

(** Projections of a store that was just written. *)
Ltac store_simpl :=
  unfold step; cbn; unfold set_Products, set_Wallets, set_Carts, set_Orders;
  cbn [fst snd Products Wallets Carts Coupons Orders next_oid].

Lemma step_refl d s : step d s s.
Proof. repeat split; [lia | now left | now left]. Qed.

Lemma posts_refunded ws uid tid o now :
  posts ws (<[uid := refunded (ws !! uid) tid o now]> ws) uid
    (refundTransaction tid o now).
Proof.
  eexists. split; [reflexivity|].
  destruct (ws !! uid) as [w|]; cbn; split; try reflexivity. ring.
Qed.

Lemma saved_rewrites id o o' l :
  List.find (fun x => streq (o_id x) id) l = Some o ->
  o_id o' = id ->
  exists before after,
    l = (before ++ o :: after)%list
    /\ update_first (saved o') l = (before ++ o' :: after)%list.
Proof.
  intros Hf Hid. induction l as [|z l IH]; cbn in Hf; [discriminate|].
  cbn. unfold saved at 1. rewrite Hid.
  destruct (streq (o_id z) id).
  - injection Hf as <-. exists [], l. split; reflexivity.
  - destruct (IH Hf) as (before & after & -> & Hu).
    exists (z :: before), after. cbn. now rewrite Hu.
Qed.

Lemma saved_orders_step id o o' l :
  List.find (fun x => streq (o_id x) id) l = Some o ->
  o_id o' = id -> frozen o' = frozen o ->
  orders_step l (update_first (saved o') l).
Proof.
  intros Hf Hid Hfr.
  destruct (saved_rewrites id o o' l Hf Hid) as (before & after & Hl & Hu).
  right. right. exists before, o, o', after. auto.
Qed.

Lemma confirm_payment_frozen body x y :
  confirm_payment body x = Some y -> frozen y = frozen x.
Proof.
  unfold confirm_payment. destruct (razorpay x) as [rz|]; [|discriminate].
  destruct (streq (rz_orderId rz) (razorpay_order_id body)); [|discriminate].
  now intros [= <-].
Qed.

Lemma update_first_orders_step f l :
  (forall x y, f x = Some y -> frozen y = frozen x) ->
  orders_step l (update_first f l).
Proof.
  intros Hf. induction l as [|z l IH]; cbn; [now left|].
  destruct (f z) as [y|] eqn:E.
  - right. right. exists [], z, y, l. repeat split. now apply Hf.
  - destruct IH as [-> | [(o & Ho) | (before & x & y & after & Hl & Hl' & Hfr)]].
    + now left.
    + (* update_first never lengthens a list *)
      exfalso.
      assert (Hlen : forall l0, length (update_first f l0) = length l0).
      { induction l0 as [|a l0 IH0]; cbn; [reflexivity|].
        destruct (f a); cbn; congruence. }
      apply (f_equal (@length Order)) in Ho.
      rewrite Hlen, length_app in Ho. cbn [length] in Ho. lia.
    + right. right. exists (z :: before), x, y, after. cbn.
      rewrite Hl' at 1. rewrite Hl at 1. auto.
Qed.

Lemma verify_step hmac secret d body s :
  step d s (fst (run (verifyRazorpayPayment hmac secret body) s)).
Proof.
  unfold verifyRazorpayPayment, run.
  destruct (isAuthentic hmac secret body); cbn [negb when]; [|apply step_refl].
  split; [reflexivity|]. split; [reflexivity|]. split; [|now left].
  apply update_first_orders_step. apply confirm_payment_frozen.
Qed.

Lemma orderById_step d id s : step d s (fst (run (orderById id) s)).
Proof. rewrite orderById_spec. apply step_refl. Qed.

Lemma placeOrder_step d now body s :
  step d s (fst (run (placeOrder now body) s)).
Proof.
  unfold placeOrder, run.
  destruct (b_shippingAddress body) as [addr|]; [|apply step_refl].
  destruct (negb (truthy (b_userId body))
            || Nat.eqb (length (b_products body)) 0
            || negb (truthy (b_paymentMethod body))); [apply step_refl|].
  pass s.
  rewrite (bind_inr _ _ _ _ _ (placeOrder_coupon_spec _ _ _ _)).
  destruct (verifyStock_spec (b_products body) s) as [Hv | (r & Hv & Hr)].
  2:{ rewrite (bind_inl _ _ _ _ _ Hv). apply step_refl. }
  rewrite (bind_inr _ _ _ _ _ Hv).
  rewrite (bind_inr _ _ _ _ (oid_of (next_oid s)) eq_refl).
  rewrite (bind_inr _ _ _ _ tt eq_refl).
  destruct (streq (b_status body) "Payment Failed").
  - store_simpl. split; [reflexivity|]. split; [lia|]. split; [|now left].
    right. left. eexists. reflexivity.
  - cbn [orderStatus negb streq String.eqb Ascii.eqb Bool.eqb when].
    match goal with
    | |- context [bind _ _ ?s1] => set (s0 := s1)
    end.
    destruct (reserveStock_spec (b_products body) s0)
      as (s' & Hres & (Hw & _ & Hk & Ho & Hn)).
    rewrite (bind_inr _ _ s0 (set_Carts (alter (fun _ => []) (b_userId body)) s') tt)
      by (now rewrite (bind_inr _ _ _ _ _ Hres)).
    store_simpl. rewrite Hk, Hn, Ho, Hw. store_simpl.
    split; [reflexivity|]. split; [lia|]. split; [|now left].
    right. left. eexists. reflexivity.
Qed.

Lemma posts_walletPayment ws uid w tid f :
  ws !! uid = Some w ->
  posts ws
    (<[uid := mkWallet (balance w - f)%Q
                (transactions w ++ [walletPayment tid f])%list]> ws)
    uid (walletPayment tid f).
Proof.
  intros Hw. eexists. split; [reflexivity|]. rewrite Hw. cbn.
  split; reflexivity.
Qed.

Lemma placeWalletOrder_step d now body s :
  step d s (fst (run (placeWalletOrder now body) s)).
Proof.
  unfold placeWalletOrder, run.
  destruct (wb_shippingAddress body) as [addr|]; [|apply step_refl].
  destruct (negb (truthy (wb_userId body))
            || Nat.eqb (length (wb_products body)) 0); [apply step_refl|].
  pass s.
  rewrite (bind_inr _ _ s s (Wallets s !! wb_userId body)) by reflexivity.
  destruct (Wallets s !! wb_userId body) as [w|] eqn:Hw; [|apply step_refl].
  destruct (Qltb (balance w) (wb_finalAmount body)); [apply step_refl|].
  pass s.
  rewrite (bind_inr _ _ _ _ _ (placeWalletOrder_coupon_spec _ _ _ _)).
  destruct (verifyStock_spec (wb_products body) s) as [Hv | (r & Hv & Hr)].
  2:{ rewrite (bind_inl _ _ _ _ _ Hv). apply step_refl. }
  rewrite (bind_inr _ _ _ _ _ Hv).
  rewrite (bind_inr _ _ _ _ (oid_of (next_oid s)) eq_refl).
  rewrite (bind_inr _ _ _ _ tt eq_refl).
  match goal with
  | |- context [bind freshObjectId _ ?s1] => set (s0 := s1)
  end.
  rewrite (bind_inr _ _ s0 _ (oid_of (next_oid s0)) eq_refl).
  rewrite (bind_inr _ _ _ _ tt eq_refl).
  match goal with
  | |- context [bind (reserveStock _) _ ?s2] =>
      destruct (reserveStock_spec (wb_products body) s2)
        as (s' & Hres & (Hws & _ & Hk & Ho & Hn))
  end.
  rewrite (bind_inr _ _ _ _ _ Hres).
  rewrite (bind_inr _ _ _ _ tt eq_refl).
  store_simpl. rewrite Hk, Hn, Ho, Hws. store_simpl.
  split; [reflexivity|]. split; [lia|]. split.
  - right. left. eexists. reflexivity.
  - right. left. eexists _, _. now apply posts_walletPayment.
Qed.

Lemma returnOrderStatusUpdate_step d now id body s :
  step d s (fst (run (returnOrderStatusUpdate now id body) s)).
Proof.
  unfold returnOrderStatusUpdate, run.
  destruct (truthy (rb_status body)); cbn [negb when]; [|apply step_refl].
  pass s.
  unfold Order_findById, gets. unfold bind at 1.
  destruct (List.find (fun o => streq (o_id o) id) (Orders s)) as [o|] eqn:Hf;
    [|apply step_refl].
  destruct (streq (rb_status body) "Returned"); cbn [negb when];
    [|apply step_refl].
  pass s.
  destruct (negb (truthy (returnReason body))
            || negb (truthy (returnDescription body))); [apply step_refl|].
  pass s.
  destruct (streq (orderStatus o) "Delivered"); cbn [negb when];
    [|apply step_refl].
  pass s.
  cbn [paymentStatus with_returnDetails].
  pose proof (find_order_id _ _ _ Hf) as Hid.
  destruct (streq (paymentStatus o) "Completed").
  - rewrite (bind_inr _ _ _ _ _ (processRefund_spec now _ s)).
    store_simpl. split; [reflexivity|]. split; [lia|]. split.
    + apply (saved_orders_step id o); [exact Hf | exact Hid | reflexivity].
    + right. left. eexists _, _.
      rewrite refunded_returnDetails. apply posts_refunded.
  - store_simpl. split; [reflexivity|]. split; [lia|]. split; [|now left].
    apply (saved_orders_step id o); [exact Hf | exact Hid | reflexivity].
Qed.

Lemma refundOrders_step d now id s :
  step d s (fst (run (refundOrders d now id) s)).
Proof.
  rewrite refundOrders_spec.
  destruct (List.find _ (Orders s)) as [o|]; [|apply step_refl].
  destruct (negb (streq (paymentMethod o) "RazorpayX")
            || negb (streq (paymentStatus o) "Completed")); [apply step_refl|].
  destruct (negb (streq (orderStatus o) "Cancelled")); [apply step_refl|].
  store_simpl. split; [reflexivity|]. split; [lia|]. split; [now left|].
  destruct (Wallets s !! o_userId o) as [w|] eqn:Hw.
  - right. left. exists (o_userId o), (refundTransaction (oid_of (next_oid s)) o now).
    eexists. split; [reflexivity|]. rewrite Hw. cbn. split; reflexivity.
  - right. right.
    exists (o_userId o), (refundTransaction (oid_of (next_oid s)) o now).
    split; [exact Hw | reflexivity].
Qed.

Lemma orderStatusUpdate_step d now id status s :
  step d s (fst (run (orderStatusUpdate now id status) s)).
Proof.
  destruct (orderStatusUpdate_rejections now id status s) as (Hempty & Hnone & Hinv).
  destruct (String.string_dec status "") as [Hs | Hs].
  { rewrite (Hempty Hs). apply step_refl. }
  destruct (List.find (fun o' => streq (o_id o') id) (Orders s)) as [o|] eqn:Hf.
  2:{ rewrite (Hnone Hs eq_refl). apply step_refl. }
  destruct (includes validStatuses status) eqn:Hval.
  2:{ rewrite (Hinv Hs ltac:(discriminate) eq_refl). apply step_refl. }
  pose proof (find_order_id _ _ _ Hf) as Hid.
  apply includes_validStatuses in Hval.
  destruct Hval as [E | [E | [E | [E | [E | E]]]]].
  1-4: rewrite (orderStatusUpdate_plain now id status s o Hf)
         by (subst status; cbn; tauto);
       store_simpl; split; [reflexivity|]; split; [lia|];
       split; [|now left];
       apply (saved_orders_step id o);
         [exact Hf | subst status; exact Hid | subst status; reflexivity].
  - subst status. destruct (cancellable o) eqn:Hc.
    + destruct (handleCancellation_ok now o s Hc)
        as (s' & Hrun & _ & Hk & Ho & _ & Hw & Hn).
      rewrite (orderStatusUpdate_cancel now id s o s' _ Hf Hrun).
      unfold step. cbn [fst Coupons Orders Wallets next_oid set_Orders].
      rewrite Hk, Ho, Hw, Hn.
      split; [reflexivity|].
      split; [destruct (gatewayPaid o); lia|].
      split; [apply (saved_orders_step id o); [exact Hf | exact Hid | reflexivity]|].
      destruct (gatewayPaid o); [|now left].
      right. left. eexists _, _. apply posts_refunded.
    + rewrite (orderStatusUpdate_cancel now id s o s _ Hf
                 (handleCancellation_rejected now o s Hc)).
      apply step_refl.
  - subst status. destruct (streq (orderStatus o) "Delivered") eqn:Hd.
    + destruct (handleReturns_ok now o s Hd)
        as (s' & Hrun & _ & Hk & Ho & _ & Hw & Hn).
      rewrite (orderStatusUpdate_return now id s o s' _ Hf Hrun).
      unfold step. cbn [fst Coupons Orders Wallets next_oid set_Orders].
      rewrite Hk, Ho, Hw, Hn.
      split; [reflexivity|].
      split; [destruct (streq (paymentStatus o) "Completed"); lia|].
      split; [apply (saved_orders_step id o); [exact Hf | exact Hid | reflexivity]|].
      destruct (streq (paymentStatus o) "Completed"); [|now left].
      right. left. eexists _, _. apply posts_refunded.
    + rewrite (orderStatusUpdate_return now id s o s _ Hf
                 (handleReturns_rejected now o s Hd)).
      apply step_refl.
Qed.

Lemma serve_step hmac secret d c s :
  step d s (fst (run (serve hmac secret d c) s)).
Proof.
  destruct c; cbn [serve].
  - apply verify_step.
  - apply placeOrder_step.
  - apply placeWalletOrder_step.
  - apply orderById_step.
  - apply returnOrderStatusUpdate_step.
  - apply orderStatusUpdate_step.
  - apply refundOrders_step.
Qed.

(** ** Sessions: what no sequence of requests can do *)

Lemma ledgerTotal_snoc ts t :
  (ledgerTotal (ts ++ [t]) == ledgerTotal ts + signedAmount t)%Q.
Proof.
  induction ts as [|x ts IH]; cbn [app ledgerTotal].
  - ring.
  - rewrite IH. ring.
Qed.

Lemma posts_consistent ws ws' uid t :
  ledger_consistent ws -> posts ws ws' uid t -> ledger_consistent ws'.
Proof.
  intros Hc (w' & -> & Hts & Hbal) uid' w Hw.
  destruct (decide (uid = uid')) as [<- | Hne].
  - rewrite lookup_insert_eq in Hw. injection Hw as <-.
    rewrite Hbal, Hts, ledgerTotal_snoc.
    destruct (ws !! uid) as [w0|] eqn:E.
    + now rewrite (Hc uid w0 E).
    + reflexivity.
  - rewrite lookup_insert_ne in Hw by exact Hne. now apply (Hc uid').
Qed.

Lemma wallet_step_consistent d ws ws' :
  (d == 0)%Q -> ledger_consistent ws -> wallet_step d ws ws' ->
  ledger_consistent ws'.
Proof.
  intros Hd Hc [-> | [(uid & t & Hp) | (uid & t & Hnone & ->)]].
  - exact Hc.
  - now apply (posts_consistent ws ws' uid t).
  - intros uid' w Hw. destruct (decide (uid = uid')) as [<- | Hne].
    + rewrite lookup_insert_eq in Hw. injection Hw as <-.
      cbn [balance transactions ledgerTotal]. rewrite Hd. ring.
    + rewrite lookup_insert_ne in Hw by exact Hne. now apply (Hc uid').
Qed.

Lemma ledgers_extended_refl ws : ledgers_extended ws ws.
Proof. intros uid w Hw. exists w, []. now rewrite app_nil_r. Qed.

Lemma ledgers_extended_trans ws1 ws2 ws3 :
  ledgers_extended ws1 ws2 -> ledgers_extended ws2 ws3 ->
  ledgers_extended ws1 ws3.
Proof.
  intros H12 H23 uid w Hw.
  destruct (H12 uid w Hw) as (w2 & m2 & Hw2 & Ht2).
  destruct (H23 uid w2 Hw2) as (w3 & m3 & Hw3 & Ht3).
  exists w3, (m2 ++ m3)%list. split; [exact Hw3|].
  now rewrite Ht3, Ht2, <- app_assoc.
Qed.

Lemma wallet_step_extended d ws ws' :
  wallet_step d ws ws' -> ledgers_extended ws ws'.
Proof.
  intros [-> | [(uid & t & w' & -> & Hts & _) | (uid & t & Hnone & ->)]].
  - apply ledgers_extended_refl.
  - intros uid' w Hw. destruct (decide (uid = uid')) as [<- | Hne].
    + exists w', [t]. rewrite lookup_insert_eq. split; [reflexivity|].
      now rewrite Hts, Hw.
    + exists w, []. rewrite lookup_insert_ne by exact Hne.
      split; [exact Hw | now rewrite app_nil_r].
  - intros uid' w Hw. destruct (decide (uid = uid')) as [<- | Hne].
    + congruence.
    + exists w, []. rewrite lookup_insert_ne by exact Hne.
      split; [exact Hw | now rewrite app_nil_r].
Qed.

Lemma orders_kept_refl l : orders_kept l l.
Proof. exists []. now rewrite app_nil_r. Qed.

Lemma orders_kept_trans l1 l2 l3 :
  orders_kept l1 l2 -> orders_kept l2 l3 -> orders_kept l1 l3.
Proof.
  intros [m2 H2] [m3 H3]. exists (m2 ++ m3)%list.
  now rewrite H3, H2, <- app_assoc.
Qed.

Lemma orders_step_kept l l' : orders_step l l' -> orders_kept l l'.
Proof.
  intros [-> | [(o & ->) | (before & x & y & after & -> & -> & Hfr)]].
  - apply orders_kept_refl.
  - exists [frozen o]. now rewrite map_app.
  - exists []. rewrite app_nil_r, !map_app. cbn [map]. now rewrite Hfr.
Qed.

(** X19: in every wallet the balance stays the total of the ledger, refunds
    counted positive and wallet payments negative, whatever requests are
    served; this needs the balance a new wallet document starts with to be
    zero. *)
Theorem session_keeps_ledgers_consistent hmac secret d cs : forall s,
  (d == 0)%Q ->
  ledger_consistent (Wallets s) ->
  ledger_consistent (Wallets (serveAll hmac secret d cs s)).
Proof.
  induction cs as [|c cs IH]; intros s Hd Hc; [exact Hc|].
  cbn [serveAll]. apply IH; [exact Hd|].
  destruct (serve_step hmac secret d c s) as (_ & _ & _ & Hw).
  exact (wallet_step_consistent d _ _ Hd Hc Hw).
Qed.

(** X20: ledgers are append-only.  Whatever requests are served, every wallet
    that existed is still there and its transactions are the old ones, in
    order, followed by new ones. *)
Theorem session_extends_ledgers hmac secret d cs : forall s,
  ledgers_extended (Wallets s) (Wallets (serveAll hmac secret d cs s)).
Proof.
  induction cs as [|c cs IH]; intros s; [apply ledgers_extended_refl|].
  cbn [serveAll]. eapply ledgers_extended_trans; [|apply IH].
  destruct (serve_step hmac secret d c s) as (_ & _ & _ & Hw).
  exact (wallet_step_extended d _ _ Hw).
Qed.

(** X21: orders are never deleted, reordered or repriced.  Whatever requests
    are served, the order collection starts with the orders it had, each
    with the id, owner, lines, address, payment method, amounts, coupon and
    date it was created with; only orderStatus, paymentStatus, the gateway
    reference and returnDetails are ever rewritten. *)
Theorem session_keeps_orders hmac secret d cs : forall s,
  orders_kept (Orders s) (Orders (serveAll hmac secret d cs s)).
Proof.
  induction cs as [|c cs IH]; intros s; [apply orders_kept_refl|].
  cbn [serveAll]. eapply orders_kept_trans; [|apply IH].
  destruct (serve_step hmac secret d c s) as (_ & _ & Ho & _).
  exact (orders_step_kept _ _ Ho).
Qed.

(** X22: no request writes a coupon, and the counter ids are drawn from never
    goes back. *)
Theorem session_keeps_coupons hmac secret d cs : forall s,
  Coupons (serveAll hmac secret d cs s) = Coupons s
  /\ (next_oid s <= next_oid (serveAll hmac secret d cs s))%nat.
Proof.
  induction cs as [|c cs IH]; intros s; [cbn [serveAll]; split; [reflexivity | lia]|].
  cbn [serveAll].
  destruct (serve_step hmac secret d c s) as (Hk & Hn & _).
  destruct (IH (fst (run (serve hmac secret d c) s))) as [Hk' Hn'].
  split; [congruence | lia].
Qed.

(** X23: one request posts at most one ledger entry.  A call either leaves
    all wallets as they were or touches exactly one: that wallet, created
    if absent, gets one transaction at the end of its ledger and its
    balance moves by that transaction's amount, up for a refund and down
    for a wallet payment. *)
Theorem one_posting_per_request hmac secret d c s :
  (d == 0)%Q ->
  at_most_one_posting (Wallets s) (Wallets (fst (run (serve hmac secret d c) s))).
Proof.
  intros Hd.
  destruct (serve_step hmac secret d c s)
    as (_ & _ & _ & [E | [Hp | (uid & t & Hnone & E)]]).
  - now left.
  - now right.
  - right. exists uid, t. eexists. split; [exact E|].
    rewrite Hnone. cbn [balance transactions app]. split; [reflexivity|].
    rewrite Hd. reflexivity.
Qed.

Lemma demo_funded_consistent : ledger_consistent (Wallets demo_funded).
Proof.
  intros uid w H. unfold demo_funded in H. cbn [Wallets] in H.
  apply lookup_singleton_Some in H as [_ <-]. reflexivity.
Defined.

Lemma session_keeps_ledgers_consistent_witness :
  ledger_consistent (Wallets (serveAll toy_hmac "secret" 0 demo_session demo_funded))
  /\ map amount (ledgerOf (serveAll toy_hmac "secret" 0 demo_session demo_funded) "u1")
     = [500%Q; 200%Q; 200%Q].
Proof.
  split.
  - apply session_keeps_ledgers_consistent;
      [reflexivity | exact demo_funded_consistent].
  - reflexivity.
Defined.

Lemma one_posting_per_request_witness :
  at_most_one_posting (Wallets demo_funded)
    (Wallets (fst (run (serve toy_hmac "secret" 0
                          (CallPlaceWalletOrder 9
                             (mkWalletOrderBody "u1" [demo_line 2]
                                (Some demo_address) "" 200 200)))
                     demo_funded))).
Proof. apply one_posting_per_request. reflexivity. Defined.

(** ** The catalog *)

Lemma inc_first_ids vid d vs : map v_id (inc_first vid d vs) = map v_id vs.
Proof.
  induction vs as [|v vs IH]; cbn; [reflexivity|].
  destruct (streq (v_id v) vid); cbn; congruence.
Qed.

Lemma catalog_incStock pid vid d s :
  catalog (set_Products (incStock pid vid d) s) = catalog s.
Proof.
  unfold catalog, set_Products, incStock. cbn [Products].
  destruct (Products s !! pid) as [p|] eqn:Hp; [|reflexivity].
  destruct (has_variant vid p); [|reflexivity].
  rewrite fmap_insert. apply insert_id.
  rewrite lookup_fmap, Hp. cbn. now rewrite inc_first_ids.
Qed.

Lemma keeps_ret {A} (a : A) : keeps_catalog (ret a).
Proof. intros s. reflexivity. Qed.

Lemma keeps_reply {A} r : keeps_catalog (@reply A r).
Proof. intros s. reflexivity. Qed.

Lemma keeps_gets {A} (f : Store -> A) : keeps_catalog (gets f).
Proof. intros s. reflexivity. Qed.

Lemma keeps_bind {A B} (m : Handler A) (k : A -> Handler B) :
  keeps_catalog m -> (forall a, keeps_catalog (k a)) -> keeps_catalog (bind m k).
Proof.
  intros Hm Hk s. unfold bind. specialize (Hm s).
  destruct (m s) as [s' [r|a]]; cbn [fst] in *; [exact Hm|].
  now rewrite (Hk a s').
Qed.

Lemma keeps_when b m : keeps_catalog m -> keeps_catalog (when b m).
Proof. intros Hm. destruct b; [exact Hm | apply keeps_ret]. Qed.

Lemma keeps_forEach {A} (l : list A) body :
  (forall x, keeps_catalog (body x)) -> keeps_catalog (forEach l body).
Proof.
  intros Hb. induction l as [|x l IH]; cbn [forEach]; [apply keeps_ret|].
  apply keeps_bind; [apply Hb | intros _; exact IH].
Qed.

Lemma keeps_modify f :
  (forall s, catalog (f s) = catalog s) -> keeps_catalog (modify f).
Proof. intros Hf s. apply Hf. Qed.

Lemma keeps_freshObjectId : keeps_catalog freshObjectId.
Proof. intros s. reflexivity. Qed.

Lemma keeps_incStock pid vid d : keeps_catalog (Product_incStock pid vid d).
Proof. apply keeps_modify. apply catalog_incStock. Qed.

Lemma keeps_restockReturnedItem it : keeps_catalog (restockReturnedItem it).
Proof.
  intros s. rewrite restockReturnedItem_incStock. apply catalog_incStock.
Qed.

(** Walk a handler: binds, guards, loops and cases, down to the store
    accesses. *)
Ltac walk_catalog :=
  repeat first
    [ apply keeps_ret | apply keeps_reply | apply keeps_gets
    | apply keeps_freshObjectId | apply keeps_incStock
    | apply keeps_restockReturnedItem
    | apply keeps_modify; intros; reflexivity
    | apply keeps_when
    | apply keeps_forEach; intros
    | apply keeps_bind; [|intros]
    | match goal with
      | |- keeps_catalog (match ?x with _ => _ end) => destruct x
      end
    | progress cbv zeta ].

Lemma keeps_processRefund now o : keeps_catalog (processRefund now o).
Proof.
  unfold processRefund, Wallet_findOne, Wallet_save. walk_catalog.
Qed.

Lemma keeps_serve hmac secret d c : keeps_catalog (serve hmac secret d c).
Proof.
  destruct c; cbn [serve].
  - unfold verifyRazorpayPayment. walk_catalog.
  - unfold placeOrder, placeOrder_coupon, Coupon_findOne, verifyStock,
      verifyStockItem, Product_findStock, Order_insert, reserveStock, Cart_clear.
    walk_catalog.
  - unfold placeWalletOrder, placeWalletOrder_coupon, Coupon_findOne,
      Wallet_findOne, Wallet_save, verifyStock, verifyStockItem,
      Product_findStock, Order_insert, reserveStock, Cart_clear.
    walk_catalog.
  - unfold orderById, Order_findById. walk_catalog.
  - unfold returnOrderStatusUpdate, Order_findById, Order_save.
    walk_catalog; apply keeps_processRefund.
  - unfold orderStatusUpdate, handleCancellation, handleReturns,
      restockCancelled, restockReturned, Order_findById, Order_save,
      Wallet_findOne.
    walk_catalog; apply keeps_processRefund.
  - unfold refundOrders, Order_findById, Wallet_findOne, Wallet_save.
    walk_catalog.
Qed.

(** X24: no sequence of requests adds, removes or renames a product or a
    variant: the catalog after a session has the products it had, each with
    its name and its variant ids in the same order; stock counters are all
    that is written. *)
Theorem session_keeps_catalog hmac secret d cs : forall s,
  catalog (serveAll hmac secret d cs s) = catalog s.
Proof.
  induction cs as [|c cs IH]; intros s; [reflexivity|].
  cbn [serveAll]. rewrite IH. unfold run.
  pose proof (keeps_serve hmac secret d c s) as H.
  now destruct (serve hmac secret d c s) as [s' [r|r]].
Qed.

(** ** The statements above on the sample store *)

Lemma demo_stock_passes : stockCheckPasses (demo_store_with []) [demo_line 2].
Proof.
  constructor; [|constructor].
  eexists. split; [reflexivity|]. split; reflexivity.
Defined.

Lemma placeOrder_effect_witness :
  stockOf (fst (run (placeOrder 9 (demo_checkout_of "" 200)) (demo_store_with [])))
    "p1" "vA"
  = Some 3%Z.
Proof.
  destruct (placeOrder_effect 9 (demo_checkout_of "" 200) (demo_store_with [])
              demo_address eq_refl)
    as (o & _ & _ & _ & _ & _ & Hprod & _ & _ & Hstk & _);
    try discriminate; [exact demo_stock_passes|].
  rewrite Hstk, Hprod. reflexivity.
Defined.

Lemma placeOrder_payment_failed_witness :
  Products (fst (run (placeOrder 9 demo_failed_checkout) (demo_store_with [])))
  = demo_catalog.
Proof.
  destruct (placeOrder_payment_failed 9 demo_failed_checkout (demo_store_with [])
              demo_address eq_refl) as (o & Hrun & _);
    try discriminate; [exact demo_stock_passes | reflexivity |].
  rewrite Hrun. reflexivity.
Defined.

Lemma placeWalletOrder_effect_witness :
  balanceOf (fst (run (placeWalletOrder 9 demo_wallet_checkout) (demo_store_with [])))
    "u1"
  = (500 - 200)%Q.
Proof.
  destruct (placeWalletOrder_effect 9 demo_wallet_checkout (demo_store_with [])
              demo_address (mkWallet 500 []) eq_refl)
    as (o & _ & _ & _ & _ & _ & _ & _ & _ & Hw & _);
    try discriminate; [reflexivity | exact demo_stock_passes|].
  unfold balanceOf. rewrite Hw. reflexivity.
Defined.

Lemma created_order_is_found_witness :
  r_status (snd (run (orderById "7")
                   (fst (run (placeOrder 9 (demo_checkout_of "" 200))
                           (demo_store_with [])))))
  = 200%Z.
Proof.
  destruct (created_order_is_found 9 (demo_checkout_of "" 200) (demo_store_with [])
              demo_address eq_refl) as (o & Ho & Hfound);
    try discriminate; [exact demo_stock_passes | constructor |].
  assert (Hid : o_id o = "7") by (vm_compute in Ho; now injection Ho as <-).
  rewrite Hid in Hfound. rewrite Hfound. reflexivity.
Defined.

Lemma place_then_cancel_witness :
  let s := demo_store_with [] in
  stockOf (fst (run (orderStatusUpdate 10 "7" "Cancelled")
                  (fst (run (placeOrder 9 (demo_checkout_of "" 200)) s))))
    "p1" "vA"
  = stockOf s "p1" "vA".
Proof.
  intros s.
  destruct (place_then_cancel 9 10 (demo_checkout_of "" 200) s demo_address eq_refl)
    as (o & _ & _ & Hstk & _);
    try discriminate; [exact demo_stock_passes | constructor |].
  apply Hstk.
Defined.

Lemma failed_payment_then_cancel_witness :
  let s := demo_store_with [] in
  stockOf (fst (run (orderStatusUpdate 10 "7" "Cancelled")
                  (fst (run (placeOrder 9 demo_failed_checkout) s))))
    "p1" "vA"
  = Some 7%Z.
Proof.
  intros s.
  destruct (failed_payment_then_cancel 9 10 demo_failed_checkout s demo_address
              eq_refl) as (_ & _ & Hstk & _);
    try discriminate; [exact demo_stock_passes | reflexivity | constructor |].
  rewrite Hstk. reflexivity.
Defined.

Lemma wallet_order_then_cancel_witness :
  let s := demo_store_with [] in
  balanceOf (fst (run (orderStatusUpdate 10 "8" "Cancelled")
                    (fst (run (placeWalletOrder 9 demo_wallet_checkout) s))))
    "u1"
  = (500 - 200)%Q.
Proof.
  intros s.
  destruct (wallet_order_then_cancel 9 10 demo_wallet_checkout s demo_address
              (mkWallet 500 []) eq_refl) as (_ & _ & _ & Hw);
    try discriminate; [reflexivity | exact demo_stock_passes | constructor |].
  change (wb_userId demo_wallet_checkout) with "u1" in Hw.
  assert (E : balanceOf
                (fst (run (orderStatusUpdate 10 (oid_of (S (next_oid s))) "Cancelled")
                        (fst (run (placeWalletOrder 9 demo_wallet_checkout) s))))
                "u1" = (500 - 200)%Q)
    by (unfold balanceOf; rewrite Hw; reflexivity).
  exact E.
Defined.
